(** * PaperNewsBot: ingestion dedup, field matching, briefing generation,
      per-user fanout and delivery state

    A shallow embedding of the service layer of the repository
    ([src/services/paper_service.py], [src/services/briefing_service.py],
    [src/services/ai_service.py], [src/services/user_service.py]) over
    the tables declared in [src/models/database.py], and of the stages
    that drive it ([src/scheduler.py], [send_daily_briefings] of
    [src/bot/telegram_bot.py]).

    Conventions.
    - A Python [str] is a sequence of Unicode code points ([PyStr.str]),
      so that [len] and slicing count what Python counts.
    - A [datetime] is an integer number of microseconds ([Z]); a nullable
      column is an [option].
    - A table is the list of its rows; a service method takes the store
      and the value [datetime.utcnow()] returned during the call, and
      gives back the store after [commit] (or the unchanged store after
      [rollback]) together with the method's return value.  *)

From Stdlib Require Import List ZArith NArith Bool Lia String Ascii.
From Stdlib Require Import Permutation Sorted QArith.
Import ListNotations.

Local Open Scope Z_scope.

(* ------------------------------------------------------------------ *)
(** ** Python strings *)
(* ------------------------------------------------------------------ *)

Module PyStr.

(** One Unicode code point. *)
Definition char := N.

Definition str := list char.

Definition char_eqb : char -> char -> bool := N.eqb.

Fixpoint eqb (s t : str) : bool :=
  match s, t with
  | [], [] => true
  | a :: s', b :: t' => char_eqb a b && eqb s' t'
  | _, _ => false
  end.

(** Bytes of a literal, then UTF-8 decoding: the literals of the source
    are written below as they appear in the Python files. *)
Fixpoint bytes_of (s : string) : list N :=
  match s with
  | EmptyString => []
  | String a s' => N_of_ascii a :: bytes_of s'
  end.

Fixpoint utf8_decode (pending : nat) (acc : N) (bs : list N) : str :=
  match bs with
  | [] => []
  | b :: rest =>
      if (b <? 128)%N then b :: utf8_decode 0 0%N rest
      else if (b <? 192)%N then
        let acc' := (acc * 64 + (b - 128))%N in
        match pending with
        | 0%nat => utf8_decode 0 0%N rest
        | 1%nat => acc' :: utf8_decode 0 0%N rest
        | S n => utf8_decode n acc' rest
        end
      else if (b <? 224)%N then utf8_decode 1 (b - 192)%N rest
      else if (b <? 240)%N then utf8_decode 2 (b - 224)%N rest
      else utf8_decode 3 (b - 240)%N rest
  end.

Definition lit (s : string) : str := utf8_decode 0 0%N (bytes_of s).

Definition nl : str := [10%N].

(** [len(s)] *)
Definition len (s : str) : Z := Z.of_nat (List.length s).

(** [s[:n]] for a non-negative constant [n]. *)
Definition slice_to (n : nat) (s : str) : str := firstn n s.

(** [sep.join(parts)] *)
Fixpoint join (sep : str) (parts : list str) : str :=
  match parts with
  | [] => []
  | [p] => p
  | p :: rest => p ++ sep ++ join sep rest
  end.

(** [s.startswith(p)] *)
Fixpoint starts_with (p s : str) : bool :=
  match p, s with
  | [], _ => true
  | a :: p', b :: s' => char_eqb a b && starts_with p' s'
  | _ :: _, [] => false
  end.

(** [p in s] *)
Fixpoint contains (p s : str) : bool :=
  starts_with p s ||
  match s with
  | [] => false
  | _ :: s' => contains p s'
  end.

(** [s.split(c)] for a one-character separator: never empty. *)
Fixpoint split (c : char) (s : str) : list str :=
  match s with
  | [] => [[]]
  | a :: s' =>
      if char_eqb a c then [] :: split c s'
      else match split c s' with
           | [] => [[a]]
           | w :: ws => (a :: w) :: ws
           end
  end.

(** The characters [str.strip()] removes: [str.isspace()] is true for
    them. *)
Definition is_space (c : char) : bool :=
  ((9 <=? c) && (c <=? 13) || (28 <=? c) && (c <=? 32)
   || (c =? 133) || (c =? 160) || (c =? 5760)
   || (8192 <=? c) && (c <=? 8202)
   || (c =? 8232) || (c =? 8233) || (c =? 8239) || (c =? 8287)
   || (c =? 12288))%N.

Fixpoint lstrip (s : str) : str :=
  match s with
  | [] => []
  | a :: s' => if is_space a then lstrip s' else s
  end.

(** [s.strip()] *)
Definition strip (s : str) : str := rev (lstrip (rev (lstrip s))).

(** Truth value of a [str]: the empty string is false. *)
Definition truthy (s : str) : bool :=
  match s with [] => false | _ :: _ => true end.

(** Truth value of an [Optional[str]]. *)
Definition truthy_opt (o : option str) : bool :=
  match o with Some s => truthy s | None => false end.

End PyStr.

Import PyStr.

(* ------------------------------------------------------------------ *)
(** ** Tables ([src/models/database.py]) *)
(* ------------------------------------------------------------------ *)

(** [datetime]: microseconds on the UTC time line. *)
Definition datetime := Z.

(** [timedelta(days=n)] *)
Definition timedelta_days (n : Z) : Z := n * 86400000000.

Module ResearchField.
Record t := mk {
  id : Z;
  name : str;
  arxiv_categories : option str;
  keywords : option str
}.
End ResearchField.

Module User.
Record t := mk {
  id : Z;
  telegram_id : str;
  daily_paper_limit : Z;
  is_active : bool;
  crawl_history_days : Z;
  research_fields : list ResearchField.t
}.
End User.

Module Paper.
Record t := mk {
  id : Z;
  external_id : str;
  source : str;
  title : str;
  authors : str;
  abstract : str;
  keywords : option str;
  publish_date : option datetime;
  venue : option str;
  pdf_url : option str;
  source_url : str;
  created_at : datetime;
  updated_at : datetime
}.
End Paper.

Module Briefing.
Record t := mk {
  id : Z;
  paper_id : Z;
  content : str;
  ai_model : option str;
  created_at : datetime
}.
End Briefing.

Module UserBriefing.
Record t := mk {
  id : Z;
  user_id : Z;
  briefing_id : Z;
  is_sent : bool;
  sent_at : option datetime;
  is_read : bool;
  read_at : option datetime;
  is_interested : bool;
  created_at : datetime
}.
End UserBriefing.

(** [PaperMetadata.authors] is declared [List[str]]; [_save_paper] also
    accepts a value that is already a [str]. *)
Inductive authors_value :=
| AuthorsStr (s : str)
| AuthorsList (l : list str).

Module PaperMetadata.
Record t := mk {
  external_id : str;
  source : str;
  title : str;
  authors : authors_value;
  abstract : str;
  publish_date : option datetime;
  venue : option str;
  pdf_url : option str;
  source_url : str;
  keywords : list str
}.
End PaperMetadata.

(** The store a [Session] works on: the three tables the pipeline
    writes. *)
Record Session := mkSession {
  papers : list Paper.t;
  briefings : list Briefing.t;
  user_briefings : list UserBriefing.t
}.

Definition empty_session : Session := mkSession [] [] [].

(** [Column(Integer, primary_key=True, autoincrement=True)]: the key of a
    new row is one more than the largest key of the table. *)
Definition next_id (ids : list Z) : Z := 1 + fold_right Z.max 0 ids.

(** *** Constraints checked when a row is flushed

    Besides the primary key, [papers] declares
    [external_id = Column(String(255), unique=True, ...)];
    [ix_papers_source_external_id] is a plain index.  [briefings] declares
    [paper_id = Column(Integer, ForeignKey("papers.id"), nullable=False,
    index=True)]: an index, no uniqueness.  [user_briefings] declares
    [Index("ix_user_briefings_user_briefing", "user_id", "briefing_id",
    unique=True)].  [None] is the [IntegrityError] of the flush. *)

Definition insert_paper (db : Session) (row : Paper.t) : option Session :=
  if existsb (fun p => Z.eqb (Paper.id p) (Paper.id row)
                       || eqb (Paper.external_id p) (Paper.external_id row))
       (papers db)
  then None
  else Some (mkSession (papers db ++ [row]) (briefings db) (user_briefings db)).

Definition insert_briefing (db : Session) (row : Briefing.t) : option Session :=
  if existsb (fun b => Z.eqb (Briefing.id b) (Briefing.id row)) (briefings db)
  then None
  else Some (mkSession (papers db) (briefings db ++ [row]) (user_briefings db)).

Definition insert_user_briefing (db : Session) (row : UserBriefing.t)
  : option Session :=
  if existsb (fun ub =>
                Z.eqb (UserBriefing.id ub) (UserBriefing.id row)
                || Z.eqb (UserBriefing.user_id ub) (UserBriefing.user_id row)
                   && Z.eqb (UserBriefing.briefing_id ub)
                        (UserBriefing.briefing_id row))
       (user_briefings db)
  then None
  else Some (mkSession (papers db) (briefings db) (user_briefings db ++ [row])).

(** [ResearchField.get_keywords_list] *)
Definition get_keywords_list (field : ResearchField.t) : list str :=
  match ResearchField.keywords field with
  | Some kws =>
      if truthy kws
      then map strip (filter (fun kw => truthy (strip kw)) (split 44%N kws))
      else []
  | None => []
  end.

(* ------------------------------------------------------------------ *)
(** ** What the database engine decides *)
(* ------------------------------------------------------------------ *)

(** The queries of the service layer leave two things to the engine:
    how [ILIKE] compares, and in which order [ORDER BY publish_date DESC]
    returns rows whose [publish_date] are equal (no query of the source
    names a second sort key) or null. *)
Record SqlEngine := mkEngine {
  ilike : str -> str -> bool;
  order_by_desc : forall A : Type, (A -> option datetime) -> list A -> list A
}.

(** Two rows may follow one another in a [DESC] result. *)
Definition desc_ok (a b : option datetime) : Prop :=
  match a, b with
  | Some x, Some y => y <= x
  | _, _ => True
  end.

(** What [ORDER BY key DESC] promises: the same rows, keys
    non-increasing. *)
Definition order_by_contract (E : SqlEngine) : Prop :=
  forall (A : Type) (key : A -> option datetime) (rows : list A),
    Permutation rows (order_by_desc E A key rows)
    /\ StronglySorted (fun x y => desc_ok (key x) (key y))
         (order_by_desc E A key rows).

(** [query.limit(n)]; SQLite, the default [database_url], reads a
    negative [LIMIT] as no limit. *)
Definition sql_limit {A : Type} (n : Z) (rows : list A) : list A :=
  if n <? 0 then rows else firstn (Z.to_nat n) rows.

(** [column.ilike(pattern)] in a [WHERE] clause: a null column does not
    match. *)
Definition column_ilike (E : SqlEngine) (column : option str) (pattern : str)
  : bool :=
  match column with
  | Some v => ilike E v pattern
  | None => false
  end.

(** One element of [keyword_conditions]:
    [Paper.title.ilike(p) | Paper.abstract.ilike(p) | Paper.keywords.ilike(p)]
    with [p = f"%{keyword}%"]. *)
Definition keyword_condition (E : SqlEngine) (paper : Paper.t) (keyword : str)
  : bool :=
  let pattern := lit "%" ++ keyword ++ lit "%" in
  column_ilike E (Some (Paper.title paper)) pattern
  || column_ilike E (Some (Paper.abstract paper)) pattern
  || column_ilike E (Paper.keywords paper) pattern.

(** [query.filter(or_( *keyword_conditions))], applied only
    [if all_keywords]. *)
Definition keyword_filter (E : SqlEngine) (all_keywords : list str)
  (paper : Paper.t) : bool :=
  match all_keywords with
  | [] => true
  | _ :: _ => existsb (keyword_condition E paper) all_keywords
  end.

(** *** Two engines

    Insertion sort by [before]: [x] is put in front of the first row it
    may precede. *)
Fixpoint insert_by {A : Type} (before : A -> A -> bool) (x : A) (l : list A)
  : list A :=
  match l with
  | [] => [x]
  | y :: l' => if before x y then x :: l else y :: insert_by before x l'
  end.

Definition sort_by {A : Type} (before : A -> A -> bool) (l : list A) : list A :=
  fold_right (insert_by before) [] l.

(** [a] is not older than [b]; null is the smallest value, as SQLite
    orders it. *)
Definition desc_leb (a b : option datetime) : bool :=
  match a, b with
  | Some x, Some y => y <=? x
  | Some _, None => true
  | None, Some _ => false
  | None, None => true
  end.

(** A sort that keeps rows of equal key in table order. *)
Definition order_stable
  : forall A : Type, (A -> option datetime) -> list A -> list A :=
  fun A key => sort_by (fun x y => desc_leb (key x) (key y)).

(** A backward walk of the ascending index on the key
    ([publish_date = Column(DateTime, nullable=True, index=True)]): rows of
    equal key come out in reverse table order. *)
Definition order_index_backward
  : forall A : Type, (A -> option datetime) -> list A -> list A :=
  fun A key => sort_by (fun x y => negb (desc_leb (key y) (key x))).

(** ASCII case folding and SQL [LIKE]: [%] matches any run of characters,
    [_] any one character. *)
Definition ascii_lower (c : char) : char :=
  if ((65 <=? c) && (c <=? 90))%N then (c + 32)%N else c.

Fixpoint like (pattern : str) : str -> bool :=
  match pattern with
  | [] => fun v => match v with [] => true | _ :: _ => false end
  | c :: pattern' =>
      if char_eqb c 37%N then
        fix star (v : str) : bool :=
          like pattern' v || match v with [] => false | _ :: v' => star v' end
      else
        fun v =>
          match v with
          | [] => false
          | a :: v' =>
              (char_eqb c 95%N || char_eqb (ascii_lower c) (ascii_lower a))
              && like pattern' v'
          end
  end.

Definition sqlite_stable : SqlEngine :=
  mkEngine (fun v pattern => like pattern v) order_stable.

Definition sqlite_index_backward : SqlEngine :=
  mkEngine (fun v pattern => like pattern v) order_index_backward.

(* ------------------------------------------------------------------ *)
(** ** [PaperService] ([src/services/paper_service.py]) *)
(* ------------------------------------------------------------------ *)

(** [db.query(Paper).filter(Paper.external_id == e, Paper.source == s).first()] *)
Definition find_paper (db : Session) (external_id source : str)
  : option Paper.t :=
  find (fun p => eqb (Paper.external_id p) external_id
                 && eqb (Paper.source p) source)
    (papers db).

(** The [Paper(...)] built by [_save_paper]; [created_at] and [updated_at]
    take their column default [datetime.utcnow]. *)
Definition paper_of_metadata (new_id : Z) (now : datetime)
  (metadata : PaperMetadata.t) : Paper.t :=
  Paper.mk new_id
    (PaperMetadata.external_id metadata)
    (PaperMetadata.source metadata)
    (PaperMetadata.title metadata)
    (match PaperMetadata.authors metadata with
     | AuthorsStr s => s
     | AuthorsList l => join (lit ", ") l
     end)
    (PaperMetadata.abstract metadata)
    (match PaperMetadata.keywords metadata with
     | [] => None
     | _ :: _ => Some (join (lit ", ") (PaperMetadata.keywords metadata))
     end)
    (PaperMetadata.publish_date metadata)
    (PaperMetadata.venue metadata)
    (PaperMetadata.pdf_url metadata)
    (PaperMetadata.source_url metadata)
    now now.

(** [PaperService._save_paper]: the paper saved, or [None] when it exists
    already or the commit raised (the [except] branch rolls back). *)
Definition _save_paper (db : Session) (now : datetime)
  (metadata : PaperMetadata.t) : Session * option Paper.t :=
  match find_paper db (PaperMetadata.external_id metadata)
          (PaperMetadata.source metadata) with
  | Some _existing => (db, None)
  | None =>
      let paper :=
        paper_of_metadata (next_id (map Paper.id (papers db))) now metadata in
      match insert_paper db paper with
      | Some db' => (db', Some paper)
      | None => (db, None)
      end
  end.

(** The loop of [_fetch_arxiv_papers] and of [_fetch_openreview_papers]
    over what the crawler yields; each record comes with the clock
    reading of its save.  Only saved papers are appended. *)
Fixpoint save_stream (db : Session)
  (stream : list (datetime * PaperMetadata.t)) : Session * list Paper.t :=
  match stream with
  | [] => (db, [])
  | (now, metadata) :: rest =>
      let (db1, saved) := _save_paper db now metadata in
      let (db2, papers) := save_stream db1 rest in
      (db2, match saved with
            | Some paper => paper :: papers
            | None => papers
            end)
  end.

Definition _fetch_arxiv_papers := save_stream.

Definition _fetch_openreview_papers := save_stream.

(** [Paper LEFT OUTER JOIN Briefing ON Paper.id == Briefing.paper_id]:
    a paper with no briefing gives one row with a null right side. *)
Definition outerjoin_briefing (db : Session)
  : list (Paper.t * option Briefing.t) :=
  flat_map
    (fun p =>
       match filter (fun b => Z.eqb (Paper.id p) (Briefing.paper_id b))
               (briefings db) with
       | [] => [(p, None)]
       | bs => map (fun b => (p, Some b)) bs
       end)
    (papers db).

(** [.filter(Briefing.id == None)] on the joined rows. *)
Definition briefing_is_null (row : Paper.t * option Briefing.t) : bool :=
  match snd row with
  | None => true
  | Some _ => false
  end.

(** [Paper.publish_date >= since]: false on a null date. *)
Definition published_since (since : datetime) (p : Paper.t) : bool :=
  match Paper.publish_date p with
  | Some d => since <=? d
  | None => false
  end.

(** The keywords of [research_fields], as both selections collect them. *)
Definition fields_keywords (research_fields : list ResearchField.t)
  : list str :=
  flat_map get_keywords_list research_fields.

(** [PaperService.get_papers_for_briefing] *)
Definition get_papers_for_briefing (E : SqlEngine) (db : Session)
  (limit : option Z) (since : option datetime)
  (research_fields : list ResearchField.t) : list Paper.t :=
  let query := map fst (filter briefing_is_null (outerjoin_briefing db)) in
  let query :=
    match since with
    | Some s => filter (published_since s) query
    | None => query
    end in
  let query :=
    filter (keyword_filter E (fields_keywords research_fields)) query in
  let query := order_by_desc E Paper.t Paper.publish_date query in
  match limit with
  | Some n => if n =? 0 then query else sql_limit n query
  | None => query
  end.

(* ------------------------------------------------------------------ *)
(** ** [AIService] ([src/services/ai_service.py]) *)
(* ------------------------------------------------------------------ *)

Record Settings := mkSettings {
  openai_api_key : option str;
  anthropic_api_key : option str;
  max_papers_per_day : Z
}.

(** What a call of the text-generation collaborator does: it returns the
    message content, or the call (or reading the content) raises. *)
Inductive api_result :=
| ApiContent (content : str)
| ApiRaises.

(** The two backends, as functions of the prompt. *)
Record Collaborator := mkCollaborator {
  openai_create : str -> api_result;
  anthropic_create : str -> api_result
}.

(** [AIService._build_briefing_prompt] *)
Definition _build_briefing_prompt (title authors abstract : str)
  (venue : option str) : str :=
  let venue_info :=
    match venue with
    | Some v => if truthy v then lit "发表会议/期刊: " ++ v ++ nl else []
    | None => []
    end in
  lit "请为以下学术论文生成一份简洁的简报（用中文）：" ++ nl
  ++ nl
  ++ lit "论文标题: " ++ title ++ nl
  ++ lit "作者: " ++ authors ++ nl
  ++ venue_info ++ lit "摘要:" ++ nl
  ++ abstract ++ nl
  ++ nl
  ++ lit "请按照以下格式生成简报：" ++ nl
  ++ nl
  ++ lit "📄 **" ++ title ++ lit "**" ++ nl
  ++ nl
  ++ lit "👥 **作者**: " ++ authors ++ nl
  ++ nl
  ++ lit "🎯 **核心贡献**:" ++ nl
  ++ lit "- [简要概括论文的主要贡献，2-3点]" ++ nl
  ++ nl
  ++ lit "🔍 **方法概述**:" ++ nl
  ++ lit "[简要描述论文使用的方法，1-2句话]" ++ nl
  ++ nl
  ++ lit "📊 **主要结果**:" ++ nl
  ++ lit "[如果有实验结果，简要概括]" ++ nl
  ++ nl
  ++ lit "💡 **关键见解**:" ++ nl
  ++ lit "[论文的核心观点或创新点]" ++ nl
  ++ nl
  ++ lit "请确保简报简洁明了，突出论文的核心价值。".

(** The marker appended to a cut abstract. *)
Definition truncation_marker : str := lit "...".

(** The closing note of the fallback summary. *)
Definition unavailable_note : str :=
  lit "⚠️ *注：AI 服务暂时不可用，以上为原始摘要。".

(** [AIService._fallback_summary] *)
Definition _fallback_summary (title abstract : str) : str :=
  lit "📄 **" ++ title ++ lit "**" ++ nl
  ++ nl
  ++ lit "📝 **摘要**:" ++ nl
  ++ slice_to 500 abstract
  ++ (if 500 <? len abstract then truncation_marker else []) ++ nl
  ++ nl
  ++ unavailable_note.

(** [AIService._generate_with_openai] *)
Definition _generate_with_openai (llm : Collaborator) (prompt : str) : str :=
  match openai_create llm prompt with
  | ApiContent content => strip content
  | ApiRaises => _fallback_summary prompt []
  end.

(** [AIService._generate_with_anthropic] *)
Definition _generate_with_anthropic (llm : Collaborator) (prompt : str) : str :=
  match anthropic_create llm prompt with
  | ApiContent content => strip content
  | ApiRaises => _fallback_summary prompt []
  end.

(** [AIService.generate_briefing]; a client exists exactly when its key is
    set and not empty. *)
Definition generate_briefing (settings : Settings) (llm : Collaborator)
  (title authors abstract : str) (venue : option str) : str :=
  let prompt := _build_briefing_prompt title authors abstract venue in
  if truthy_opt (openai_api_key settings) then _generate_with_openai llm prompt
  else if truthy_opt (anthropic_api_key settings)
       then _generate_with_anthropic llm prompt
       else _fallback_summary title abstract.

(** The loop of [check_interest] that counts the interests found in
    [text]. *)
Definition count_matches (lower : str -> str) (text : str)
  (user_interests : list str) : nat :=
  fold_left
    (fun match_count interest =>
       if contains (lower interest) text then S match_count else match_count)
    user_interests 0%nat.

(** [AIService.check_interest], given [str.lower].  The score is kept as
    the exact quotient; [is_interested] is the same for the rounded one,
    which is [0.0] exactly when [match_count] is [0]. *)
Definition check_interest (lower : str -> str) (title abstract : str)
  (keywords user_interests : list str) : bool * Q :=
  match user_interests with
  | [] => (true, 1%Q)
  | _ :: _ =>
      let text :=
        lower (title ++ lit " " ++ abstract ++ lit " " ++ join (lit " ") keywords) in
      let match_count := count_matches lower text user_interests in
      let score :=
        (Z.of_nat match_count # Pos.of_nat (List.length user_interests))%Q in
      let is_interested :=
        Qle_bool (3 # 10) score || (0 <? match_count)%nat in
      (is_interested, score)
  end.

(* ------------------------------------------------------------------ *)
(** ** [BriefingService] ([src/services/briefing_service.py]) *)
(* ------------------------------------------------------------------ *)

(** [BriefingService._get_pending_papers] *)
Definition _get_pending_papers (E : SqlEngine) (db : Session) (now : datetime)
  (limit : Z) (research_fields : list ResearchField.t) : list Paper.t :=
  let since := now - timedelta_days 7 in
  let query := map fst (filter briefing_is_null (outerjoin_briefing db)) in
  let query := filter (published_since since) query in
  let query :=
    filter (keyword_filter E (fields_keywords research_fields)) query in
  sql_limit limit (order_by_desc E Paper.t Paper.publish_date query).

(** [db.query(Briefing).filter(Briefing.paper_id == paper.id).first()] *)
Definition find_briefing (db : Session) (paper : Paper.t)
  : option Briefing.t :=
  find (fun b => Z.eqb (Briefing.paper_id b) (Paper.id paper)) (briefings db).

(** [ai_model] as [_generate_single_briefing] names it. *)
Definition ai_model_tag (settings : Settings) : str :=
  if truthy_opt (openai_api_key settings) then lit "openai"
  else if truthy_opt (anthropic_api_key settings) then lit "anthropic"
  else lit "fallback".

(** Lines 112-132 of [_generate_single_briefing]: generate the content,
    add the row and commit; [None] after the rollback of the [except]
    branch. *)
Definition add_briefing (db : Session) (now : datetime) (settings : Settings)
  (llm : Collaborator) (paper : Paper.t) : Session * option Briefing.t :=
  let content :=
    generate_briefing settings llm (Paper.title paper) (Paper.authors paper)
      (Paper.abstract paper) (Paper.venue paper) in
  let briefing :=
    Briefing.mk (next_id (map Briefing.id (briefings db))) (Paper.id paper)
      content (Some (ai_model_tag settings)) now in
  match insert_briefing db briefing with
  | Some db' => (db', Some briefing)
  | None => (db, None)
  end.

(** [BriefingService._generate_single_briefing] *)
Definition _generate_single_briefing (db : Session) (now : datetime)
  (settings : Settings) (llm : Collaborator) (paper : Paper.t)
  : Session * option Briefing.t :=
  match find_briefing db paper with
  | Some existing => (db, Some existing)
  | None => add_briefing db now settings llm paper
  end.

(** The loop of [generate_briefings]; [clock i] is the time of the
    [i]-th commit. *)
Fixpoint briefings_loop (db : Session) (clock : nat -> datetime) (i : nat)
  (settings : Settings) (llm : Collaborator) (papers : list Paper.t)
  : Session * list Briefing.t :=
  match papers with
  | [] => (db, [])
  | paper :: rest =>
      let (db1, briefing) :=
        _generate_single_briefing db (clock i) settings llm paper in
      let (db2, briefings) := briefings_loop db1 clock (S i) settings llm rest in
      (db2, match briefing with
            | Some b => b :: briefings
            | None => briefings
            end)
  end.

(** [BriefingService.generate_briefings] *)
Definition generate_briefings (E : SqlEngine) (db : Session) (now : datetime)
  (clock : nat -> datetime) (settings : Settings) (llm : Collaborator)
  (papers : option (list Paper.t)) (max_papers : option Z)
  (research_fields : list ResearchField.t) : Session * list Briefing.t :=
  let max_papers :=
    match max_papers with
    | Some n => if n =? 0 then max_papers_per_day settings else n
    | None => max_papers_per_day settings
    end in
  let papers :=
    match papers with
    | Some l => l
    | None => _get_pending_papers E db now max_papers research_fields
    end in
  briefings_loop db clock 0 settings llm papers.

(** *** Invocations that overlap

    Each invocation of [_generate_single_briefing] issues two statements
    on the store: the [SELECT] of line 107 and the [INSERT] committed on
    line 128.  An invocation is at one of three points. *)
Inductive invocation :=
| AtLookup (paper : Paper.t)
| AtCommit (paper : Paper.t)
| Returned (result : option Briefing.t).

(** The next statement of an invocation. *)
Definition invocation_step (db : Session) (now : datetime)
  (settings : Settings) (llm : Collaborator) (inv : invocation)
  : Session * invocation :=
  match inv with
  | AtLookup paper =>
      match find_briefing db paper with
      | Some existing => (db, Returned (Some existing))
      | None => (db, AtCommit paper)
      end
  | AtCommit paper =>
      let (db', result) := add_briefing db now settings llm paper in
      (db', Returned result)
  | Returned result => (db, Returned result)
  end.

(** Two invocations against one store; the schedule says which one runs
    its next statement ([true]: the first), and at what time. *)
Fixpoint run_two (db : Session) (settings : Settings) (llm : Collaborator)
  (first second : invocation) (schedule : list (bool * datetime))
  : Session * invocation * invocation :=
  match schedule with
  | [] => (db, first, second)
  | (true, now) :: rest =>
      let (db', first') := invocation_step db now settings llm first in
      run_two db' settings llm first' second rest
  | (false, now) :: rest =>
      let (db', second') := invocation_step db now settings llm second in
      run_two db' settings llm first second' rest
  end.

(** At most one briefing per paper. *)
Definition one_briefing_per_paper (db : Session) : Prop :=
  NoDup (map Briefing.paper_id (briefings db)).

(** *** Fanout *)

(** [db.query(Briefing).join(Paper)]: the briefings with their paper. *)
Definition join_paper (db : Session) : list (Briefing.t * Paper.t) :=
  flat_map
    (fun b =>
       map (fun p => (b, p))
         (filter (fun p => Z.eqb (Briefing.paper_id b) (Paper.id p))
            (papers db)))
    (briefings db).

(** [select(UserBriefing.briefing_id).where(UserBriefing.user_id == user.id)] *)
Definition existing_briefing_ids (db : Session) (user : User.t) : list Z :=
  map UserBriefing.briefing_id
    (filter (fun ub => Z.eqb (UserBriefing.user_id ub) (User.id user))
       (user_briefings db)).

(** The user's candidates: the rows of the query of
    [create_user_briefings] before [order_by] and [limit]. *)
Definition eligible_briefings (E : SqlEngine) (db : Session) (user : User.t)
  : list (Briefing.t * Paper.t) :=
  let all_keywords := fields_keywords (User.research_fields user) in
  let query :=
    filter
      (fun row =>
         negb (existsb (Z.eqb (Briefing.id (fst row)))
                 (existing_briefing_ids db user)))
      (join_paper db) in
  filter (fun row => keyword_filter E all_keywords (snd row)) query.

(** [UserBriefing(user_id=..., briefing_id=..., is_sent=False)] with the
    column defaults. *)
Definition new_user_briefing (new_id : Z) (now : datetime) (user : User.t)
  (briefing : Briefing.t) : UserBriefing.t :=
  UserBriefing.mk new_id (User.id user) (Briefing.id briefing)
    false None false None false now.

(** The rows added in the loop, flushed in order by the one [commit];
    [None] as soon as a row breaks a constraint. *)
Fixpoint add_user_briefings (db : Session) (now : datetime) (user : User.t)
  (briefings : list Briefing.t) : option (Session * list UserBriefing.t) :=
  match briefings with
  | [] => Some (db, [])
  | briefing :: rest =>
      let row :=
        new_user_briefing (next_id (map UserBriefing.id (user_briefings db)))
          now user briefing in
      match insert_user_briefing db row with
      | None => None
      | Some db1 =>
          match add_user_briefings db1 now user rest with
          | None => None
          | Some (db2, rows) => Some (db2, row :: rows)
          end
      end
  end.

(** [BriefingService.create_user_briefings] *)
Definition create_user_briefings (E : SqlEngine) (db : Session)
  (now : datetime) (user : User.t) : Session * list UserBriefing.t :=
  let briefings :=
    map fst
      (sql_limit (User.daily_paper_limit user * 3)
         (order_by_desc E _ (fun row => Paper.publish_date (snd row))
            (eligible_briefings E db user))) in
  match add_user_briefings db now user briefings with
  | Some (db', user_briefings) => (db', user_briefings)
  | None => (db, [])
  end.

(** *** Delivery state *)

(** [db.query(UserBriefing).filter(UserBriefing.id == i).first()] *)
Definition find_user_briefing (db : Session) (user_briefing_id : Z)
  : option UserBriefing.t :=
  find (fun ub => Z.eqb (UserBriefing.id ub) user_briefing_id)
    (user_briefings db).

(** The [UPDATE ... WHERE id = i] that the commit issues for the changed
    object. *)
Definition update_user_briefing (db : Session) (user_briefing_id : Z)
  (change : UserBriefing.t -> UserBriefing.t) : Session :=
  mkSession (papers db) (briefings db)
    (map (fun ub =>
            if Z.eqb (UserBriefing.id ub) user_briefing_id then change ub
            else ub)
       (user_briefings db)).

Definition set_sent (now : datetime) (ub : UserBriefing.t) : UserBriefing.t :=
  UserBriefing.mk (UserBriefing.id ub) (UserBriefing.user_id ub)
    (UserBriefing.briefing_id ub) true (Some now) (UserBriefing.is_read ub)
    (UserBriefing.read_at ub) (UserBriefing.is_interested ub)
    (UserBriefing.created_at ub).

Definition set_read (now : datetime) (ub : UserBriefing.t) : UserBriefing.t :=
  UserBriefing.mk (UserBriefing.id ub) (UserBriefing.user_id ub)
    (UserBriefing.briefing_id ub) (UserBriefing.is_sent ub)
    (UserBriefing.sent_at ub) true (Some now) (UserBriefing.is_interested ub)
    (UserBriefing.created_at ub).

Definition set_interested (ub : UserBriefing.t) : UserBriefing.t :=
  UserBriefing.mk (UserBriefing.id ub) (UserBriefing.user_id ub)
    (UserBriefing.briefing_id ub) (UserBriefing.is_sent ub)
    (UserBriefing.sent_at ub) (UserBriefing.is_read ub)
    (UserBriefing.read_at ub) true (UserBriefing.created_at ub).

(** [BriefingService.mark_user_briefing_sent] *)
Definition mark_user_briefing_sent (db : Session) (now : datetime)
  (user_briefing_id : Z) : Session * bool :=
  match find_user_briefing db user_briefing_id with
  | Some _ => (update_user_briefing db user_briefing_id (set_sent now), true)
  | None => (db, false)
  end.

(** [BriefingService.mark_user_briefing_read] *)
Definition mark_user_briefing_read (db : Session) (now : datetime)
  (user_briefing_id : Z) : Session * bool :=
  match find_user_briefing db user_briefing_id with
  | Some _ => (update_user_briefing db user_briefing_id (set_read now), true)
  | None => (db, false)
  end.

(** [BriefingService.mark_user_briefing_interested] *)
Definition mark_user_briefing_interested (db : Session)
  (user_briefing_id : Z) : Session * bool :=
  match find_user_briefing db user_briefing_id with
  | Some _ => (update_user_briefing db user_briefing_id set_interested, true)
  | None => (db, false)
  end.

(** A call of the presentation layer on the delivery state. *)
Inductive mark_call :=
| MarkSent (now : datetime) (user_briefing_id : Z)
| MarkRead (now : datetime) (user_briefing_id : Z)
| MarkInterested (user_briefing_id : Z).

Definition run_mark (db : Session) (call : mark_call) : Session * bool :=
  match call with
  | MarkSent now i => mark_user_briefing_sent db now i
  | MarkRead now i => mark_user_briefing_read db now i
  | MarkInterested i => mark_user_briefing_interested db i
  end.

Definition run_marks (db : Session) (calls : list mark_call) : Session :=
  fold_left (fun d call => fst (run_mark d call)) calls db.

(** [markRead] or [markInterested], the calls that are not [markSent]. *)
Definition not_mark_sent (call : mark_call) : bool :=
  match call with
  | MarkSent _ _ => false
  | _ => true
  end.

(* ------------------------------------------------------------------ *)
(** ** [UserService] ([src/services/user_service.py]) *)
(* ------------------------------------------------------------------ *)

(** The [User(...)] that [get_or_create_user] adds for an unknown
    [telegram_id]. *)
Definition new_user (new_id : Z) (telegram_id : str) : User.t :=
  User.mk new_id telegram_id 10 true 7 [].

(** The assignments of [update_user_settings] on the user it found. *)
Definition update_user_settings (user : User.t) (daily_paper_limit : option Z)
  (is_active : option bool) (crawl_history_days : option Z) : User.t :=
  User.mk (User.id user) (User.telegram_id user)
    (match daily_paper_limit with
     | Some n => Z.max 1 (Z.min 50 n)
     | None => User.daily_paper_limit user
     end)
    (match is_active with
     | Some a => a
     | None => User.is_active user
     end)
    (match crawl_history_days with
     | Some n => Z.max 1 (Z.min 30 n)
     | None => User.crawl_history_days user
     end)
    (User.research_fields user).

(* ------------------------------------------------------------------ *)
(** ** Crawling and the other queries of [PaperService] *)
(* ------------------------------------------------------------------ *)

(** [[item.strip() for item in s.split(",") if item.strip()]], the list
    comprehension shared by the models and the settings. *)
Definition comma_list (s : str) : list str :=
  map strip (filter (fun item => truthy (strip item)) (split 44%N s)).

(** [ResearchField.get_arxiv_categories_list] *)
Definition get_arxiv_categories_list (field : ResearchField.t) : list str :=
  match ResearchField.arxiv_categories field with
  | Some cats => if truthy cats then comma_list cats else []
  | None => []
  end.

Definition str_eq_dec : forall s t : str, {s = t} + {s <> t} :=
  list_eq_dec N.eq_dec.

(** A Python [set] of strings, listed: each element once. *)
Definition set_of (l : list str) : list str := nodup str_eq_dec l.

(** The crawler settings of [src/config/settings.py]. *)
Record CrawlSettings := mkCrawlSettings {
  arxiv_categories : str;
  openreview_conferences : str
}.

(** [Settings.arxiv_categories_list] *)
Definition arxiv_categories_list (cs : CrawlSettings) : list str :=
  comma_list (arxiv_categories cs).

(** [Settings.openreview_conferences_list] *)
Definition openreview_conferences_list (cs : CrawlSettings) : list str :=
  comma_list (openreview_conferences cs).

(** What iterating a crawler's [fetch_papers] generator gives: the
    records it yields, each with the clock reading of its save, and
    whether the generator then raises instead of ending (both crawlers
    log and re-raise). *)
Record Crawl := mkCrawl {
  yielded : list (datetime * PaperMetadata.t);
  raised : bool
}.

(** The two data sources, as functions of what [PaperService] passes
    them: the categories or venues, and [since]. *)
Record Crawlers := mkCrawlers {
  arxiv_fetch_papers : list str -> datetime -> Crawl;
  openreview_fetch_papers : list str -> datetime -> Crawl
}.

(** [xs or default] on an optional list. *)
Definition list_or (xs : option (list str)) (default : list str) : list str :=
  match xs with
  | Some (x :: l) => x :: l
  | _ => default
  end.

(** The crawl that [_fetch_arxiv_papers] iterates. *)
Definition arxiv_crawl (crawlers : Crawlers) (cs : CrawlSettings)
  (now : datetime) (days : Z) (categories : option (list str)) : Crawl :=
  let categories := list_or categories (arxiv_categories_list cs) in
  let effective_days := Z.max days 2 in
  arxiv_fetch_papers crawlers categories (now - timedelta_days effective_days).

(** The crawl that [_fetch_openreview_papers] iterates. *)
Definition openreview_crawl (crawlers : Crawlers) (cs : CrawlSettings)
  (now : datetime) (days : Z) (venues : option (list str)) : Crawl :=
  let venues := list_or venues (openreview_conferences_list cs) in
  openreview_fetch_papers crawlers venues (now - timedelta_days days).

(** [PaperService.fetch_and_save_papers].  When a crawl raises, the
    exception leaves the [_fetch_..._papers] loop after its saves, the
    [extend] is skipped and the [except] branch logs. *)
Definition fetch_and_save_papers (crawlers : Crawlers) (cs : CrawlSettings)
  (db : Session) (now_arxiv now_openreview : datetime) (days : Z)
  (categories venues : option (list str)) : Session * list Paper.t :=
  let arxiv := arxiv_crawl crawlers cs now_arxiv days categories in
  let (db1, arxiv_papers) := _fetch_arxiv_papers db (yielded arxiv) in
  let papers := if raised arxiv then [] else arxiv_papers in
  let openreview := openreview_crawl crawlers cs now_openreview days venues in
  let (db2, openreview_papers) :=
    _fetch_openreview_papers db1 (yielded openreview) in
  (db2, papers ++ (if raised openreview then [] else openreview_papers)).

(** [PaperService.fetch_papers_for_user] *)
Definition fetch_papers_for_user (crawlers : Crawlers) (cs : CrawlSettings)
  (db : Session) (now_arxiv now_openreview : datetime)
  (research_fields : list ResearchField.t) (days : Z)
  : Session * list Paper.t :=
  let all_categories :=
    set_of (flat_map get_arxiv_categories_list research_fields) in
  match all_categories with
  | [] => (db, [])
  | _ :: _ =>
      fetch_and_save_papers crawlers cs db now_arxiv now_openreview days
        (Some all_categories) None
  end.

(** [PaperService.get_paper_by_id] *)
Definition get_paper_by_id (db : Session) (paper_id : Z) : option Paper.t :=
  find (fun p => Z.eqb (Paper.id p) paper_id) (papers db).

(** [PaperService.get_papers_by_ids] *)
Definition get_papers_by_ids (db : Session) (paper_ids : list Z)
  : list Paper.t :=
  filter (fun p => existsb (Z.eqb (Paper.id p)) paper_ids) (papers db).

(** [PaperService.search_papers] *)
Definition search_papers (E : SqlEngine) (db : Session) (query : str)
  (limit : Z) : list Paper.t :=
  sql_limit limit
    (order_by_desc E Paper.t Paper.publish_date
       (filter (fun p => keyword_condition E p query) (papers db))).

(** [PaperService.get_recent_papers] *)
Definition get_recent_papers (E : SqlEngine) (db : Session) (now : datetime)
  (days limit : Z) : list Paper.t :=
  let since := now - timedelta_days days in
  sql_limit limit
    (order_by_desc E Paper.t Paper.publish_date
       (filter (published_since since) (papers db))).

(* ------------------------------------------------------------------ *)
(** ** The queues of [BriefingService] and their delivery *)
(* ------------------------------------------------------------------ *)

(** [BriefingService.get_user_pending_briefings] *)
Definition get_user_pending_briefings (E : SqlEngine) (db : Session)
  (user : User.t) (limit : option Z) : list UserBriefing.t :=
  let query :=
    order_by_desc E UserBriefing.t
      (fun ub => Some (UserBriefing.created_at ub))
      (filter (fun ub => Z.eqb (UserBriefing.user_id ub) (User.id user)
                         && negb (UserBriefing.is_sent ub))
         (user_briefings db)) in
  match limit with
  | Some n => if n =? 0 then query else sql_limit n query
  | None => query
  end.

(** [BriefingService.get_user_sent_briefings] *)
Definition get_user_sent_briefings (E : SqlEngine) (db : Session)
  (user : User.t) (limit : Z) : list UserBriefing.t :=
  sql_limit limit
    (order_by_desc E UserBriefing.t UserBriefing.sent_at
       (filter (fun ub => Z.eqb (UserBriefing.user_id ub) (User.id user)
                          && UserBriefing.is_sent ub)
          (user_briefings db))).

(** [query.offset(n)]; SQLite reads a negative [OFFSET] as zero. *)
Definition sql_offset {A : Type} (n : Z) (rows : list A) : list A :=
  skipn (Z.to_nat n) rows.

(** [BriefingService.get_pending_briefings] *)
Definition get_pending_briefings (E : SqlEngine) (db : Session)
  (limit : option Z) : list Briefing.t :=
  let query :=
    order_by_desc E Briefing.t (fun b => Some (Briefing.created_at b))
      (briefings db) in
  match limit with
  | Some n => if n =? 0 then query else sql_limit n query
  | None => query
  end.

(** [BriefingService.get_all_briefings] *)
Definition get_all_briefings (E : SqlEngine) (db : Session) (limit offset : Z)
  : list Briefing.t :=
  sql_limit limit
    (sql_offset offset
       (order_by_desc E Briefing.t (fun b => Some (Briefing.created_at b))
          (briefings db))).

(** *** ORM instances

    The service methods hand [UserBriefing] instances to their callers,
    and [format_briefing_for_telegram] reads [user_briefing.briefing] and
    [briefing.paper] from the instance, not from a table.  What such a
    read gives depends on how the instance was obtained.
    - [Loaded row briefing]: an instance returned by a query with
      [joinedload(UserBriefing.briefing).joinedload(Briefing.paper)].
      The columns and both relationships were read by the query and stay
      on the instance after [db.close()].
    - [Expired id attached]: an instance that went through [db.commit()].
      The session factory is [sessionmaker(autocommit=False,
      autoflush=False, bind=...)], which keeps [expire_on_commit], so
      every attribute is read again on the next access: from the store
      while the session is open ([attached = true]); after [db.close()]
      the access raises [DetachedInstanceError]. *)
Inductive UserBriefingInstance :=
| Loaded (row : UserBriefing.t) (briefing : option (Briefing.t * option Paper.t))
| Expired (id : Z) (attached : bool).

(** The [SELECT] behind [user_briefing.briefing]: the row of [briefings]
    with the key [briefing_id].  It runs inside a query with [joinedload]
    or on an attached instance, never on a detached one. *)
Definition briefing_of (db : Session) (ub : UserBriefing.t)
  : option Briefing.t :=
  find (fun b => Z.eqb (Briefing.id b) (UserBriefing.briefing_id ub))
    (briefings db).

(** The [SELECT] behind [briefing.paper]. *)
Definition paper_of (db : Session) (b : Briefing.t) : option Paper.t :=
  find (fun p => Z.eqb (Paper.id p) (Briefing.paper_id b)) (papers db).

(** Both relationships of a row, as [joinedload] reads them. *)
Definition joinedload_briefing (db : Session) (ub : UserBriefing.t)
  : option (Briefing.t * option Paper.t) :=
  match briefing_of db ub with
  | Some b => Some (b, paper_of db b)
  | None => None
  end.

(** The instances that [get_user_pending_briefings] returns: its rows,
    each with the relationships read by the same query. *)
Definition pending_instances (E : SqlEngine) (db : Session) (user : User.t)
  (limit : option Z) : list UserBriefingInstance :=
  map (fun ub => Loaded ub (joinedload_briefing db ub))
    (get_user_pending_briefings E db user limit).

(** The instances that [create_user_briefings] returns for the rows it
    added: it commits without [db.refresh], and closes the session in
    [finally] when the service owns it ([close_session = self.db is
    None]). *)
Definition created_instances (close_session : bool)
  (rows : list UserBriefing.t) : list UserBriefingInstance :=
  map (fun ub => Expired (UserBriefing.id ub) (negb close_session)) rows.

(** What a call of [format_briefing_for_telegram] gives: the message, or
    the exception that leaves it (the method has no [try]). *)
Inductive formatted :=
| Message (text : str)
| DetachedInstanceError
| ObjectDeletedError.

(** The body of [format_briefing_for_telegram] once
    [user_briefing.briefing] and [briefing.paper] are read. *)
Definition format_message (briefing : option (Briefing.t * option Paper.t))
  : str :=
  match briefing with
  | None => lit "简报数据缺失"
  | Some (briefing, None) => Briefing.content briefing
  | Some (briefing, Some paper) =>
      let header := lit "📚 *每日论文简报*" ++ nl ++ nl in
      let footer :=
        nl ++ nl ++ lit "🔗 [查看原文](" ++ Paper.source_url paper ++ lit ")" in
      let footer :=
        if truthy_opt (Paper.pdf_url paper)
        then footer ++ lit " | [PDF]("
             ++ match Paper.pdf_url paper with Some u => u | None => [] end
             ++ lit ")"
        else footer in
      header ++ Briefing.content briefing ++ footer
  end.

(** [BriefingService.format_briefing_for_telegram]; [db] is read only
    for an expired instance whose session is open. *)
Definition format_briefing_for_telegram (db : Session)
  (user_briefing : UserBriefingInstance) : formatted :=
  match user_briefing with
  | Loaded _ briefing => Message (format_message briefing)
  | Expired _ false => DetachedInstanceError
  | Expired id true =>
      match find_user_briefing db id with
      | Some row => Message (format_message (joinedload_briefing db row))
      | None => ObjectDeletedError
      end
  end.

(** [l[:n]] *)
Definition py_slice_to {A : Type} (n : Z) (l : list A) : list A :=
  if n <? 0 then firstn (List.length l - Z.to_nat (- n)) l
  else firstn (Z.to_nat n) l.

(** What the presentation collaborator and the clock do during one run of
    [send_daily_briefings]: for the [k]-th active user, the time of the
    fanout commit, and for the [i]-th message whether [send_message]
    returns ([true]) or raises, and the time of the [markSent] that
    follows. *)
Record SendRun := mkSendRun {
  fanout_time : nat -> datetime;
  send_ok : nat -> nat -> bool;
  sent_time : nat -> nat -> datetime
}.

(** The inner loop of [send_daily_briefings] over [to_send]. *)
Fixpoint send_loop (db : Session) (run : SendRun) (k i : nat)
  (to_send : list UserBriefing.t) : Session :=
  match to_send with
  | [] => db
  | user_briefing :: rest =>
      let db1 :=
        if send_ok run k i
        then fst (mark_user_briefing_sent db (sent_time run k i)
                    (UserBriefing.id user_briefing))
        else db in
      send_loop db1 run k (S i) rest
  end.

(** The body of the outer loop of [send_daily_briefings] for the [k]-th
    active user. *)
Definition send_to_user (E : SqlEngine) (db : Session) (run : SendRun)
  (k : nat) (user : User.t) : Session :=
  let pending := get_user_pending_briefings E db user None in
  let db1 :=
    match pending with
    | [] => fst (create_user_briefings E db (fanout_time run k) user)
    | _ :: _ => db
    end in
  let pending :=
    match pending with
    | [] => get_user_pending_briefings E db1 user None
    | _ :: _ => pending
    end in
  match pending with
  | [] => db1
  | _ :: _ =>
      let limit := Z.min (User.daily_paper_limit user) (Z.of_nat (List.length pending)) in
      send_loop db1 run k 0 (py_slice_to limit pending)
  end.

Fixpoint send_users (E : SqlEngine) (db : Session) (run : SendRun) (k : nat)
  (users : list User.t) : Session :=
  match users with
  | [] => db
  | user :: rest => send_users E (send_to_user E db run k user) run (S k) rest
  end.

(** [UserService.get_all_active_users] on the users of the store. *)
Definition get_all_active_users (all_users : list User.t) : list User.t :=
  filter User.is_active all_users.

(** [TelegramBot.send_daily_briefings]; [initialized] is whether
    [self.application] is set. *)
Definition send_daily_briefings (E : SqlEngine) (initialized : bool)
  (db : Session) (run : SendRun) (all_users : list User.t) : Session :=
  if initialized then send_users E db run 0 (get_all_active_users all_users)
  else db.

(* ------------------------------------------------------------------ *)
(** ** [TaskScheduler] ([src/scheduler.py]) *)
(* ------------------------------------------------------------------ *)

(** One turn of the loop of [_fetch_papers_job] over the users: a user
    with fields adds their categories to [all_categories] and raises
    [max_days] to their history depth. *)
Definition fetch_plan_step (plan : list str * Z) (user : User.t)
  : list str * Z :=
  match User.research_fields user with
  | [] => plan
  | _ :: _ =>
      (set_of (fst plan
               ++ flat_map get_arxiv_categories_list
                    (User.research_fields user)),
       Z.max (snd plan) (User.crawl_history_days user))
  end.

(** [all_categories] and [max_days] after the loop. *)
Definition fetch_plan (users : list User.t) : list str * Z :=
  fold_left fetch_plan_step users ([], 1).

(** [TaskScheduler._fetch_papers_job] *)
Definition _fetch_papers_job (crawlers : Crawlers) (cs : CrawlSettings)
  (db : Session) (now_arxiv now_openreview : datetime)
  (all_users : list User.t) : Session :=
  let users := get_all_active_users all_users in
  let (all_categories, max_days) := fetch_plan users in
  match all_categories with
  | [] => db
  | _ :: _ =>
      fst (fetch_and_save_papers crawlers cs db now_arxiv now_openreview
             max_days (Some all_categories) None)
  end.

Definition field_eq_dec : forall a b : ResearchField.t, {a = b} + {a <> b}.
Proof.
  decide equality; try apply Z.eq_dec; try apply str_eq_dec;
    decide equality; apply str_eq_dec.
Defined.

(** [TaskScheduler._generate_briefings_job]; [all_fields] is a [set],
    each field stands in it once. *)
Definition _generate_briefings_job (E : SqlEngine) (db : Session)
  (now : datetime) (clock : nat -> datetime) (settings : Settings)
  (llm : Collaborator) (all_users : list User.t) : Session :=
  let users := get_all_active_users all_users in
  let all_fields := nodup field_eq_dec (flat_map User.research_fields users) in
  match all_fields with
  | [] => db
  | _ :: _ =>
      fst (generate_briefings E db now clock settings llm None None all_fields)
  end.

(* ------------------------------------------------------------------ *)
(** ** Predicates of the statements *)
(* ------------------------------------------------------------------ *)

(** [external_id] is unique over the whole [papers] table. *)
Definition external_ids_unique (db : Session) : Prop :=
  NoDup (map Paper.external_id (papers db)).

(** What the [sent] side of a row is: its key, its flag and its
    timestamp. *)
Definition sent_view (ub : UserBriefing.t) : Z * bool * option datetime :=
  (UserBriefing.id ub, UserBriefing.is_sent ub, UserBriefing.sent_at ub).

(** The [sent] flag of a row did not go from true to false. *)
Definition sent_kept (before after : UserBriefing.t) : Prop :=
  UserBriefing.is_sent before = true -> UserBriefing.is_sent after = true.

(** The haystack of [check_interest]: title, abstract and the joined
    keywords, separated by one space. *)
Definition searchable_text (title abstract : str) (keywords : list str) : str :=
  title ++ lit " " ++ abstract ++ lit " " ++ join (lit " ") keywords.

(** [keyword] occurs in [text] when case is ignored: the lowered keyword
    is a contiguous part of the lowered text. *)
Definition occurs_ignoring_case (lower : str -> str) (keyword text : str)
  : Prop :=
  exists pre post, lower text = pre ++ lower keyword ++ post.

(** No briefing row points to the paper. *)
Definition lacks_briefing (db : Session) (p : Paper.t) : bool :=
  negb (existsb (fun b => Z.eqb (Paper.id p) (Briefing.paper_id b))
          (briefings db)).

(** [q] is not newer than [p], both dated. *)
Definition not_newer (p q : Paper.t) : Prop :=
  exists dp dq,
    Paper.publish_date p = Some dp /\ Paper.publish_date q = Some dq
    /\ dq <= dp.

(** The rows the selection orders and cuts. *)
Definition pending_candidates (E : SqlEngine) (db : Session) (since : datetime)
  (research_fields : list ResearchField.t) : list Paper.t :=
  filter (keyword_filter E (fields_keywords research_fields))
    (filter (published_since since) (filter (lacks_briefing db) (papers db))).

(** The primary keys of [papers] and [briefings]. *)
Definition primary_keys_unique (db : Session) : Prop :=
  NoDup (map Paper.id (papers db)) /\ NoDup (map Briefing.id (briefings db)).

(** The pair a row of [user_briefings] assigns. *)
Definition assignment (ub : UserBriefing.t) : Z * Z :=
  (UserBriefing.user_id ub, UserBriefing.briefing_id ub).

(** At most one row per (user, briefing) pair. *)
Definition assignments_unique (db : Session) : Prop :=
  NoDup (map assignment (user_briefings db)).

(** The primary key of [user_briefings]. *)
Definition user_briefing_keys_unique (db : Session) : Prop :=
  NoDup (map UserBriefing.id (user_briefings db)).

(** The rows of the user that are waiting, and those already sent. *)
Definition is_pending_of (user : User.t) (ub : UserBriefing.t) : bool :=
  Z.eqb (UserBriefing.user_id ub) (User.id user)
  && negb (UserBriefing.is_sent ub).

Definition is_sent_of (user : User.t) (ub : UserBriefing.t) : bool :=
  Z.eqb (UserBriefing.user_id ub) (User.id user) && UserBriefing.is_sent ub.

(** How many rows of the table are marked sent. *)
Definition sent_count (db : Session) : nat :=
  List.length (filter UserBriefing.is_sent (user_briefings db)).

(** The rows of everybody but the user. *)
Definition rows_of_others (user : User.t) (db : Session)
  : list UserBriefing.t :=
  filter (fun ub => negb (Z.eqb (UserBriefing.user_id ub) (User.id user)))
    (user_briefings db).

(** The briefings [create_user_briefings] selects. *)
Definition fanout_selection (E : SqlEngine) (db : Session) (user : User.t)
  : list (Briefing.t * Paper.t) :=
  sql_limit (User.daily_paper_limit user * 3)
    (order_by_desc E _ (fun row => Paper.publish_date (snd row))
       (eligible_briefings E db user)).

(** The shape the three state transitions share: look the row up, apply
    the change to it, answer whether it was found. *)
Definition mark_with (change : UserBriefing.t -> UserBriefing.t)
  (db : Session) (user_briefing_id : Z) : Session * bool :=
  match find_user_briefing db user_briefing_id with
  | Some _ => (update_user_briefing db user_briefing_id change, true)
  | None => (db, false)
  end.

(** The rows of the user of key [v]. *)
Definition rows_of_user (v : Z) (db : Session) : list UserBriefing.t :=
  filter (fun ub => Z.eqb (UserBriefing.user_id ub) v) (user_briefings db).

(** The deliveries a run may make at most: the limits of the users,
    added up. *)
Definition delivery_budget (users : list User.t) : nat :=
  list_sum (map (fun u => Z.to_nat (User.daily_paper_limit u)) users).

(* ================================================================== *)
(** * Properties *)
(* ================================================================== *)

(* ------------------------------------------------------------------ *)
(** ** Strings *)
(* ------------------------------------------------------------------ *)

Example lit_ascii : lit "AI" = [65%N; 73%N].
Proof. reflexivity. Qed.

Example lit_cjk : lit "摘要" = [25688%N; 35201%N].
Proof. reflexivity. Qed.

Example lit_emoji : lit "⚠️" = [9888%N; 65039%N].
Proof. reflexivity. Qed.

Example split_strip :
  get_keywords_list
    (ResearchField.mk 1 (lit "NLP") None (Some (lit "nlp, deep learning ,,cv")))
  = [lit "nlp"; lit "deep learning"; lit "cv"].
Proof. reflexivity. Qed.

Lemma eqb_eq (s t : str) : eqb s t = true <-> s = t.
Proof.
  revert t; induction s as [|a s IH]; intros [|b t]; simpl;
    try (split; [discriminate | discriminate]); try tauto.
  unfold char_eqb. rewrite andb_true_iff, N.eqb_eq, IH.
  split.
  - intros [-> ->]; reflexivity.
  - intros H; injection H; auto.
Qed.

Lemma eqb_refl (s : str) : eqb s s = true.
Proof. apply eqb_eq; reflexivity. Qed.

Lemma eqb_neq (s t : str) : eqb s t = false <-> s <> t.
Proof.
  rewrite <- eqb_eq. destruct (eqb s t); split; congruence.
Qed.

Lemma starts_with_spec (p s : str) :
  starts_with p s = true <-> exists post, s = p ++ post.
Proof.
  revert s; induction p as [|a p IH]; intros s; simpl.
  - split; [exists s; reflexivity | reflexivity].
  - destruct s as [|b s].
    + split; [discriminate | intros [post H]; discriminate H].
    + unfold char_eqb. rewrite andb_true_iff, N.eqb_eq, IH.
      split.
      * intros [-> [post ->]]. exists post; reflexivity.
      * intros [post H]. injection H as -> ->. eauto.
Qed.

(** The [in] operator of Python finds exactly the contiguous
    occurrences. *)
Lemma contains_spec (p s : str) :
  contains p s = true <-> exists pre post, s = pre ++ p ++ post.
Proof.
  induction s as [|b s IH].
  - simpl. rewrite orb_false_r, starts_with_spec. split.
    + intros [post H]. exists [], post. exact H.
    + intros [pre [post H]]. destruct pre as [|x pre]; [|discriminate H].
      exists post. exact H.
  - cbn [contains]. rewrite orb_true_iff, starts_with_spec, IH. split.
    + intros [[post H] | [pre [post H]]].
      * exists [], post. exact H.
      * exists (b :: pre), post. rewrite H. reflexivity.
    + intros [pre [post H]]. destruct pre as [|x pre].
      * left. exists post. exact H.
      * right. injection H as _ H. exists pre, post. exact H.
Qed.

(* ------------------------------------------------------------------ *)
(** ** Lists and keys *)
(* ------------------------------------------------------------------ *)

Lemma fold_max_ge (ids : list Z) (x : Z) :
  In x ids -> x <= fold_right Z.max 0 ids.
Proof.
  induction ids as [|y ids IH]; simpl; [tauto|].
  intros [-> | H]; [lia | specialize (IH H); lia].
Qed.

(** A new key is above every key of the table. *)
Lemma next_id_fresh (ids : list Z) (x : Z) : In x ids -> x < next_id ids.
Proof. intros H. apply fold_max_ge in H. unfold next_id. lia. Qed.

Lemma existsb_false_iff {A : Type} (f : A -> bool) (l : list A) :
  existsb f l = false <-> forall x, In x l -> f x = false.
Proof.
  induction l as [|a l IH]; simpl.
  - split; [intros _ x [] | reflexivity].
  - rewrite orb_false_iff, IH. split.
    + intros [Ha Hl] x [<- | Hx]; auto.
    + intros H. split; [apply H; auto | intros x Hx; apply H; auto].
Qed.

Lemma NoDup_snoc {A : Type} (l : list A) (x : A) :
  NoDup l -> ~ In x l -> NoDup (l ++ [x]).
Proof.
  intros Hl Hx. apply NoDup_app; auto.
  - constructor; [intros [] | constructor].
  - intros a Ha [<- | []]. contradiction.
Qed.

Lemma NoDup_map_filter {A B : Type} (f : A -> B) (g : A -> bool) (l : list A) :
  NoDup (map f l) -> NoDup (map f (filter g l)).
Proof.
  induction l as [|a l IH]; simpl; intros H; [constructor|].
  inversion H as [|? ? Hn Hl]; subst.
  destruct (g a); simpl; auto.
  constructor; auto.
  intros Hin. apply Hn. apply in_map_iff in Hin as [y [Hy Hin]].
  apply filter_In in Hin as [Hin _]. rewrite <- Hy. apply in_map; exact Hin.
Qed.

Lemma firstn_In {A : Type} (n : nat) (l : list A) (x : A) :
  In x (firstn n l) -> In x l.
Proof.
  revert l; induction n as [|n IH]; intros [|a l]; simpl; try tauto.
  intros [-> | H]; auto.
Qed.

Lemma NoDup_firstn {A : Type} (n : nat) (l : list A) :
  NoDup l -> NoDup (firstn n l).
Proof.
  revert l; induction n as [|n IH]; intros [|a l] H; simpl; try constructor.
  - inversion H; subst. intros Hin. apply firstn_In in Hin. contradiction.
  - inversion H; subst. auto.
Qed.

Lemma In_sql_limit {A : Type} (n : Z) (l : list A) (x : A) :
  In x (sql_limit n l) -> In x l.
Proof.
  unfold sql_limit. destruct (n <? 0); auto. apply firstn_In.
Qed.

Lemma StronglySorted_firstn {A : Type} (R : A -> A -> Prop) (n : nat)
  (l : list A) : StronglySorted R l -> StronglySorted R (firstn n l).
Proof.
  revert l; induction n as [|n IH]; intros [|a l] H; simpl; try constructor.
  - apply IH. inversion H; assumption.
  - inversion H as [|? ? _ Hall]; subst.
    rewrite Forall_forall in *. intros x Hx. apply Hall.
    apply firstn_In in Hx. exact Hx.
Qed.

Lemma StronglySorted_weaken {A : Type} (R S : A -> A -> Prop) (l : list A) :
  (forall x y, In x l -> In y l -> R x y -> S x y) ->
  StronglySorted R l -> StronglySorted S l.
Proof.
  induction l as [|a l IH]; intros HRS H; constructor;
    inversion H as [|? ? Hs Hall]; subst.
  - apply IH; auto. intros x y Hx Hy. apply HRS; simpl; auto.
  - rewrite Forall_forall in *. intros x Hx.
    apply HRS; simpl; auto.
Qed.

(* ------------------------------------------------------------------ *)
(** ** The two engines keep the promise of [ORDER BY] *)
(* ------------------------------------------------------------------ *)

Section SortBy.

Context {A : Type} (before : A -> A -> bool) (R : A -> A -> Prop).

Hypothesis before_sound : forall x y, before x y = true -> R x y.
Hypothesis before_total : forall x y, before x y = false -> R y x.
Hypothesis R_trans : forall x y z, R x y -> R y z -> R x z.

Lemma insert_by_perm (x : A) (l : list A) :
  Permutation (x :: l) (insert_by before x l).
Proof.
  induction l as [|y l IH]; simpl; [reflexivity|].
  destruct (before x y); [reflexivity|].
  rewrite perm_swap. apply perm_skip. exact IH.
Qed.

Lemma sort_by_perm (l : list A) : Permutation l (sort_by before l).
Proof.
  induction l as [|x l IH]; simpl; [constructor|].
  rewrite <- insert_by_perm. apply perm_skip. exact IH.
Qed.

Lemma insert_by_sorted (x : A) (l : list A) :
  StronglySorted R l -> StronglySorted R (insert_by before x l).
Proof.
  induction l as [|y l IH]; intros Hs; simpl.
  - constructor; constructor.
  - inversion Hs as [|? ? Hl Hall]; subst.
    destruct (before x y) eqn:Hxy.
    + constructor; [exact Hs|].
      constructor; [apply before_sound; exact Hxy|].
      rewrite Forall_forall in *. intros z Hz.
      apply R_trans with y; [apply before_sound; exact Hxy | auto].
    + constructor; [apply IH; exact Hl|].
      rewrite Forall_forall in *. intros z Hz.
      apply (Permutation_in _ (Permutation_sym (insert_by_perm x l))) in Hz.
      destruct Hz as [<- | Hz]; [apply before_total; exact Hxy | auto].
Qed.

Lemma sort_by_sorted (l : list A) : StronglySorted R (sort_by before l).
Proof.
  induction l as [|x l IH]; simpl; [constructor|].
  apply insert_by_sorted. exact IH.
Qed.

End SortBy.

Lemma desc_leb_total (a b : option datetime) :
  desc_leb a b = false -> desc_leb b a = true.
Proof.
  destruct a, b; simpl; try congruence.
  rewrite Z.leb_gt, Z.leb_le. lia.
Qed.

Lemma desc_leb_trans (a b c : option datetime) :
  desc_leb a b = true -> desc_leb b c = true -> desc_leb a c = true.
Proof.
  destruct a, b, c; simpl; try congruence.
  rewrite !Z.leb_le. lia.
Qed.

Lemma desc_leb_ok (a b : option datetime) : desc_leb a b = true -> desc_ok a b.
Proof.
  destruct a, b; simpl; auto. rewrite Z.leb_le. auto.
Qed.

Lemma order_stable_contract : order_by_contract sqlite_stable.
Proof.
  intros A key rows. simpl. unfold order_stable. split.
  - apply sort_by_perm.
  - apply StronglySorted_weaken
      with (R := fun x y => desc_leb (key x) (key y) = true).
    + intros x y _ _. apply desc_leb_ok.
    + apply sort_by_sorted.
      * auto.
      * intros x y. apply desc_leb_total.
      * intros x y z. apply desc_leb_trans.
Qed.

Lemma order_index_backward_contract : order_by_contract sqlite_index_backward.
Proof.
  intros A key rows. simpl. unfold order_index_backward. split.
  - apply sort_by_perm.
  - apply StronglySorted_weaken
      with (R := fun x y => desc_leb (key x) (key y) = true).
    + intros x y _ _. apply desc_leb_ok.
    + apply sort_by_sorted.
      * intros x y H. apply negb_true_iff in H.
        apply desc_leb_total. exact H.
      * intros x y H. apply negb_false_iff in H. exact H.
      * intros x y z. apply desc_leb_trans.
Qed.

Example like_substring :
  ilike sqlite_stable (lit "A TRANSFORMER Model") (lit "%transformer%") = true
  /\ ilike sqlite_stable (lit "A TRANSFORMER Model") (lit "%trans_ormer%") = true
  /\ ilike sqlite_stable (lit "A TRANSFORMER Model") (lit "%graph%") = false.
Proof. repeat split; reflexivity. Qed.

(* ------------------------------------------------------------------ *)
(** ** Ingestion ([PaperService._save_paper]) *)
(* ------------------------------------------------------------------ *)

Lemma find_paper_some (db : Session) (p : Paper.t) (external_id source : str) :
  In p (papers db) ->
  Paper.external_id p = external_id -> Paper.source p = source ->
  exists existing, find_paper db external_id source = Some existing.
Proof.
  intros Hin <- <-. unfold find_paper.
  destruct (find _ (papers db)) as [q|] eqn:Hf; [eauto|].
  apply (find_none _ _ Hf) in Hin.
  rewrite !eqb_refl in Hin. discriminate Hin.
Qed.

(** Whatever [_save_paper] does, the rows already there stay as they
    are, in place; at most one row is appended. *)
Lemma save_paper_appends (db : Session) (now : datetime)
  (metadata : PaperMetadata.t) :
  let (db', saved) := _save_paper db now metadata in
  papers db' = papers db ++ match saved with Some p => [p] | None => [] end
  /\ briefings db' = briefings db
  /\ user_briefings db' = user_briefings db.
Proof.
  unfold _save_paper.
  destruct (find_paper db _ _).
  - rewrite app_nil_r. auto.
  - unfold insert_paper. destruct (existsb _ (papers db)); simpl.
    + rewrite app_nil_r. auto.
    + auto.
Qed.

Lemma save_paper_keeps (db : Session) (now : datetime)
  (metadata : PaperMetadata.t) (p : Paper.t) :
  In p (papers db) -> In p (papers (fst (_save_paper db now metadata))).
Proof.
  intros Hin. pose proof (save_paper_appends db now metadata) as H.
  destruct (_save_paper db now metadata) as [db' saved]; simpl.
  destruct H as [-> _]. apply in_or_app. left. exact Hin.
Qed.

(** C2.  A record whose [(source, external_id)] is that of a persisted
    paper is a no-op for the store: [_save_paper] returns [None] and the
    session unchanged (no row inserted, no field of any row updated), and
    wherever the record stands in a crawler's stream, the stream leaves
    the same store and returns the same list of new papers as the stream
    without it. *)
Theorem save_paper_existing_is_noop :
  forall (db : Session) (now : datetime) (metadata : PaperMetadata.t)
         (p : Paper.t),
    In p (papers db) ->
    Paper.source p = PaperMetadata.source metadata ->
    Paper.external_id p = PaperMetadata.external_id metadata ->
    _save_paper db now metadata = (db, None)
    /\ forall before after,
         save_stream db (before ++ (now, metadata) :: after)
         = save_stream db (before ++ after).
Proof.
  intros db now metadata p Hin Hsrc Hext.
  assert (Hnoop : forall d, In p (papers d) ->
                            _save_paper d now metadata = (d, None)).
  { intros d Hd. unfold _save_paper.
    destruct (find_paper_some d p _ _ Hd Hext Hsrc) as [q ->]. reflexivity. }
  split; [apply Hnoop; exact Hin|].
  intros before. revert db Hin.
  induction before as [|[t m] before IH]; intros db Hin after; simpl.
  - rewrite (Hnoop db Hin). destruct (save_stream db after); reflexivity.
  - pose proof (save_paper_keeps db t m p Hin) as Hk.
    destruct (_save_paper db t m) as [db1 saved]; simpl in Hk.
    rewrite (IH db1 Hk after). reflexivity.
Qed.

Lemma save_paper_existing_is_noop_witness :
  let metadata :=
    PaperMetadata.mk (lit "1234.5678") (lit "arxiv") (lit "A Paper")
      (AuthorsList [lit "A. Author"; lit "B. Author"]) (lit "An abstract.")
      (Some 1000) None None (lit "https://arxiv.org/abs/1234.5678")
      [lit "cs.LG"] in
  let db := fst (_save_paper empty_session 5 metadata) in
  List.length (papers db) = 1%nat
  /\ _save_paper db 9 metadata = (db, None)
  /\ forall before after,
       save_stream db (before ++ (9, metadata) :: after)
       = save_stream db (before ++ after).
Proof.
  split; [reflexivity|].
  apply (save_paper_existing_is_noop
           (fst (_save_paper empty_session 5
                   (PaperMetadata.mk (lit "1234.5678") (lit "arxiv")
                      (lit "A Paper")
                      (AuthorsList [lit "A. Author"; lit "B. Author"])
                      (lit "An abstract.") (Some 1000) None None
                      (lit "https://arxiv.org/abs/1234.5678") [lit "cs.LG"])))
           9 _
           (Paper.mk 1 (lit "1234.5678") (lit "arxiv") (lit "A Paper")
              (lit "A. Author, B. Author") (lit "An abstract.")
              (Some (lit "cs.LG")) (Some 1000) None None
              (lit "https://arxiv.org/abs/1234.5678") 5 5)).
  - vm_compute. left. reflexivity.
  - vm_compute. reflexivity.
  - vm_compute. reflexivity.
Defined.

(** A paper with the record's [external_id], of whatever source, is
    enough for [_save_paper] to change nothing: either the lookup finds
    it, or the unique column refuses the new row. *)
Lemma save_paper_same_external_id (db : Session) (now : datetime)
  (metadata : PaperMetadata.t) (p : Paper.t) :
  In p (papers db) ->
  Paper.external_id p = PaperMetadata.external_id metadata ->
  _save_paper db now metadata = (db, None).
Proof.
  intros Hin Hext. unfold _save_paper.
  destruct (find_paper db _ _); [reflexivity|].
  unfold insert_paper.
  destruct (existsb _ (papers db)) eqn:He; [reflexivity|].
  rewrite existsb_false_iff in He. specialize (He p Hin).
  apply orb_false_iff in He as [_ He]. simpl in He.
  rewrite Hext, eqb_refl in He. discriminate He.
Qed.

(** After [_save_paper], some paper of the store has the record's
    [external_id]. *)
Lemma save_paper_persists (db : Session) (now : datetime)
  (metadata : PaperMetadata.t) :
  exists p, In p (papers (fst (_save_paper db now metadata)))
            /\ Paper.external_id p = PaperMetadata.external_id metadata.
Proof.
  unfold _save_paper.
  destruct (find_paper db _ _) as [q|] eqn:Hf; simpl.
  - apply find_some in Hf as [Hin Hq]. apply andb_true_iff in Hq as [Hq _].
    apply eqb_eq in Hq. eauto.
  - unfold insert_paper.
    destruct (existsb _ (papers db)) eqn:He; simpl.
    + apply existsb_exists in He as [q [Hin Hq]]. exists q. split; [exact Hin|].
      apply orb_true_iff in Hq as [Hq | Hq].
      * apply Z.eqb_eq in Hq. simpl in Hq.
        pose proof (next_id_fresh (map Paper.id (papers db)) (Paper.id q)
                      (in_map _ _ _ Hin)). lia.
      * apply eqb_eq in Hq. exact Hq.
    + eexists. split; [apply in_or_app; right; left; reflexivity|].
      reflexivity.
Qed.

(** X20.  Ingesting a record twice: the second ingestion changes nothing
    and returns no paper, whatever the first one did (saved the paper,
    found it already there, or was refused by the unique column). *)
Corollary save_paper_twice (db : Session) (t1 t2 : datetime)
  (metadata : PaperMetadata.t) :
  _save_paper (fst (_save_paper db t1 metadata)) t2 metadata
  = (fst (_save_paper db t1 metadata), None).
Proof.
  destruct (save_paper_persists db t1 metadata) as [p [Hin Hext]].
  apply save_paper_same_external_id with p; assumption.
Qed.

(** Scenario 1 of the specification. *)
Example ingest_twice_one_paper :
  let metadata :=
    PaperMetadata.mk (lit "1234.5678") (lit "arxiv") (lit "A Paper")
      (AuthorsList [lit "A. Author"]) (lit "An abstract.") (Some 1000) None
      None (lit "https://arxiv.org/abs/1234.5678") [] in
  let (db, new) := save_stream empty_session [(5, metadata); (9, metadata)] in
  List.length (papers db) = 1%nat /\ List.length new = 1%nat.
Proof. vm_compute. split; reflexivity. Qed.

Lemma insert_paper_unique (db db' : Session) (row : Paper.t) :
  external_ids_unique db -> insert_paper db row = Some db' ->
  external_ids_unique db'.
Proof.
  unfold external_ids_unique, insert_paper. intros Hu Hi.
  destruct (existsb _ (papers db)) eqn:He; [discriminate|].
  injection Hi as <-. simpl. rewrite map_app. simpl.
  apply NoDup_snoc; [exact Hu|].
  intros Hin. apply in_map_iff in Hin as [q [Hq Hin]].
  rewrite existsb_false_iff in He. specialize (He q Hin).
  apply orb_false_iff in He as [_ He]. rewrite Hq, eqb_refl in He.
  discriminate He.
Qed.

Lemma save_paper_unique (db : Session) (now : datetime)
  (metadata : PaperMetadata.t) :
  external_ids_unique db ->
  external_ids_unique (fst (_save_paper db now metadata)).
Proof.
  intros Hu. unfold _save_paper.
  destruct (find_paper db _ _); [exact Hu|].
  destruct (insert_paper db _) as [db'|] eqn:Hi; simpl; [|exact Hu].
  eapply insert_paper_unique; eauto.
Qed.

Lemma save_stream_unique (stream : list (datetime * PaperMetadata.t)) :
  forall db, external_ids_unique db ->
             external_ids_unique (fst (save_stream db stream)).
Proof.
  induction stream as [|[t m] stream IH]; intros db Hu; simpl; [exact Hu|].
  pose proof (save_paper_unique db t m Hu) as H1.
  destruct (_save_paper db t m) as [db1 saved]; simpl in H1.
  specialize (IH db1 H1).
  destruct (save_stream db1 stream) as [db2 new]; exact IH.
Qed.

(** C10.  [papers.external_id] is unique on its own.  Every store that
    ingestion builds keeps the [external_id] values of its papers pairwise
    different, whatever their sources; and a record whose [external_id] is
    that of a persisted paper of another source is not found by the lookup
    on [(external_id, source)], the insert of its row is refused, and
    [_save_paper] returns [None] and leaves the store as it was. *)
Theorem external_id_globally_unique :
  forall (db : Session) (now : datetime) (metadata : PaperMetadata.t),
    external_ids_unique db ->
    external_ids_unique (fst (_save_paper db now metadata))
    /\ (forall stream, external_ids_unique (fst (save_stream db stream)))
    /\ forall p : Paper.t,
         In p (papers db) ->
         Paper.external_id p = PaperMetadata.external_id metadata ->
         Paper.source p <> PaperMetadata.source metadata ->
         find_paper db (PaperMetadata.external_id metadata)
           (PaperMetadata.source metadata) = None
         /\ insert_paper db
              (paper_of_metadata (next_id (map Paper.id (papers db))) now
                 metadata) = None
         /\ _save_paper db now metadata = (db, None).
Proof.
  intros db now metadata Hu.
  split; [apply save_paper_unique; exact Hu|].
  split; [intros stream; apply save_stream_unique; exact Hu|].
  intros p Hin Hext Hsrc.
  assert (Hfind : find_paper db (PaperMetadata.external_id metadata)
                    (PaperMetadata.source metadata) = None).
  { unfold find_paper.
    destruct (find _ (papers db)) as [q|] eqn:Hf; [|reflexivity].
    apply find_some in Hf as [Hq Hk]. apply andb_true_iff in Hk as [Hk1 Hk2].
    apply eqb_eq in Hk1, Hk2.
    assert (q = p); [|subst q; contradiction].
    unfold external_ids_unique in Hu. clear - Hu Hin Hq Hext Hk1.
    rewrite <- Hext in Hk1. clear Hext.
    induction (papers db) as [|r l IH]; [contradiction|].
    simpl in Hu. inversion Hu as [|? ? Hn Hl]; subst.
    destruct Hin as [-> | Hin], Hq as [-> | Hq]; auto.
    - exfalso. apply Hn. rewrite <- Hk1. apply in_map. exact Hq.
    - exfalso. apply Hn. rewrite Hk1. apply in_map. exact Hin. }
  split; [exact Hfind|].
  pose proof (save_paper_same_external_id db now metadata p Hin Hext) as Hs.
  split; [|exact Hs].
  unfold _save_paper in Hs. rewrite Hfind in Hs.
  destruct (insert_paper db _); [|reflexivity].
  injection Hs as _ Hs. discriminate Hs.
Qed.

Lemma external_id_globally_unique_witness :
  let arxiv :=
    PaperMetadata.mk (lit "2401.00001") (lit "arxiv") (lit "A Paper")
      (AuthorsList [lit "A. Author"]) (lit "An abstract.") (Some 1000) None
      None (lit "https://arxiv.org/abs/2401.00001") [] in
  let openreview :=
    PaperMetadata.mk (lit "2401.00001") (lit "openreview") (lit "Another")
      (AuthorsList [lit "C. Author"]) (lit "Other abstract.") (Some 2000)
      (Some (lit "ICLR")) None (lit "https://openreview.net/forum?id=2401.00001")
      [] in
  let db := fst (_save_paper empty_session 5 arxiv) in
  find_paper db (PaperMetadata.external_id openreview)
    (PaperMetadata.source openreview) = None
  /\ insert_paper db
       (paper_of_metadata (next_id (map Paper.id (papers db))) 9 openreview)
     = None
  /\ _save_paper db 9 openreview = (db, None).
Proof.
  cbv zeta.
  refine (proj2 (proj2
    (external_id_globally_unique
       (fst (_save_paper empty_session 5
               (PaperMetadata.mk (lit "2401.00001") (lit "arxiv")
                  (lit "A Paper") (AuthorsList [lit "A. Author"])
                  (lit "An abstract.") (Some 1000) None None
                  (lit "https://arxiv.org/abs/2401.00001") [])))
       9
       (PaperMetadata.mk (lit "2401.00001") (lit "openreview") (lit "Another")
          (AuthorsList [lit "C. Author"]) (lit "Other abstract.") (Some 2000)
          (Some (lit "ICLR")) None
          (lit "https://openreview.net/forum?id=2401.00001") [])
       _))
    (Paper.mk 1 (lit "2401.00001") (lit "arxiv") (lit "A Paper")
       (lit "A. Author") (lit "An abstract.") None (Some 1000) None None
       (lit "https://arxiv.org/abs/2401.00001") 5 5) _ _ _).
  - vm_compute. constructor; [intros [] | constructor].
  - vm_compute. left. reflexivity.
  - vm_compute. reflexivity.
  - vm_compute. discriminate.
Defined.

Lemma empty_session_unique : external_ids_unique empty_session.
Proof. constructor. Qed.

(* ------------------------------------------------------------------ *)
(** ** Delivery state *)
(* ------------------------------------------------------------------ *)

Lemma update_keeps_view {V : Type} (view : UserBriefing.t -> V)
  (change : UserBriefing.t -> UserBriefing.t) (db : Session) (i : Z) :
  (forall ub, view (change ub) = view ub) ->
  map view (user_briefings (update_user_briefing db i change))
  = map view (user_briefings db).
Proof.
  intros Hv. simpl. rewrite map_map. apply map_ext.
  intros ub. destruct (UserBriefing.id ub =? i); auto.
Qed.

Lemma run_mark_keeps_sent (db : Session) (call : mark_call) :
  not_mark_sent call = true ->
  map sent_view (user_briefings (fst (run_mark db call)))
  = map sent_view (user_briefings db).
Proof.
  destruct call as [now i | now i | i]; simpl; [discriminate | |]; intros _.
  - unfold mark_user_briefing_read.
    destruct (find_user_briefing db i); [|reflexivity].
    apply update_keeps_view. reflexivity.
  - unfold mark_user_briefing_interested.
    destruct (find_user_briefing db i); [|reflexivity].
    apply update_keeps_view. reflexivity.
Qed.

Lemma run_marks_keeps_sent (calls : list mark_call) :
  forall db,
    forallb not_mark_sent calls = true ->
    map sent_view (user_briefings (run_marks db calls))
    = map sent_view (user_briefings db).
Proof.
  unfold run_marks.
  induction calls as [|call calls IH]; intros db Hc; simpl; [reflexivity|].
  simpl in Hc. apply andb_true_iff in Hc as [Hc1 Hc2].
  rewrite (IH _ Hc2). apply run_mark_keeps_sent. exact Hc1.
Qed.

(** C7.  [sent] is monotonic under [markRead] and [markInterested]: a row
    whose [is_sent] is true is, after any sequence of such calls on any
    identifiers, still at its place in the table with the same key,
    [is_sent] true and the same [sent_at]. *)
Theorem sent_is_monotonic :
  forall (db : Session) (calls : list mark_call) (n : nat)
         (ub : UserBriefing.t),
    forallb not_mark_sent calls = true ->
    nth_error (user_briefings db) n = Some ub ->
    UserBriefing.is_sent ub = true ->
    exists ub',
      nth_error (user_briefings (run_marks db calls)) n = Some ub'
      /\ UserBriefing.id ub' = UserBriefing.id ub
      /\ UserBriefing.is_sent ub' = true
      /\ UserBriefing.sent_at ub' = UserBriefing.sent_at ub.
Proof.
  intros db calls n ub Hcalls Hn Hsent.
  pose proof (run_marks_keeps_sent calls db Hcalls) as Hv.
  apply (f_equal (fun l => nth_error l n)) in Hv.
  rewrite !nth_error_map, Hn in Hv. simpl in Hv.
  destruct (nth_error (user_briefings (run_marks db calls)) n) as [ub'|];
    [|discriminate Hv].
  exists ub'. simpl in Hv. unfold sent_view in Hv.
  injection Hv as H1 H2 H3. rewrite H2, H3. auto.
Qed.

Lemma sent_is_monotonic_witness :
  let db :=
    mkSession [] []
      [UserBriefing.mk 7 1 3 true (Some 50) false None false 10] in
  exists ub',
    nth_error
      (user_briefings
         (run_marks db [MarkRead 60 7; MarkInterested 7; MarkRead 70 7])) 0
    = Some ub'
    /\ UserBriefing.id ub' = 7
    /\ UserBriefing.is_sent ub' = true
    /\ UserBriefing.sent_at ub' = Some 50.
Proof.
  apply (sent_is_monotonic
           (mkSession [] []
              [UserBriefing.mk 7 1 3 true (Some 50) false None false 10])
           [MarkRead 60 7; MarkInterested 7; MarkRead 70 7] 0
           (UserBriefing.mk 7 1 3 true (Some 50) false None false 10));
    reflexivity.
Defined.

(** With [markSent] among the calls the timestamp may move, the flag
    never goes back. *)
Lemma sent_kept_refl (l : list UserBriefing.t) : Forall2 sent_kept l l.
Proof. induction l; constructor; auto. intros H; exact H. Qed.

Lemma sent_kept_trans (l1 l2 l3 : list UserBriefing.t) :
  Forall2 sent_kept l1 l2 -> Forall2 sent_kept l2 l3 -> Forall2 sent_kept l1 l3.
Proof.
  intros H12. revert l3.
  induction H12 as [|a b l1 l2 Hab _ IH]; intros l3 H23;
    inversion H23; subst; constructor; auto.
  intros Ha. auto.
Qed.

Lemma update_keeps_sent (db : Session) (i : Z)
  (change : UserBriefing.t -> UserBriefing.t) :
  (forall ub, sent_kept ub (change ub)) ->
  Forall2 sent_kept (user_briefings db)
    (user_briefings (update_user_briefing db i change)).
Proof.
  intros Hc. simpl.
  induction (user_briefings db) as [|ub l IH]; simpl; constructor; auto.
  destruct (UserBriefing.id ub =? i); [apply Hc | intros H; exact H].
Qed.

Lemma run_mark_keeps_sent_flag (db : Session) (call : mark_call) :
  Forall2 sent_kept (user_briefings db) (user_briefings (fst (run_mark db call))).
Proof.
  destruct call as [now i | now i | i]; simpl;
    [unfold mark_user_briefing_sent | unfold mark_user_briefing_read
    | unfold mark_user_briefing_interested];
    destruct (find_user_briefing db i); simpl;
    try apply sent_kept_refl; apply update_keeps_sent;
    intros ub H; simpl; auto.
Qed.

(** X21.  [sent] is monotonic under every state transition: after any
    sequence of [markSent], [markRead] and [markInterested] calls the
    table has as many rows as before and, place by place, a row that was
    marked sent is still marked sent. *)
Lemma sent_never_reset (calls : list mark_call) :
  forall db,
    Forall2 sent_kept (user_briefings db) (user_briefings (run_marks db calls)).
Proof.
  unfold run_marks.
  induction calls as [|call calls IH]; intros db; simpl.
  - apply sent_kept_refl.
  - eapply sent_kept_trans; [apply run_mark_keeps_sent_flag | apply IH].
Qed.

(** C8.  An identifier that no row of [user_briefings] carries: each of
    [mark_user_briefing_sent], [mark_user_briefing_read] and
    [mark_user_briefing_interested] returns [False] and the store it was
    given; the three are total functions, nothing is raised. *)
Theorem mark_unknown_id_fails :
  forall (db : Session) (now : datetime) (user_briefing_id : Z),
    (forall ub, In ub (user_briefings db) ->
                UserBriefing.id ub <> user_briefing_id) ->
    mark_user_briefing_sent db now user_briefing_id = (db, false)
    /\ mark_user_briefing_read db now user_briefing_id = (db, false)
    /\ mark_user_briefing_interested db user_briefing_id = (db, false).
Proof.
  intros db now i Hno.
  assert (Hf : find_user_briefing db i = None).
  { unfold find_user_briefing.
    destruct (find _ (user_briefings db)) as [ub|] eqn:Hf; [|reflexivity].
    apply find_some in Hf as [Hin Hid]. apply Z.eqb_eq in Hid.
    exfalso. exact (Hno ub Hin Hid). }
  unfold mark_user_briefing_sent, mark_user_briefing_read,
    mark_user_briefing_interested.
  rewrite Hf. auto.
Qed.

Lemma mark_unknown_id_fails_witness :
  let db :=
    mkSession [] []
      [UserBriefing.mk 7 1 3 true (Some 50) false None false 10] in
  mark_user_briefing_sent db 60 8 = (db, false)
  /\ mark_user_briefing_read db 60 8 = (db, false)
  /\ mark_user_briefing_interested db 8 = (db, false).
Proof.
  apply (mark_unknown_id_fails
           (mkSession [] []
              [UserBriefing.mk 7 1 3 true (Some 50) false None false 10])
           60 8).
  intros ub [<- | []]. simpl. lia.
Defined.

(** C3, as the code has it.  On an existing identifier a second
    [mark_user_briefing_read] returns [True] again and stores its own
    clock reading: the store after both calls is the store that the
    second call alone would have left.  In it every row of that
    identifier has [is_read] true and [read_at] the time of the second
    call. *)
Theorem mark_read_twice_takes_last_time :
  forall (db : Session) (t1 t2 : datetime) (user_briefing_id : Z)
         (ub : UserBriefing.t),
    find_user_briefing db user_briefing_id = Some ub ->
    let db1 := fst (mark_user_briefing_read db t1 user_briefing_id) in
    mark_user_briefing_read db1 t2 user_briefing_id
    = (fst (mark_user_briefing_read db t2 user_briefing_id), true)
    /\ forall ub2,
         In ub2 (user_briefings
                   (fst (mark_user_briefing_read db1 t2 user_briefing_id))) ->
         UserBriefing.id ub2 = user_briefing_id ->
         UserBriefing.is_read ub2 = true
         /\ UserBriefing.read_at ub2 = Some t2.
Proof.
  intros db t1 t2 i ub Hf db1. subst db1.
  assert (Hfirst :
    mark_user_briefing_read (fst (mark_user_briefing_read db t1 i)) t2 i
    = (update_user_briefing db i (set_read t2), true)).
  { unfold mark_user_briefing_read at 2. rewrite Hf. simpl fst.
    assert (Hf1 : exists ub1,
               find_user_briefing (update_user_briefing db i (set_read t1)) i
               = Some ub1).
    { unfold find_user_briefing in *. simpl.
      destruct (find _ (map _ (user_briefings db))) as [x|] eqn:Hx; [eauto|].
      exfalso. apply find_some in Hf as [Hin Hid].
      assert (Hn : (UserBriefing.id (set_read t1 ub) =? i) = false).
      { apply (find_none _ _ Hx). apply in_map_iff. exists ub.
        rewrite Hid. auto. }
      simpl in Hn. congruence. }
    destruct Hf1 as [ub1 Hf1].
    unfold mark_user_briefing_read. rewrite Hf1. f_equal.
    unfold update_user_briefing. simpl. f_equal. rewrite map_map.
    apply map_ext. intros x.
    destruct (UserBriefing.id x =? i) eqn:Hx; [|rewrite Hx; reflexivity].
    simpl. rewrite Hx. reflexivity. }
  rewrite Hfirst. split.
  - unfold mark_user_briefing_read. rewrite Hf. reflexivity.
  - intros ub2 Hin Hid. simpl in Hin. apply in_map_iff in Hin as [x [Hx _]].
    destruct (UserBriefing.id x =? i) eqn:Hxi.
    + subst ub2. auto.
    + subst ub2. apply Z.eqb_neq in Hxi. contradiction.
Qed.

Lemma mark_read_twice_takes_last_time_witness :
  let db :=
    mkSession [] []
      [UserBriefing.mk 7 1 3 true (Some 50) false None false 10] in
  let db1 := fst (mark_user_briefing_read db 100 7) in
  mark_user_briefing_read db1 200 7
  = (fst (mark_user_briefing_read db 200 7), true)
  /\ forall ub2,
       In ub2 (user_briefings (fst (mark_user_briefing_read db1 200 7))) ->
       UserBriefing.id ub2 = 7 ->
       UserBriefing.is_read ub2 = true /\ UserBriefing.read_at ub2 = Some 200.
Proof.
  apply (mark_read_twice_takes_last_time
           (mkSession [] []
              [UserBriefing.mk 7 1 3 true (Some 50) false None false 10])
           100 200 7
           (UserBriefing.mk 7 1 3 true (Some 50) false None false 10)).
  reflexivity.
Defined.

(** C3, scenario 4 of the specification on the code: [markRead(7)] at
    time 100 and again at time 200.  Both calls succeed; [read_at] is 100
    after the first and 200, not 100, after the second. *)
Lemma mark_read_second_call_changes_read_at :
  exists (db : Session) (t1 t2 : datetime),
    let db1 := fst (mark_user_briefing_read db t1 7) in
    let db2 := fst (mark_user_briefing_read db1 t2 7) in
    map UserBriefing.id (user_briefings db) = [7]
    /\ snd (mark_user_briefing_read db t1 7) = true
    /\ snd (mark_user_briefing_read db1 t2 7) = true
    /\ map UserBriefing.read_at (user_briefings db1) = [Some t1]
    /\ map UserBriefing.read_at (user_briefings db2) = [Some t2]
    /\ map UserBriefing.is_read (user_briefings db2) = [true]
    /\ Some t2 <> Some t1.
Proof.
  exists (mkSession [] []
            [UserBriefing.mk 7 1 3 true (Some 50) false None false 10]),
    100, 200.
  repeat split; discriminate.
Qed.

(* ------------------------------------------------------------------ *)
(** ** Field matching ([AIService.check_interest]) *)
(* ------------------------------------------------------------------ *)

Lemma count_matches_from (lower : str -> str) (text : str)
  (user_interests : list str) (start : nat) :
  fold_left
    (fun match_count interest =>
       if contains (lower interest) text then S match_count else match_count)
    user_interests start
  = (start
     + List.length
         (filter (fun interest => contains (lower interest) text)
            user_interests))%nat.
Proof.
  revert start; induction user_interests as [|k l IH]; intros start; simpl.
  - lia.
  - rewrite IH. destruct (contains (lower k) text); simpl; lia.
Qed.

Lemma count_matches_positive (lower : str -> str) (text : str)
  (user_interests : list str) :
  (0 < count_matches lower text user_interests)%nat
  <-> exists interest,
        In interest user_interests /\ contains (lower interest) text = true.
Proof.
  unfold count_matches. rewrite count_matches_from. simpl. split.
  - intros H.
    destruct (filter _ user_interests) as [|k l] eqn:Hf; [simpl in H; lia|].
    assert (Hk : In k (filter (fun interest => contains (lower interest) text)
                         user_interests)) by (rewrite Hf; left; reflexivity).
    apply filter_In in Hk. exists k. exact Hk.
  - intros [k Hk].
    pose proof (proj2 (filter_In (fun interest => contains (lower interest) text)
                         k user_interests) Hk) as Hin.
    destruct (filter _ user_interests); [contradiction | simpl; lia].
Qed.

(** The score passes [0.3] only when something matched. *)
Lemma score_threshold_needs_match (match_count : nat) (total : positive) :
  Qle_bool (3 # 10) (Z.of_nat match_count # total) = true ->
  (0 < match_count)%nat.
Proof.
  unfold Qle_bool. simpl. rewrite Z.leb_le. intros H.
  destruct match_count; [simpl in H; lia | lia].
Qed.

(** [check_interest] is a disjunction of case-insensitive substring
    tests on the concatenated text: with no interest configured it
    answers [True], and with at least one it answers [True] exactly when
    some interest occurs, case ignored, in title, abstract and joined
    keywords put together. *)
Lemma check_interest_any_keyword :
  forall (lower : str -> str) (title abstract : str)
         (keywords user_interests : list str),
    (user_interests = [] ->
     fst (check_interest lower title abstract keywords user_interests) = true)
    /\ (user_interests <> [] ->
        (fst (check_interest lower title abstract keywords user_interests)
         = true
         <-> exists interest,
               In interest user_interests
               /\ occurs_ignoring_case lower interest
                    (searchable_text title abstract keywords))).
Proof.
  intros lower title abstract keywords user_interests. split.
  - intros ->. reflexivity.
  - intros Hne. destruct user_interests as [|k l]; [contradiction|].
    unfold check_interest. cbn [fst].
    fold (searchable_text title abstract keywords).
    set (text := lower (searchable_text title abstract keywords)).
    set (interests := k :: l).
    rewrite orb_true_iff, Nat.ltb_lt. split.
    + intros H.
      assert (Hpos : (0 < count_matches lower text interests)%nat).
      { destruct H as [H | H]; [|exact H].
        eapply score_threshold_needs_match; exact H. }
      apply count_matches_positive in Hpos as [interest [Hin Hc]].
      exists interest. split; [exact Hin|].
      apply contains_spec in Hc. exact Hc.
    + intros [interest [Hin Hocc]]. right.
      apply count_matches_positive. exists interest. split; [exact Hin|].
      apply contains_spec. exact Hocc.
Qed.

Lemma check_interest_any_keyword_witness :
  fst (check_interest (map ascii_lower) (lit "A TRANSFORMER Model")
         (lit "An abstract.") [lit "cs.LG"]
         [lit "graph"; lit "Transformer"]) = true
  <-> exists interest,
        In interest [lit "graph"; lit "Transformer"]
        /\ occurs_ignoring_case (map ascii_lower) interest
             (searchable_text (lit "A TRANSFORMER Model") (lit "An abstract.")
                [lit "cs.LG"]).
Proof.
  apply (proj2 (check_interest_any_keyword (map ascii_lower)
                  (lit "A TRANSFORMER Model") (lit "An abstract.")
                  [lit "cs.LG"] [lit "graph"; lit "Transformer"])).
  discriminate.
Defined.

(** Scenario 5 and the tests of [tests/test_services.py]. *)
Example check_interest_transformer :
  check_interest (map ascii_lower) (lit "A TRANSFORMER Model") [] []
    [lit "transformer"] = (true, 1%Q).
Proof. reflexivity. Qed.

Example check_interest_with_matches :
  check_interest (map ascii_lower) (lit "Machine Learning for NLP")
    (lit "This paper discusses deep learning.") [lit "AI"; lit "ML"]
    [lit "machine learning"; lit "nlp"] = (true, (2 # 2)%Q).
Proof. reflexivity. Qed.

Example check_interest_no_matches :
  check_interest (map ascii_lower) (lit "Quantum Physics")
    (lit "This paper discusses quantum mechanics.") [lit "physics"]
    [lit "machine learning"; lit "nlp"] = (false, (0 # 2)%Q).
Proof. reflexivity. Qed.

(** The same shape in the SQL filter of the two selections: no keyword,
    no filter; otherwise one keyword matching one of the three columns
    is enough. *)
Lemma keyword_filter_any (E : SqlEngine) (all_keywords : list str)
  (paper : Paper.t) :
  keyword_filter E all_keywords paper = true
  <-> all_keywords = []
      \/ exists keyword,
           In keyword all_keywords /\ keyword_condition E paper keyword = true.
Proof.
  destruct all_keywords as [|k l]; simpl.
  - split; auto.
  - rewrite orb_true_iff. split.
    + intros [H | H]; right.
      * exists k. auto.
      * apply existsb_exists in H as [x [Hx Hc]]. exists x. auto.
    + intros [H | [x [[<- | Hx] Hc]]]; [discriminate | auto |].
      right. apply existsb_exists. eauto.
Qed.

(* ------------------------------------------------------------------ *)
(** ** One briefing per paper *)
(* ------------------------------------------------------------------ *)

(** The [briefings] table refuses no row that [add_briefing] builds: its
    only constraint is the primary key, and the key is new. *)
Lemma add_briefing_commits (db : Session) (now : datetime)
  (settings : Settings) (llm : Collaborator) (paper : Paper.t) :
  exists b,
    add_briefing db now settings llm paper
    = (mkSession (papers db) (briefings db ++ [b]) (user_briefings db), Some b)
    /\ Briefing.paper_id b = Paper.id paper
    /\ Briefing.content b
       = generate_briefing settings llm (Paper.title paper)
           (Paper.authors paper) (Paper.abstract paper) (Paper.venue paper).
Proof.
  unfold add_briefing, insert_briefing.
  destruct (existsb _ (briefings db)) eqn:He.
  - exfalso. apply existsb_exists in He as [b [Hin Hb]].
    apply Z.eqb_eq in Hb. simpl in Hb.
    pose proof (next_id_fresh (map Briefing.id (briefings db)) (Briefing.id b)
                  (in_map _ _ _ Hin)). lia.
  - eexists. split; [reflexivity|]. split; reflexivity.
Qed.

Lemma find_briefing_none (db : Session) (paper : Paper.t) :
  find_briefing db paper = None ->
  ~ In (Paper.id paper) (map Briefing.paper_id (briefings db)).
Proof.
  unfold find_briefing. intros Hf Hin.
  apply in_map_iff in Hin as [b [Hb Hin]].
  apply (find_none _ _ Hf) in Hin. rewrite Hb, Z.eqb_refl in Hin.
  discriminate Hin.
Qed.

Lemma generate_single_keeps_one (db : Session) (now : datetime)
  (settings : Settings) (llm : Collaborator) (paper : Paper.t) :
  one_briefing_per_paper db ->
  one_briefing_per_paper
    (fst (_generate_single_briefing db now settings llm paper)).
Proof.
  intros Hu. unfold _generate_single_briefing.
  destruct (find_briefing db paper) eqn:Hf; [exact Hu|].
  destruct (add_briefing_commits db now settings llm paper)
    as [b [-> [Hb _]]].
  unfold one_briefing_per_paper. simpl. rewrite map_app. simpl.
  apply NoDup_snoc; [exact Hu|]. rewrite Hb.
  apply find_briefing_none. exact Hf.
Qed.

Lemma briefings_loop_keeps_one (settings : Settings) (llm : Collaborator)
  (clock : nat -> datetime) (papers : list Paper.t) :
  forall db i,
    one_briefing_per_paper db ->
    one_briefing_per_paper (fst (briefings_loop db clock i settings llm papers)).
Proof.
  induction papers as [|p papers IH]; intros db i Hu; simpl; [exact Hu|].
  pose proof (generate_single_keeps_one db (clock i) settings llm p Hu) as H1.
  destruct (_generate_single_briefing db (clock i) settings llm p)
    as [db1 r]; simpl in H1.
  specialize (IH db1 (S i) H1).
  destruct (briefings_loop db1 clock (S i) settings llm papers); exact IH.
Qed.

(** An invocation that runs its two statements with nothing in between
    is [_generate_single_briefing]. *)
Lemma invocation_alone (db : Session) (t1 t2 : datetime) (settings : Settings)
  (llm : Collaborator) (paper : Paper.t) :
  (let (db1, inv) := invocation_step db t1 settings llm (AtLookup paper) in
   invocation_step db1 t2 settings llm inv)
  = (let (db', result) := _generate_single_briefing db t2 settings llm paper in
     (db', Returned result)).
Proof.
  unfold _generate_single_briefing. simpl.
  destruct (find_briefing db paper); reflexivity.
Qed.

(** C1, as the code has it.  One briefing per paper is kept by the lookup
    that opens [_generate_single_briefing], for invocations that run one
    after the other: a single invocation, the loop of [generate_briefings]
    over any list of papers (a paper may stand in it twice), and two
    invocations of which the first has returned before the second starts,
    all leave at most one briefing per paper in a store that had at most
    one. *)
Theorem one_briefing_per_paper_sequential :
  forall (db : Session) (settings : Settings) (llm : Collaborator),
    one_briefing_per_paper db ->
    (forall now paper,
        one_briefing_per_paper
          (fst (_generate_single_briefing db now settings llm paper)))
    /\ (forall E now clock papers max_papers research_fields,
           one_briefing_per_paper
             (fst (generate_briefings E db now clock settings llm papers
                     max_papers research_fields)))
    /\ (forall p q t1 t2 t3 t4,
           one_briefing_per_paper
             (fst (fst (run_two db settings llm (AtLookup p) (AtLookup q)
                          [(true, t1); (true, t2); (false, t3); (false, t4)])))).
Proof.
  intros db settings llm Hu. split; [|split].
  - intros now paper. apply generate_single_keeps_one. exact Hu.
  - intros. unfold generate_briefings. apply briefings_loop_keeps_one. exact Hu.
  - intros p q t1 t2 t3 t4. cbn [run_two].
    pose proof (invocation_alone db t1 t2 settings llm p) as Hp.
    pose proof (generate_single_keeps_one db t2 settings llm p Hu) as H1.
    destruct (invocation_step db t1 settings llm (AtLookup p)) as [d1 i1].
    rewrite Hp.
    destruct (_generate_single_briefing db t2 settings llm p) as [d2 r2].
    simpl in H1.
    pose proof (invocation_alone d2 t3 t4 settings llm q) as Hq.
    pose proof (generate_single_keeps_one d2 t4 settings llm q H1) as H2.
    destruct (invocation_step d2 t3 settings llm (AtLookup q)) as [d3 i3].
    rewrite Hq.
    destruct (_generate_single_briefing d2 t4 settings llm q) as [d4 r4].
    exact H2.
Qed.

Lemma one_briefing_per_paper_sequential_witness :
  let metadata :=
    PaperMetadata.mk (lit "2401.00001") (lit "arxiv") (lit "A Paper")
      (AuthorsList [lit "A. Author"]) (lit "An abstract.") (Some 1000) None
      None (lit "https://arxiv.org/abs/2401.00001") [] in
  let db := fst (_save_paper empty_session 5 metadata) in
  let paper := paper_of_metadata 1 5 metadata in
  let settings := mkSettings None None 10 in
  let llm := mkCollaborator (fun _ => ApiRaises) (fun _ => ApiRaises) in
  one_briefing_per_paper
    (fst (fst (run_two db settings llm (AtLookup paper) (AtLookup paper)
                 [(true, 10); (true, 11); (false, 12); (false, 13)]))).
Proof.
  cbv zeta.
  refine (proj2 (proj2
    (one_briefing_per_paper_sequential
       (fst (_save_paper empty_session 5
               (PaperMetadata.mk (lit "2401.00001") (lit "arxiv")
                  (lit "A Paper") (AuthorsList [lit "A. Author"])
                  (lit "An abstract.") (Some 1000) None None
                  (lit "https://arxiv.org/abs/2401.00001") [])))
       (mkSettings None None 10)
       (mkCollaborator (fun _ => ApiRaises) (fun _ => ApiRaises)) _))
    _ _ 10 11 12 13).
  vm_compute. constructor.
Defined.

(** C1, two invocations for one paper whose statements interleave: both
    run the lookup of line 107 before either commits.  The store starts
    with the paper and no briefing; both commits are accepted, and the
    table ends with two briefings of the same [paper_id]. *)
Lemma two_briefings_for_one_paper :
  exists (db : Session) (settings : Settings) (llm : Collaborator)
         (paper : Paper.t),
    let final :=
      fst (fst (run_two db settings llm (AtLookup paper) (AtLookup paper)
                  [(true, 10); (false, 11); (true, 12); (false, 13)])) in
    papers db = [paper]
    /\ briefings db = []
    /\ one_briefing_per_paper db
    /\ map Briefing.paper_id (briefings final) = [Paper.id paper; Paper.id paper]
    /\ map Briefing.id (briefings final) = [1; 2]
    /\ ~ one_briefing_per_paper final.
Proof.
  exists (fst (_save_paper empty_session 5
                 (PaperMetadata.mk (lit "2401.00001") (lit "arxiv")
                    (lit "A Paper") (AuthorsList [lit "A. Author"])
                    (lit "An abstract.") (Some 1000) None None
                    (lit "https://arxiv.org/abs/2401.00001") []))),
    (mkSettings None None 10),
    (mkCollaborator (fun _ => ApiRaises) (fun _ => ApiRaises)),
    (Paper.mk 1 (lit "2401.00001") (lit "arxiv") (lit "A Paper")
       (lit "A. Author") (lit "An abstract.") None (Some 1000) None None
       (lit "https://arxiv.org/abs/2401.00001") 5 5).
  cbv zeta. split; [reflexivity|]. split; [reflexivity|].
  split; [constructor|]. split; [reflexivity|]. split; [reflexivity|].
  unfold one_briefing_per_paper.
  change (~ NoDup [1; 1]).
  intros H. inversion H as [|? ? Hn _]. apply Hn. left. reflexivity.
Qed.

(* ------------------------------------------------------------------ *)
(** ** The fallback summary *)
(* ------------------------------------------------------------------ *)

(** With no key configured the content is the fallback summary of the
    paper's title and abstract. *)
Lemma generate_briefing_no_backend (settings : Settings) (llm : Collaborator)
  (title authors abstract : str) (venue : option str) :
  truthy_opt (openai_api_key settings) = false ->
  truthy_opt (anthropic_api_key settings) = false ->
  generate_briefing settings llm title authors abstract venue
  = _fallback_summary title abstract.
Proof. intros H1 H2. unfold generate_briefing. rewrite H1, H2. reflexivity. Qed.

(** When a backend is configured and its call raises, the summary is
    built from the whole prompt and an empty abstract. *)
Lemma generate_briefing_backend_raises (settings : Settings)
  (llm : Collaborator) (title authors abstract : str) (venue : option str) :
  let prompt := _build_briefing_prompt title authors abstract venue in
  (truthy_opt (openai_api_key settings) = true ->
   openai_create llm prompt = ApiRaises ->
   generate_briefing settings llm title authors abstract venue
   = _fallback_summary prompt [])
  /\ (truthy_opt (openai_api_key settings) = false ->
      truthy_opt (anthropic_api_key settings) = true ->
      anthropic_create llm prompt = ApiRaises ->
      generate_briefing settings llm title authors abstract venue
      = _fallback_summary prompt []).
Proof.
  unfold generate_briefing, _generate_with_openai, _generate_with_anthropic.
  split.
  - intros -> ->. reflexivity.
  - intros -> -> ->. reflexivity.
Qed.

(** A briefing is created whatever the collaborator does. *)
Lemma generate_single_always_returns (db : Session) (now : datetime)
  (settings : Settings) (llm : Collaborator) (paper : Paper.t) :
  exists b,
    snd (_generate_single_briefing db now settings llm paper) = Some b
    /\ In b (briefings (fst (_generate_single_briefing db now settings llm
                              paper)))
    /\ Briefing.paper_id b = Paper.id paper.
Proof.
  unfold _generate_single_briefing.
  destruct (find_briefing db paper) as [b|] eqn:Hf.
  - exists b. simpl. unfold find_briefing in Hf.
    apply find_some in Hf as [Hin Hb]. apply Z.eqb_eq in Hb. auto.
  - destruct (add_briefing_commits db now settings llm paper)
      as [b [-> [Hb _]]].
    exists b. simpl. split; [reflexivity|]. split; [|exact Hb].
    apply in_or_app. right. left. reflexivity.
Qed.

(** C4, the failing backend on a paper whose abstract is 600 characters
    long.  With the OpenAI key set and the call raising, a briefing is
    created, but its content is the fallback summary of the prompt: it
    is not the fallback summary of the paper's title and abstract, it
    holds all 600 characters of the abstract, and it holds no truncation
    marker.  With no key set the content is the fallback summary of
    title and abstract, cut at 500 characters and marked. *)
Theorem failing_backend_summarises_the_prompt :
  let title := lit "A Paper" in
  let authors := lit "A. Author" in
  let abstract := repeat 97%N 600 in
  let paper :=
    Paper.mk 1 (lit "2401.00001") (lit "arxiv") title authors abstract None
      (Some 1000) None None (lit "https://arxiv.org/abs/2401.00001") 5 5 in
  let db := mkSession [paper] [] [] in
  let llm := mkCollaborator (fun _ => ApiRaises) (fun _ => ApiRaises) in
  let with_key := mkSettings (Some (lit "sk-test")) None 10 in
  let without_key := mkSettings None None 10 in
  let content_of settings :=
    map Briefing.content
      (briefings (fst (_generate_single_briefing db 9 settings llm paper))) in
  content_of with_key
  = [_fallback_summary (_build_briefing_prompt title authors abstract None) []]
  /\ content_of without_key = [_fallback_summary title abstract]
  /\ eqb (_fallback_summary (_build_briefing_prompt title authors abstract None)
            [])
       (_fallback_summary title abstract) = false
  /\ contains abstract
       (_fallback_summary (_build_briefing_prompt title authors abstract None)
          []) = true
  /\ contains truncation_marker
       (_fallback_summary (_build_briefing_prompt title authors abstract None)
          []) = false
  /\ contains (repeat 97%N 501) (_fallback_summary title abstract) = false
  /\ contains (repeat 97%N 500 ++ truncation_marker)
       (_fallback_summary title abstract) = true.
Proof. vm_compute. repeat split; reflexivity. Qed.

(* ------------------------------------------------------------------ *)
(** ** Candidate selection ([_get_pending_papers]) *)
(* ------------------------------------------------------------------ *)

Lemma filter_nil_existsb {A : Type} (f : A -> bool) (l : list A) :
  filter f l = [] <-> existsb f l = false.
Proof.
  induction l as [|a l IH]; simpl; [tauto|].
  destruct (f a); simpl; [split; discriminate | exact IH].
Qed.

(** The outer join filtered on a null briefing is the anti-join. *)
Lemma anti_join (db : Session) :
  map fst (filter briefing_is_null (outerjoin_briefing db))
  = filter (lacks_briefing db) (papers db).
Proof.
  unfold outerjoin_briefing.
  induction (papers db) as [|p l IH]; [reflexivity|].
  cbn [flat_map filter]. rewrite filter_app, map_app, IH. clear IH.
  unfold lacks_briefing at 2.
  destruct (filter (fun b => Paper.id p =? Briefing.paper_id b) (briefings db))
    as [|b bs] eqn:Hf.
  - apply filter_nil_existsb in Hf. rewrite Hf. reflexivity.
  - assert (He : existsb (fun b => Paper.id p =? Briefing.paper_id b)
                   (briefings db) = true).
    { destruct (existsb _ (briefings db)) eqn:He; [reflexivity|].
      apply filter_nil_existsb in He. congruence. }
    rewrite He. cbn [negb].
    replace (filter briefing_is_null (map (fun b0 => (p, Some b0)) (b :: bs)))
      with (@nil (Paper.t * option Briefing.t)); [reflexivity|].
    symmetry. apply filter_nil_existsb. apply existsb_false_iff.
    intros x Hx. apply in_map_iff in Hx as [y [<- _]]. reflexivity.
Qed.

Lemma lacks_briefing_find (db : Session) (p : Paper.t) :
  lacks_briefing db p = true -> find_briefing db p = None.
Proof.
  unfold lacks_briefing, find_briefing. intros H.
  apply negb_true_iff in H. rewrite existsb_false_iff in H.
  destruct (find _ (briefings db)) as [b|] eqn:Hf; [|reflexivity].
  apply find_some in Hf as [Hin Hb]. specialize (H b Hin).
  rewrite Z.eqb_sym in H. congruence.
Qed.

Lemma get_pending_papers_eq (E : SqlEngine) (db : Session) (now : datetime)
  (limit : Z) (research_fields : list ResearchField.t) :
  _get_pending_papers E db now limit research_fields
  = sql_limit limit
      (order_by_desc E Paper.t Paper.publish_date
         (pending_candidates E db (now - timedelta_days 7) research_fields)).
Proof. unfold _get_pending_papers. rewrite anti_join. reflexivity. Qed.

Lemma sql_limit_split {A : Type} (n : Z) (l : list A) :
  exists rest, l = sql_limit n l ++ rest.
Proof.
  unfold sql_limit. destruct (n <? 0).
  - exists []. rewrite app_nil_r. reflexivity.
  - exists (skipn (Z.to_nat n) l). symmetry. apply firstn_skipn.
Qed.

Lemma sql_limit_sorted {A : Type} (R : A -> A -> Prop) (n : Z) (l : list A) :
  StronglySorted R l -> StronglySorted R (sql_limit n l).
Proof.
  unfold sql_limit. destruct (n <? 0); auto. apply StronglySorted_firstn.
Qed.

Lemma sql_limit_length {A : Type} (n : Z) (l : list A) :
  0 <= n -> List.length (sql_limit n l) = Nat.min (Z.to_nat n) (List.length l).
Proof.
  intros Hn. unfold sql_limit.
  destruct (n <? 0) eqn:H; [apply Z.ltb_lt in H; lia|].
  apply length_firstn.
Qed.

(** C9, as the code has it.  [_get_pending_papers] returns papers of the
    store that have no briefing, are dated within the seven days before
    the call and pass the keyword filter; the list is ordered newest
    first by [publish_date] (every paper is followed only by papers that
    are not newer), it is what is left of all such papers after the cut
    at [limit], and [get_papers_for_briefing] with the same window and
    limit returns the same list.  The order of two papers of equal date
    is the engine's. *)
Theorem pending_papers_newest_first :
  forall (E : SqlEngine) (db : Session) (now : datetime) (limit : Z)
         (research_fields : list ResearchField.t),
    order_by_contract E ->
    let since := now - timedelta_days 7 in
    let selected := _get_pending_papers E db now limit research_fields in
    (forall p, In p selected ->
               In p (papers db)
               /\ find_briefing db p = None
               /\ (exists d, Paper.publish_date p = Some d /\ since <= d)
               /\ keyword_filter E (fields_keywords research_fields) p = true)
    /\ StronglySorted not_newer selected
    /\ (exists cut,
          Permutation (selected ++ cut)
            (pending_candidates E db since research_fields))
    /\ (0 <= limit -> Z.of_nat (List.length selected) <= limit)
    /\ (limit <> 0 ->
        get_papers_for_briefing E db (Some limit) (Some since) research_fields
        = selected).
Proof.
  intros E db now limit research_fields HE since selected.
  subst selected. rewrite get_pending_papers_eq. fold since.
  set (candidates := pending_candidates E db since research_fields).
  destruct (HE Paper.t Paper.publish_date candidates) as [Hperm Hsorted].
  assert (Hcand : forall p,
             In p (order_by_desc E Paper.t Paper.publish_date candidates) ->
             In p (papers db)
             /\ find_briefing db p = None
             /\ (exists d, Paper.publish_date p = Some d /\ since <= d)
             /\ keyword_filter E (fields_keywords research_fields) p = true).
  { intros p Hp.
    apply (Permutation_in _ (Permutation_sym Hperm)) in Hp.
    unfold candidates, pending_candidates in Hp.
    apply filter_In in Hp as [Hp Hk]. apply filter_In in Hp as [Hp Hs].
    apply filter_In in Hp as [Hp Hl].
    split; [exact Hp|]. split; [apply lacks_briefing_find; exact Hl|].
    split; [|exact Hk].
    unfold published_since in Hs.
    destruct (Paper.publish_date p) as [d|]; [|discriminate Hs].
    exists d. split; [reflexivity | apply Z.leb_le; exact Hs]. }
  split; [|split; [|split; [|split]]].
  - intros p Hp. apply Hcand. eapply In_sql_limit; exact Hp.
  - apply sql_limit_sorted.
    eapply StronglySorted_weaken; [|exact Hsorted].
    intros p q Hp Hq Hok.
    destruct (Hcand p Hp) as [_ [_ [[dp [Hdp _]] _]]].
    destruct (Hcand q Hq) as [_ [_ [[dq [Hdq _]] _]]].
    exists dp, dq. cbv beta in Hok. rewrite Hdp, Hdq in Hok. simpl in Hok. auto.
  - destruct (sql_limit_split limit
                (order_by_desc E Paper.t Paper.publish_date candidates))
      as [cut Hcut].
    exists cut. rewrite <- Hcut. apply Permutation_sym. exact Hperm.
  - intros Hl. rewrite sql_limit_length by exact Hl. lia.
  - intros Hl. unfold get_papers_for_briefing. rewrite anti_join.
    apply Z.eqb_neq in Hl. rewrite Hl. reflexivity.
Qed.

Lemma pending_papers_newest_first_witness :
  let paper d i :=
    Paper.mk i (lit "x") (lit "arxiv") (lit "T") (lit "A") (lit "B") None
      (Some d) None None (lit "u") 5 5 in
  let db := mkSession [paper 3000 1; paper 4000 2; paper 4000 3] [] [] in
  let selected := _get_pending_papers sqlite_stable db 5000 2 [] in
  StronglySorted not_newer selected
  /\ (0 <= 2 -> Z.of_nat (List.length selected) <= 2).
Proof.
  cbv zeta.
  pose proof (pending_papers_newest_first sqlite_stable
                (mkSession
                   [Paper.mk 1 (lit "x") (lit "arxiv") (lit "T") (lit "A")
                      (lit "B") None (Some 3000) None None (lit "u") 5 5;
                    Paper.mk 2 (lit "x") (lit "arxiv") (lit "T") (lit "A")
                      (lit "B") None (Some 4000) None None (lit "u") 5 5;
                    Paper.mk 3 (lit "x") (lit "arxiv") (lit "T") (lit "A")
                      (lit "B") None (Some 4000) None None (lit "u") 5 5]
                   [] [])
                5000 2 [] order_stable_contract) as H.
  cbv zeta in H. destruct H as [_ [Hs [_ [Hl _]]]].
  split; [exact Hs | exact Hl].
Defined.

(** C9, two papers of one date under an engine that walks the index on
    [publish_date] backwards.  Both papers are ingested by [_save_paper],
    neither has a briefing, both are in the window; the engine keeps the
    promise of [ORDER BY publish_date DESC]; the paper of identifier 2
    comes first and the paper of identifier 1 second. *)
Lemma equal_dates_larger_id_first :
  exists (E : SqlEngine) (db : Session) (now : datetime) (limit : Z),
    let selected := _get_pending_papers E db now limit [] in
    order_by_contract E
    /\ (exists m1 m2, db = fst (save_stream empty_session [(5, m1); (6, m2)]))
    /\ briefings db = []
    /\ map Paper.id selected = [2; 1]
    /\ map Paper.publish_date selected = [Some 4000; Some 4000].
Proof.
  exists sqlite_index_backward,
    (fst (save_stream empty_session
            [(5, PaperMetadata.mk (lit "2401.00001") (lit "arxiv") (lit "One")
                   (AuthorsList [lit "A. Author"]) (lit "First abstract.")
                   (Some 4000) None None (lit "https://arxiv.org/abs/2401.00001")
                   []);
             (6, PaperMetadata.mk (lit "2401.00002") (lit "arxiv") (lit "Two")
                   (AuthorsList [lit "B. Author"]) (lit "Second abstract.")
                   (Some 4000) None None (lit "https://arxiv.org/abs/2401.00002")
                   [])])),
    5000, 10.
  cbv zeta. split; [exact order_index_backward_contract|].
  split; [eexists; eexists; reflexivity|].
  vm_compute. repeat split; reflexivity.
Qed.

(** The same store under the engine that keeps table order. *)
Example equal_dates_stable_engine :
  let paper d i :=
    Paper.mk i (lit "x") (lit "arxiv") (lit "T") (lit "A") (lit "B") None
      (Some d) None None (lit "u") 5 5 in
  let db := mkSession [paper 4000 1; paper 4000 2] [] [] in
  map Paper.id (_get_pending_papers sqlite_stable db 5000 10 []) = [1; 2]
  /\ map Paper.id (_get_pending_papers sqlite_index_backward db 5000 10 [])
     = [2; 1].
Proof. vm_compute. split; reflexivity. Qed.

(* ------------------------------------------------------------------ *)
(** ** Fanout ([create_user_briefings]) *)
(* ------------------------------------------------------------------ *)

Lemma filter_key_at_most_one {A : Type} (key : A -> Z) (k : Z) (l : list A) :
  NoDup (map key l) ->
  (List.length (filter (fun x => Z.eqb k (key x)) l) <= 1)%nat.
Proof.
  induction l as [|a l IH]; simpl; intros H; [lia|].
  inversion H as [|? ? Hn Hl]; subst. specialize (IH Hl).
  destruct (k =? key a) eqn:Hk; [|lia].
  apply Z.eqb_eq in Hk. subst k.
  destruct (filter (fun x => key a =? key x) l) as [|b bs] eqn:Hf;
    [simpl; lia|].
  exfalso. apply Hn.
  assert (Hb : In b (filter (fun x => key a =? key x) l))
    by (rewrite Hf; left; reflexivity).
  apply filter_In in Hb as [Hb Hkb]. apply Z.eqb_eq in Hkb.
  rewrite Hkb. apply in_map. exact Hb.
Qed.

(** Joined with their paper, the briefings still come once each. *)
Lemma join_paper_once (db : Session) :
  primary_keys_unique db ->
  NoDup (map (fun row => Briefing.id (fst row)) (join_paper db)).
Proof.
  intros [Hp Hb]. unfold join_paper.
  induction (briefings db) as [|b l IH]; [constructor|].
  cbn [flat_map]. rewrite map_app.
  simpl in Hb. inversion Hb as [|? ? Hn Hl]; subst.
  apply NoDup_app.
  - rewrite map_map. cbn [fst].
    pose proof (filter_key_at_most_one Paper.id (Briefing.paper_id b)
                  (papers db) Hp) as Hlen.
    destruct (filter _ (papers db)) as [|p [|q ps]]; simpl in *;
      [constructor | | lia].
    constructor; [intros [] | constructor].
  - apply IH. exact Hl.
  - intros x Hx1 Hx2. apply Hn.
    apply in_map_iff in Hx1 as [r1 [Hr1 Hin1]].
    apply in_map_iff in Hin1 as [p [<- _]]. simpl in Hr1. subst x.
    apply in_map_iff in Hx2 as [r2 [Hr2 Hin2]].
    apply in_flat_map in Hin2 as [b2 [Hb2 Hin2]].
    apply in_map_iff in Hin2 as [p2 [<- _]]. simpl in Hr2.
    rewrite <- Hr2. apply in_map. exact Hb2.
Qed.

(** Rows that none of the user's assignments name, and that name
    different briefings, are all accepted by the one commit. *)
Lemma add_user_briefings_accepted (now : datetime) (user : User.t)
  (selected : list Briefing.t) :
  forall db,
    NoDup (map Briefing.id selected) ->
    (forall b ub,
        In b selected -> In ub (user_briefings db) ->
        UserBriefing.user_id ub = User.id user ->
        UserBriefing.briefing_id ub <> Briefing.id b) ->
    exists rows,
      add_user_briefings db now user selected
      = Some (mkSession (papers db) (briefings db) (user_briefings db ++ rows),
              rows)
      /\ map UserBriefing.briefing_id rows = map Briefing.id selected
      /\ Forall (fun ub => UserBriefing.is_sent ub = false
                           /\ UserBriefing.sent_at ub = None
                           /\ UserBriefing.user_id ub = User.id user) rows.
Proof.
  induction selected as [|b rest IH]; intros db Hnd Hnew.
  - exists []. simpl. rewrite app_nil_r. destruct db; auto.
  - cbn [add_user_briefings].
    set (row := new_user_briefing _ now user b).
    assert (Hins : insert_user_briefing db row
                   = Some (mkSession (papers db) (briefings db)
                             (user_briefings db ++ [row]))).
    { unfold insert_user_briefing.
      destruct (existsb _ (user_briefings db)) eqn:He; [|reflexivity].
      exfalso. apply existsb_exists in He as [ub [Hin Hub]].
      apply orb_true_iff in Hub as [Hid | Hpair].
      - apply Z.eqb_eq in Hid. simpl in Hid.
        pose proof (next_id_fresh (map UserBriefing.id (user_briefings db))
                      (UserBriefing.id ub) (in_map _ _ _ Hin)). lia.
      - apply andb_true_iff in Hpair as [Hu Hb].
        apply Z.eqb_eq in Hu, Hb. simpl in Hu, Hb.
        apply (Hnew b ub); auto. left. reflexivity. }
    rewrite Hins. simpl in Hnd. inversion Hnd as [|? ? Hn Hrest]; subst.
    destruct (IH (mkSession (papers db) (briefings db)
                    (user_briefings db ++ [row])) Hrest)
      as [rows [Heq [Hids Hall]]].
    { intros b' ub Hb' Hub Hu. simpl in Hub.
      apply in_app_or in Hub as [Hub | [<- | []]].
      - apply (Hnew b' ub); auto. right. exact Hb'.
      - simpl. intros Heq. apply Hn. rewrite Heq. apply in_map. exact Hb'. }
    rewrite Heq. exists (row :: rows). simpl. rewrite <- app_assoc. simpl.
    split; [reflexivity|]. split; [rewrite Hids; reflexivity|].
    constructor; [simpl; auto | exact Hall].
Qed.

(** The limits that the service layer stores are between 1 and 50, so
    the cap of the fanout is never negative. *)
Lemma stored_limit_in_range (new_id : Z) (telegram_id : str)
  (updates : list (option Z * option bool * option Z)) :
  let user :=
    fold_left
      (fun u '(limit, active, days) => update_user_settings u limit active days)
      updates (new_user new_id telegram_id) in
  1 <= User.daily_paper_limit user <= 50.
Proof.
  cbv zeta.
  assert (H : 1 <= User.daily_paper_limit (new_user new_id telegram_id) <= 50)
    by (simpl; lia).
  revert H. generalize (new_user new_id telegram_id).
  induction updates as [|[[limit active] days] updates IH]; intros u Hu;
    [exact Hu|].
  simpl. apply IH. destruct limit; simpl; lia.
Qed.

(** C5.  For a store with its primary keys and a user whose
    [daily_paper_limit] is not negative, one call of
    [create_user_briefings] with [n] eligible briefings appends exactly
    [min(n, daily_paper_limit * 3)] rows to [user_briefings], hence at
    most [daily_paper_limit * 3]; every one of them is the user's, with
    [is_sent] false and no [sent_at]; nothing else is touched. *)
Theorem fanout_creates_min_rows :
  forall (E : SqlEngine) (db : Session) (now : datetime) (user : User.t),
    order_by_contract E ->
    primary_keys_unique db ->
    0 <= User.daily_paper_limit user ->
    let n := Z.of_nat (List.length (eligible_briefings E db user)) in
    let cap := User.daily_paper_limit user * 3 in
    let db' := fst (create_user_briefings E db now user) in
    let created := snd (create_user_briefings E db now user) in
    Z.of_nat (List.length created) = Z.min n cap
    /\ Z.of_nat (List.length created) <= cap
    /\ Forall (fun ub => UserBriefing.is_sent ub = false
                         /\ UserBriefing.sent_at ub = None
                         /\ UserBriefing.user_id ub = User.id user) created
    /\ user_briefings db' = user_briefings db ++ created
    /\ papers db' = papers db
    /\ briefings db' = briefings db.
Proof.
  intros E db now user HE Hkeys Hlimit n cap db' created.
  subst db' created. unfold create_user_briefings.
  set (key := fun row : Briefing.t * Paper.t => Paper.publish_date (snd row)).
  set (eligible := eligible_briefings E db user) in *.
  set (limited := sql_limit (User.daily_paper_limit user * 3)
                    (order_by_desc E _ key eligible)).
  destruct (HE _ key eligible) as [Hperm _].
  assert (Hin : forall row, In row limited -> In row eligible).
  { intros row Hrow. apply In_sql_limit in Hrow.
    apply (Permutation_in _ (Permutation_sym Hperm)). exact Hrow. }
  assert (Hnd : NoDup (map Briefing.id (map fst limited))).
  { rewrite map_map. unfold limited, sql_limit.
    assert (Hall : NoDup (map (fun row => Briefing.id (fst row))
                            (order_by_desc E _ key eligible))).
    { eapply Permutation_NoDup; [apply Permutation_map; exact Hperm|].
      unfold eligible, eligible_briefings.
      apply NoDup_map_filter, NoDup_map_filter, join_paper_once. exact Hkeys. }
    destruct (_ <? 0); [exact Hall|].
    rewrite <- firstn_map. apply NoDup_firstn. exact Hall. }
  assert (Hnew : forall b ub,
             In b (map fst limited) -> In ub (user_briefings db) ->
             UserBriefing.user_id ub = User.id user ->
             UserBriefing.briefing_id ub <> Briefing.id b).
  { intros b ub Hb Hub Hu Heq.
    apply in_map_iff in Hb as [row [<- Hrow]]. apply Hin in Hrow.
    unfold eligible, eligible_briefings in Hrow.
    apply filter_In in Hrow as [Hrow _]. apply filter_In in Hrow as [_ Hrow].
    apply negb_true_iff in Hrow. rewrite existsb_false_iff in Hrow.
    specialize (Hrow (UserBriefing.briefing_id ub)).
    rewrite Heq, Z.eqb_refl in Hrow. enough (false = true) by discriminate.
    symmetry. apply Hrow. unfold existing_briefing_ids.
    rewrite <- Heq. apply in_map. apply filter_In. split; [exact Hub|].
    apply Z.eqb_eq. exact Hu. }
  destruct (add_user_briefings_accepted now user (map fst limited) db Hnd Hnew)
    as [rows [-> [Hids Hall]]].
  cbn [fst snd papers briefings user_briefings].
  assert (Hlen : Z.of_nat (List.length rows) = Z.min n cap).
  { apply (f_equal (@List.length Z)) in Hids. rewrite !length_map in Hids.
    rewrite Hids. unfold limited. rewrite sql_limit_length by lia.
    rewrite <- (Permutation_length Hperm). subst n cap. lia. }
  repeat split; auto. lia.
Qed.

Lemma fanout_creates_min_rows_witness :
  let paper i :=
    Paper.mk i (lit "x") (lit "arxiv") (lit "T") (lit "A") (lit "B") None
      (Some (1000 + i)) None None (lit "u") 5 5 in
  let briefing i := Briefing.mk (10 + i) i (lit "c") None 6 in
  let db :=
    mkSession [paper 1; paper 2; paper 3; paper 4]
      [briefing 1; briefing 2; briefing 3; briefing 4] [] in
  let user := User.mk 1 (lit "42") 1 true 7 [] in
  let created := snd (create_user_briefings sqlite_stable db 9 user) in
  Z.of_nat (List.length (eligible_briefings sqlite_stable db user)) = 4
  /\ Z.of_nat (List.length created) = Z.min 4 3
  /\ Forall (fun ub => UserBriefing.is_sent ub = false
                       /\ UserBriefing.sent_at ub = None
                       /\ UserBriefing.user_id ub = 1) created.
Proof.
  cbv zeta. split; [vm_compute; reflexivity|].
  pose proof
    (fanout_creates_min_rows sqlite_stable
       (mkSession
          (map (fun i => Paper.mk i (lit "x") (lit "arxiv") (lit "T") (lit "A")
                           (lit "B") None (Some (1000 + i)) None None (lit "u")
                           5 5) [1; 2; 3; 4])
          (map (fun i => Briefing.mk (10 + i) i (lit "c") None 6) [1; 2; 3; 4])
          [])
       9 (User.mk 1 (lit "42") 1 true 7 []) order_stable_contract) as H.
  cbv zeta in H.
  destruct H as [Hlen [_ [Hall _]]].
  - split; vm_compute;
      repeat (constructor; [simpl; intuition discriminate|]); constructor.
  - vm_compute. discriminate.
  - split; [exact Hlen | exact Hall].
Defined.

(** Scenario 3: [daily_paper_limit = 5] and 20 eligible briefings. *)
Example fanout_scenario :
  let ids := map Z.of_nat (seq 1 20) in
  let db :=
    mkSession
      (map (fun i => Paper.mk i (lit "x") (lit "arxiv") (lit "T") (lit "A")
                       (lit "B") None (Some (1000 + i)) None None (lit "u") 5 5)
         ids)
      (map (fun i => Briefing.mk (100 + i) i (lit "c") None 6) ids) [] in
  let user := User.mk 1 (lit "42") 5 true 7 [] in
  List.length (eligible_briefings sqlite_stable db user) = 20%nat
  /\ List.length (snd (create_user_briefings sqlite_stable db 9 user)) = 15%nat
  /\ List.length
       (eligible_briefings sqlite_stable
          (fst (create_user_briefings sqlite_stable db 9 user)) user) = 5%nat.
Proof. vm_compute. repeat split; reflexivity. Qed.

(** The stores that ingestion and generation build have their primary
    keys. *)
Lemma save_paper_keys (db : Session) (now : datetime)
  (metadata : PaperMetadata.t) :
  primary_keys_unique db ->
  primary_keys_unique (fst (_save_paper db now metadata)).
Proof.
  intros [Hp Hb]. unfold _save_paper.
  destruct (find_paper db _ _); [split; assumption|].
  unfold insert_paper.
  destruct (existsb _ (papers db)) eqn:He; [split; assumption|].
  split; [|exact Hb]. simpl. rewrite map_app. simpl.
  apply NoDup_snoc; [exact Hp|]. intros Hin.
  apply next_id_fresh in Hin. lia.
Qed.

Lemma generate_single_keys (db : Session) (now : datetime)
  (settings : Settings) (llm : Collaborator) (paper : Paper.t) :
  primary_keys_unique db ->
  primary_keys_unique
    (fst (_generate_single_briefing db now settings llm paper)).
Proof.
  intros [Hp Hb]. unfold _generate_single_briefing.
  destruct (find_briefing db paper); [split; assumption|].
  unfold add_briefing, insert_briefing.
  destruct (existsb _ (briefings db)); [split; assumption|].
  split; [exact Hp|]. simpl. rewrite map_app. simpl.
  apply NoDup_snoc; [exact Hb|]. intros Hin.
  apply next_id_fresh in Hin. lia.
Qed.

(** The filter of the two SQL selections tests each column on its own,
    [check_interest] the three put together: a keyword that runs from
    the end of the title into the abstract is found by the latter
    only. *)
Example columns_are_not_concatenated :
  let paper :=
    Paper.mk 1 (lit "x") (lit "arxiv") (lit "Advances in deep")
      (lit "A") (lit "learning for vision.") None (Some 1000) None None
      (lit "u") 5 5 in
  keyword_filter sqlite_stable [lit "deep learning"] paper = false
  /\ fst (check_interest (map ascii_lower) (Paper.title paper)
            (Paper.abstract paper) [] [lit "deep learning"]) = true.
Proof. vm_compute. split; reflexivity. Qed.

(* ================================================================== *)
(** * Further properties of the service layer *)
(* ================================================================== *)

(* ------------------------------------------------------------------ *)
(** ** Saving and finding papers *)
(* ------------------------------------------------------------------ *)

Lemma find_app_none {A : Type} (f : A -> bool) (l l' : list A) :
  (forall x, In x l -> f x = false) -> find f (l ++ l') = find f l'.
Proof.
  induction l as [|a l IH]; intros H; simpl; [reflexivity|].
  rewrite (H a (or_introl eq_refl)). apply IH.
  intros x Hx. apply H. right. exact Hx.
Qed.

Lemma find_app_some {A : Type} (f : A -> bool) (l l' : list A) (x : A) :
  find f l = Some x -> find f (l ++ l') = Some x.
Proof.
  induction l as [|a l IH]; simpl; [discriminate|].
  destruct (f a); auto.
Qed.

(** What a successful [_save_paper] has done. *)
Lemma save_paper_some (db db' : Session) (now : datetime)
  (metadata : PaperMetadata.t) (paper : Paper.t) :
  _save_paper db now metadata = (db', Some paper) ->
  paper = paper_of_metadata (next_id (map Paper.id (papers db))) now metadata
  /\ db' = mkSession (papers db ++ [paper]) (briefings db) (user_briefings db)
  /\ ~ In (Paper.external_id paper) (map Paper.external_id (papers db)).
Proof.
  unfold _save_paper. destruct (find_paper db _ _); [discriminate|].
  unfold insert_paper.
  destruct (existsb _ (papers db)) eqn:He; [discriminate|].
  intros H. injection H as <- <-. split; [reflexivity|]. split; [reflexivity|].
  intros Hin. apply in_map_iff in Hin as [q [Hq Hin]].
  rewrite existsb_false_iff in He. specialize (He q Hin).
  apply orb_false_iff in He as [_ He]. rewrite Hq, eqb_refl in He.
  discriminate He.
Qed.

(** X1.  A record whose [external_id] no persisted paper carries is
    saved: [_save_paper] appends one row built from the record, with a
    new key, and returns it; afterwards the lookup on
    [(external_id, source)] and [get_paper_by_id] on the new key both
    give back that row. *)
Theorem save_paper_then_find :
  forall (db : Session) (now : datetime) (metadata : PaperMetadata.t),
    (forall p, In p (papers db) ->
               Paper.external_id p <> PaperMetadata.external_id metadata) ->
    let paper :=
      paper_of_metadata (next_id (map Paper.id (papers db))) now metadata in
    let db' := fst (_save_paper db now metadata) in
    _save_paper db now metadata
    = (mkSession (papers db ++ [paper]) (briefings db) (user_briefings db),
       Some paper)
    /\ find_paper db' (PaperMetadata.external_id metadata)
         (PaperMetadata.source metadata) = Some paper
    /\ get_paper_by_id db' (Paper.id paper) = Some paper.
Proof.
  intros db now metadata Hnew paper db'.
  assert (Hext : forall p, In p (papers db) ->
                   eqb (Paper.external_id p)
                     (PaperMetadata.external_id metadata) = false).
  { intros p Hp. apply eqb_neq. apply Hnew. exact Hp. }
  assert (Hsave : _save_paper db now metadata
                  = (mkSession (papers db ++ [paper]) (briefings db)
                       (user_briefings db), Some paper)).
  { unfold _save_paper, find_paper.
    destruct (find _ (papers db)) as [q|] eqn:Hf.
    - apply find_some in Hf as [Hq Hk]. rewrite (Hext q Hq) in Hk.
      discriminate Hk.
    - unfold insert_paper. fold paper.
      destruct (existsb _ (papers db)) eqn:He; [|reflexivity].
      exfalso. apply existsb_exists in He as [q [Hq Hk]].
      apply orb_true_iff in Hk as [Hk | Hk].
      + apply Z.eqb_eq in Hk. simpl in Hk.
        pose proof (next_id_fresh (map Paper.id (papers db)) (Paper.id q)
                      (in_map _ _ _ Hq)). lia.
      + simpl in Hk. rewrite (Hext q Hq) in Hk. discriminate Hk. }
  subst db'. rewrite Hsave. cbn [fst]. split; [reflexivity|]. split.
  - unfold find_paper. cbn [papers]. rewrite find_app_none.
    + simpl. rewrite !eqb_refl. reflexivity.
    + intros q Hq. rewrite (Hext q Hq). reflexivity.
  - unfold get_paper_by_id. cbn [papers]. rewrite find_app_none.
    + simpl. rewrite Z.eqb_refl. reflexivity.
    + intros q Hq. apply Z.eqb_neq.
      pose proof (next_id_fresh (map Paper.id (papers db)) (Paper.id q)
                    (in_map _ _ _ Hq)). simpl. lia.
Qed.

Lemma save_paper_then_find_witness :
  let metadata :=
    PaperMetadata.mk (lit "2401.00002") (lit "arxiv") (lit "Two")
      (AuthorsList [lit "A. Author"; lit "B. Author"]) (lit "Abstract.")
      (Some 1000) None None (lit "https://arxiv.org/abs/2401.00002")
      [lit "cs.LG"; lit "cs.AI"] in
  let db :=
    mkSession
      [Paper.mk 1 (lit "2401.00001") (lit "arxiv") (lit "One") (lit "A")
         (lit "B") None (Some 900) None None (lit "u") 5 5] [] [] in
  let paper := paper_of_metadata (next_id (map Paper.id (papers db))) 9 metadata in
  Paper.id paper = 2
  /\ Paper.authors paper = lit "A. Author, B. Author"
  /\ Paper.keywords paper = Some (lit "cs.LG, cs.AI")
  /\ find_paper (fst (_save_paper db 9 metadata))
       (PaperMetadata.external_id metadata) (PaperMetadata.source metadata)
     = Some paper
  /\ get_paper_by_id (fst (_save_paper db 9 metadata)) (Paper.id paper)
     = Some paper.
Proof.
  cbv zeta. split; [vm_compute; reflexivity|].
  split; [vm_compute; reflexivity|]. split; [vm_compute; reflexivity|].
  refine (proj2
    (save_paper_then_find
       (mkSession
          [Paper.mk 1 (lit "2401.00001") (lit "arxiv") (lit "One") (lit "A")
             (lit "B") None (Some 900) None None (lit "u") 5 5] [] [])
       9
       (PaperMetadata.mk (lit "2401.00002") (lit "arxiv") (lit "Two")
          (AuthorsList [lit "A. Author"; lit "B. Author"]) (lit "Abstract.")
          (Some 1000) None None (lit "https://arxiv.org/abs/2401.00002")
          [lit "cs.LG"; lit "cs.AI"]) _)).
  intros p [<- | []]. vm_compute. discriminate.
Defined.

Lemma save_stream_app (s1 s2 : list (datetime * PaperMetadata.t)) :
  forall db,
    save_stream db (s1 ++ s2)
    = (fst (save_stream (fst (save_stream db s1)) s2),
       snd (save_stream db s1)
       ++ snd (save_stream (fst (save_stream db s1)) s2)).
Proof.
  induction s1 as [|[t m] s1 IH]; intros db; simpl.
  - destruct (save_stream db s2); reflexivity.
  - destruct (_save_paper db t m) as [db1 saved].
    rewrite IH. destruct (save_stream db1 s1) as [db2 new]. simpl.
    destruct saved; reflexivity.
Qed.

Lemma save_stream_delta (stream : list (datetime * PaperMetadata.t)) :
  forall db,
    papers (fst (save_stream db stream))
    = papers db ++ snd (save_stream db stream)
    /\ briefings (fst (save_stream db stream)) = briefings db
    /\ user_briefings (fst (save_stream db stream)) = user_briefings db
    /\ (List.length (snd (save_stream db stream)) <= List.length stream)%nat
    /\ Forall (fun q => ~ In (Paper.external_id q)
                          (map Paper.external_id (papers db))
                        /\ exists t m,
                             In (t, m) stream
                             /\ Paper.external_id q = PaperMetadata.external_id m
                             /\ Paper.source q = PaperMetadata.source m
                             /\ Paper.title q = PaperMetadata.title m
                             /\ Paper.created_at q = t)
         (snd (save_stream db stream)).
Proof.
  induction stream as [|[t m] stream IH]; intros db; simpl.
  - rewrite app_nil_r. auto.
  - destruct (_save_paper db t m) as [db1 saved] eqn:Hs.
    destruct (IH db1) as [Hp [Hb [Hu [Hlen Hall]]]].
    destruct (save_stream db1 stream) as [db2 new]. simpl in *.
    assert (Hall' : Forall
              (fun q => ~ In (Paper.external_id q)
                          (map Paper.external_id (papers db))
                        /\ exists t0 m0,
                             ((t, m) = (t0, m0) \/ In (t0, m0) stream)
                             /\ Paper.external_id q = PaperMetadata.external_id m0
                             /\ Paper.source q = PaperMetadata.source m0
                             /\ Paper.title q = PaperMetadata.title m0
                             /\ Paper.created_at q = t0) new).
    { pose proof (save_paper_appends db t m) as Ha. rewrite Hs in Ha.
      destruct Ha as [Ha _].
      eapply Forall_impl; [|exact Hall]. cbv beta.
      intros q [Hq [t0 [m0 [Hin Hrest]]]]. split.
      - intros Hc. apply Hq. rewrite Ha, map_app. apply in_or_app. auto.
      - exists t0, m0. auto. }
    destruct saved as [paper|].
    + destruct (save_paper_some _ _ _ _ _ Hs) as [Hpaper [Hdb1 Hfresh]].
      subst db1. simpl in *. rewrite <- app_assoc in Hp. simpl in Hp.
      repeat split; auto; [lia|].
      constructor; [|exact Hall'].
      split; [exact Hfresh|]. exists t, m. rewrite Hpaper. simpl. auto.
    + pose proof (save_paper_appends db t m) as Ha. rewrite Hs in Ha.
      destruct Ha as [Ha1 [Ha2 Ha3]]. rewrite app_nil_r in Ha1.
      rewrite Hp, Hb, Hu, Ha1, Ha2, Ha3. repeat split; auto.
Qed.

(** X2.  What [_fetch_arxiv_papers] and [_fetch_openreview_papers]
    return is the delta of the store: the [papers] table afterwards is
    the table before followed by the returned papers, in order, and the
    other tables are untouched.  No more papers are returned than records
    were yielded, and each returned paper comes from a yielded record and
    carries an [external_id] that the store did not hold. *)
Theorem fetch_returns_the_delta :
  forall (stream : list (datetime * PaperMetadata.t)) (db : Session),
    let db' := fst (_fetch_arxiv_papers db stream) in
    let new := snd (_fetch_arxiv_papers db stream) in
    _fetch_openreview_papers db stream = _fetch_arxiv_papers db stream
    /\ papers db' = papers db ++ new
    /\ briefings db' = briefings db
    /\ user_briefings db' = user_briefings db
    /\ (List.length new <= List.length stream)%nat
    /\ Forall (fun q => ~ In (Paper.external_id q)
                          (map Paper.external_id (papers db))
                        /\ exists t m,
                             In (t, m) stream
                             /\ Paper.external_id q = PaperMetadata.external_id m
                             /\ Paper.source q = PaperMetadata.source m
                             /\ Paper.title q = PaperMetadata.title m
                             /\ Paper.created_at q = t) new.
Proof.
  intros stream db db' new. split; [reflexivity|].
  apply save_stream_delta.
Qed.

(** X3.  One source failing does not lose the other, and a source that
    failed reports nothing.  Let [from_arxiv] be the papers that
    [_fetch_arxiv_papers] saves from what the arXiv crawl yields, and
    [from_openreview] those that [_fetch_openreview_papers] then saves
    from what the OpenReview crawl yields.  After [fetch_and_save_papers]
    the [papers] table is the table before followed by [from_arxiv] and
    [from_openreview], whether or not a crawl raised.  The returned list
    is [from_arxiv] when the arXiv crawl ended normally and nothing for
    it when it raised, followed by the same for OpenReview: a paper saved
    from a crawl that raised is in the store and not in the returned
    list, and when no crawl raised the returned list is exactly what the
    store gained. *)
Theorem fetch_isolates_sources :
  forall (crawlers : Crawlers) (cs : CrawlSettings) (db : Session)
         (now_arxiv now_openreview : datetime) (days : Z)
         (categories venues : option (list str)),
    let arxiv := arxiv_crawl crawlers cs now_arxiv days categories in
    let openreview :=
      openreview_crawl crawlers cs now_openreview days venues in
    let from_arxiv := snd (_fetch_arxiv_papers db (yielded arxiv)) in
    let db1 := fst (_fetch_arxiv_papers db (yielded arxiv)) in
    let from_openreview :=
      snd (_fetch_openreview_papers db1 (yielded openreview)) in
    let result :=
      fetch_and_save_papers crawlers cs db now_arxiv now_openreview days
        categories venues in
    fst result = fst (_fetch_openreview_papers db1 (yielded openreview))
    /\ papers (fst result) = papers db ++ from_arxiv ++ from_openreview
    /\ snd result
       = (if raised arxiv then [] else from_arxiv)
         ++ (if raised openreview then [] else from_openreview)
    /\ (raised arxiv = true ->
        forall p, In p from_arxiv ->
                  In p (papers (fst result)) /\ ~ In p (snd result))
    /\ (raised openreview = true ->
        forall p, In p from_openreview ->
                  In p (papers (fst result)) /\ ~ In p (snd result))
    /\ (raised arxiv = false -> raised openreview = false ->
        papers (fst result) = papers db ++ snd result).
Proof.
  intros crawlers cs db t1 t2 days categories venues arxiv openreview
         from_arxiv db1 from_openreview result.
  subst result from_openreview from_arxiv db1. unfold fetch_and_save_papers.
  fold arxiv. fold openreview.
  unfold _fetch_arxiv_papers, _fetch_openreview_papers.
  destruct (save_stream_delta (yielded arxiv) db) as [Hp1 _].
  destruct (save_stream db (yielded arxiv)) as [db1 n1]. cbn [fst snd] in *.
  destruct (save_stream_delta (yielded openreview) db1)
    as [Hp2 [_ [_ [_ Hnew]]]].
  destruct (save_stream db1 (yielded openreview)) as [db2 n2].
  cbn [fst snd] in *.
  assert (Hdisjoint : forall p, In p n1 -> In p n2 -> False).
  { intros p H1 H2. rewrite Forall_forall in Hnew.
    destruct (Hnew p H2) as [Hfresh _]. apply Hfresh.
    apply in_map. rewrite Hp1. apply in_or_app. right. exact H1. }
  assert (Hall : papers db2 = papers db ++ n1 ++ n2)
    by (rewrite Hp2, Hp1, <- app_assoc; reflexivity).
  split; [reflexivity|]. split; [exact Hall|]. split; [reflexivity|].
  split; [|split].
  - intros Hr p Hp. rewrite Hr, Hall. split.
    + apply in_or_app. right. apply in_or_app. left. exact Hp.
    + simpl. destruct (raised openreview); [intros [] |].
      intros Hp2'. exact (Hdisjoint p Hp Hp2').
  - intros Hr p Hp. rewrite Hr, Hall, app_nil_r. split.
    + apply in_or_app. right. apply in_or_app. right. exact Hp.
    + destruct (raised arxiv); [intros [] |].
      intros Hp1'. exact (Hdisjoint p Hp1' Hp).
  - intros -> ->. exact Hall.
Qed.

Lemma fetch_isolates_sources_witness :
  let a1 :=
    PaperMetadata.mk (lit "a1") (lit "arxiv") (lit "A") (AuthorsList [])
      (lit "B") (Some 1000) None None (lit "u") [] in
  let o1 :=
    PaperMetadata.mk (lit "o1") (lit "openreview") (lit "O") (AuthorsList [])
      (lit "B") (Some 1000) None None (lit "v") [] in
  let crawlers :=
    mkCrawlers (fun _ _ => mkCrawl [(5, a1)] true)
      (fun _ _ => mkCrawl [(6, o1)] false) in
  let cs := mkCrawlSettings (lit "cs.AI") (lit "ICLR") in
  let result :=
    fetch_and_save_papers crawlers cs empty_session 100 100 1 None None in
  (map Paper.title (papers (fst result)) = [lit "A"; lit "O"]
   /\ map Paper.title (snd result) = [lit "O"])
  /\ forall p,
       In p (snd (_fetch_arxiv_papers empty_session [(5, a1)])) ->
       In p (papers (fst result)) /\ ~ In p (snd result).
Proof.
  cbv zeta. split; [split; vm_compute; reflexivity|].
  refine (proj1 (proj2 (proj2 (proj2
    (fetch_isolates_sources
       (mkCrawlers
          (fun _ _ =>
             mkCrawl
               [(5, PaperMetadata.mk (lit "a1") (lit "arxiv") (lit "A")
                      (AuthorsList []) (lit "B") (Some 1000) None None
                      (lit "u") [])] true)
          (fun _ _ =>
             mkCrawl
               [(6, PaperMetadata.mk (lit "o1") (lit "openreview") (lit "O")
                      (AuthorsList []) (lit "B") (Some 1000) None None
                      (lit "v") [])] false))
       (mkCrawlSettings (lit "cs.AI") (lit "ICLR")) empty_session 100 100 1
       None None)))) _).
  reflexivity.
Defined.

(* ------------------------------------------------------------------ *)
(** ** Comma-separated lists *)
(* ------------------------------------------------------------------ *)

Lemma split_no_separator (c : char) (s : str) :
  Forall (fun w => ~ In c w) (split c s).
Proof.
  induction s as [|a s IH]; simpl.
  - constructor; [intros [] | constructor].
  - destruct (char_eqb a c) eqn:Hac.
    + constructor; [intros [] | exact IH].
    + destruct (split c s) as [|w ws].
      * constructor; [|constructor].
        intros [Heq | []]. subst a. unfold char_eqb in Hac.
        rewrite N.eqb_refl in Hac. discriminate Hac.
      * inversion IH as [|? ? Hw Hws]; subst. constructor; [|exact Hws].
        intros [Heq | Hin]; [|exact (Hw Hin)].
        subst a. unfold char_eqb in Hac. rewrite N.eqb_refl in Hac.
        discriminate Hac.
Qed.

Lemma lstrip_incl (s : str) (a : char) : In a (lstrip s) -> In a s.
Proof.
  induction s as [|b s IH]; simpl; [tauto|].
  destruct (is_space b); simpl; auto.
Qed.

Lemma strip_incl (s : str) (a : char) : In a (strip s) -> In a s.
Proof.
  unfold strip. intros H. apply in_rev in H. apply lstrip_incl in H.
  apply in_rev in H. apply lstrip_incl in H. exact H.
Qed.

Lemma lstrip_head (s : str) :
  lstrip s = [] \/ exists a t, lstrip s = a :: t /\ is_space a = false.
Proof.
  induction s as [|b s IH]; simpl; [left; reflexivity|].
  destruct (is_space b) eqn:Hb; [exact IH|].
  right. exists b, s. auto.
Qed.

Lemma lstrip_fixed (a : char) (t : str) :
  is_space a = false -> lstrip (a :: t) = a :: t.
Proof. intros H. simpl. rewrite H. reflexivity. Qed.

Lemma lstrip_idempotent (s : str) : lstrip (lstrip s) = lstrip s.
Proof.
  destruct (lstrip_head s) as [-> | [a [t [-> Ha]]]]; [reflexivity|].
  apply lstrip_fixed. exact Ha.
Qed.

Lemma lstrip_snoc (l : str) (a : char) :
  is_space a = false -> lstrip (l ++ [a]) = lstrip l ++ [a].
Proof.
  intros Ha. induction l as [|b l IH]; simpl.
  - rewrite Ha. reflexivity.
  - destruct (is_space b); [exact IH | reflexivity].
Qed.

(** Stripping twice strips nothing more. *)
Lemma strip_idempotent (s : str) : strip (strip s) = strip s.
Proof.
  unfold strip.
  destruct (lstrip_head s) as [-> | [a [t [-> Ha]]]]; [reflexivity|].
  set (u := lstrip (rev (a :: t))).
  assert (Hu : rev u = a :: rev (lstrip (rev t))).
  { unfold u. simpl rev. rewrite (lstrip_snoc _ a Ha), rev_app_distr.
    reflexivity. }
  assert (H1 : lstrip (rev u) = rev u).
  { rewrite Hu. apply lstrip_fixed. exact Ha. }
  rewrite H1, rev_involutive. unfold u. rewrite lstrip_idempotent.
  reflexivity.
Qed.

Lemma comma_list_clean (s : str) :
  Forall (fun item => item <> [] /\ strip item = item /\ ~ In 44%N item)
    (comma_list s).
Proof.
  unfold comma_list. apply Forall_forall. intros item Hin.
  apply in_map_iff in Hin as [w [<- Hw]].
  apply filter_In in Hw as [Hw Ht].
  split; [|split].
  - intros Hnil. rewrite Hnil in Ht. discriminate Ht.
  - apply strip_idempotent.
  - intros H44. apply strip_incl in H44.
    pose proof (split_no_separator 44%N s) as Hs.
    rewrite Forall_forall in Hs. exact (Hs w Hw H44).
Qed.

(** X4.  The keyword and category lists read from a research field and
    from the settings hold only clean entries: none is empty, none
    starts or ends with white space (stripping it again changes
    nothing), and none holds a comma.  A field with no value, or with an
    empty or all-blank one, gives the empty list. *)
Theorem field_lists_are_clean :
  forall (field : ResearchField.t) (cs : CrawlSettings),
    let clean item := item <> [] /\ strip item = item /\ ~ In 44%N item in
    Forall clean (get_keywords_list field)
    /\ Forall clean (get_arxiv_categories_list field)
    /\ Forall clean (arxiv_categories_list cs)
    /\ Forall clean (openreview_conferences_list cs)
    /\ (ResearchField.keywords field = None -> get_keywords_list field = [])
    /\ (forall blanks,
           ResearchField.keywords field = Some blanks ->
           forallb (fun c => is_space c || char_eqb c 44%N) blanks = true ->
           get_keywords_list field = []).
Proof.
  intros field cs clean. subst clean. cbv beta.
  split; [|split; [|split; [|split; [|split]]]].
  - unfold get_keywords_list. destruct (ResearchField.keywords field) as [k|];
      [|constructor].
    destruct (truthy k); [apply (comma_list_clean k) | constructor].
  - unfold get_arxiv_categories_list.
    destruct (ResearchField.arxiv_categories field) as [k|]; [|constructor].
    destruct (truthy k); [apply comma_list_clean | constructor].
  - apply comma_list_clean.
  - apply comma_list_clean.
  - unfold get_keywords_list. intros ->. reflexivity.
  - intros blanks Hk Hb. unfold get_keywords_list. rewrite Hk.
    destruct (truthy blanks); [|reflexivity].
    assert (Hall : forall w, In w (split 44%N blanks) ->
                             truthy (strip w) = false).
    { clear Hk. induction blanks as [|a s IH]; simpl.
      - intros w [<- | []]. reflexivity.
      - simpl in Hb. apply andb_true_iff in Hb as [Ha Hs].
        specialize (IH Hs).
        destruct (char_eqb a 44%N) eqn:Hc.
        + intros w [<- | Hw]; [reflexivity | auto].
        + rewrite orb_false_r in Ha.
          destruct (split 44%N s) as [|w0 ws]; intros w [<- | Hw].
          * unfold strip. simpl. rewrite Ha. reflexivity.
          * destruct Hw.
          * pose proof (IH w0 (or_introl eq_refl)) as H0.
            unfold strip in *. simpl. rewrite Ha. exact H0.
          * apply IH. right. exact Hw. }
    replace (filter (fun kw => truthy (strip kw)) (split 44%N blanks))
      with (@nil str); [reflexivity|].
    symmetry. apply filter_nil_existsb. apply existsb_false_iff. exact Hall.
Qed.

Example default_field_lists :
  let nlp :=
    ResearchField.mk 2 (lit "nlp") (Some (lit "cs.CL,cs.LG"))
      (Some (lit "natural language processing,LLM,transformer,language model")) in
  get_arxiv_categories_list nlp = [lit "cs.CL"; lit "cs.LG"]
  /\ get_keywords_list nlp
     = [lit "natural language processing"; lit "LLM"; lit "transformer";
        lit "language model"]
  /\ arxiv_categories_list (mkCrawlSettings (lit "cs.AI,cs.CL,cs.CV,cs.LG")
                              (lit "ICLR,NeurIPS,ICML"))
     = [lit "cs.AI"; lit "cs.CL"; lit "cs.CV"; lit "cs.LG"].
Proof. vm_compute. repeat split; reflexivity. Qed.

(* ------------------------------------------------------------------ *)
(** ** The fetch stage *)
(* ------------------------------------------------------------------ *)

Lemma set_of_In (l : list str) (c : str) : In c (set_of l) <-> In c l.
Proof. unfold set_of. apply nodup_In. Qed.

Lemma fetch_plan_step_spec (plan : list str * Z) (u : User.t) :
  snd plan <= snd (fetch_plan_step plan u)
  /\ (NoDup (fst plan) -> NoDup (fst (fetch_plan_step plan u)))
  /\ (forall c, In c (fst (fetch_plan_step plan u))
                <-> In c (fst plan)
                    \/ exists f, In f (User.research_fields u)
                                 /\ In c (get_arxiv_categories_list f))
  /\ (User.research_fields u <> [] ->
      User.crawl_history_days u <= snd (fetch_plan_step plan u)).
Proof.
  unfold fetch_plan_step.
  destruct (User.research_fields u) as [|f0 fs] eqn:Hf.
  - split; [lia|]. split; [auto|]. split.
    + intros c. split; [auto | intros [H | [f [[] _]]]; exact H].
    + intros H. contradiction.
  - cbn [fst snd]. split; [lia|]. split; [intros _; apply NoDup_nodup|].
    split; [|intros _; lia].
    intros c. rewrite set_of_In, in_app_iff, in_flat_map. tauto.
Qed.

Lemma fetch_plan_from (users : list User.t) :
  forall plan : list str * Z,
    snd plan <= snd (fold_left fetch_plan_step users plan)
    /\ (NoDup (fst plan) -> NoDup (fst (fold_left fetch_plan_step users plan)))
    /\ (forall c,
           In c (fst (fold_left fetch_plan_step users plan))
           <-> In c (fst plan)
               \/ exists u f,
                    In u users /\ In f (User.research_fields u)
                    /\ In c (get_arxiv_categories_list f))
    /\ (forall u, In u users -> User.research_fields u <> [] ->
                  User.crawl_history_days u
                  <= snd (fold_left fetch_plan_step users plan)).
Proof.
  induction users as [|u users IH]; intros plan; cbn [fold_left].
  - split; [lia|]. split; [auto|]. split.
    + intros c. split; [auto | intros [H | [u [f [[] _]]]]; exact H].
    + intros u [].
  - destruct (fetch_plan_step_spec plan u) as [Ha [Hb [Hc Hd]]].
    destruct (IH (fetch_plan_step plan u)) as [Ia [Ib [Ic Id]]].
    split; [|split; [|split]].
    + lia.
    + auto.
    + intros c. rewrite Ic, Hc. split.
      * intros [[H | [f [Hf Hcf]]] | [v [f [Hv Hrest]]]]; auto.
        -- right. exists u, f. simpl. auto.
        -- right. exists v, f. simpl. tauto.
      * intros [H | [v [f [[<- | Hv] [Hf Hcf]]]]]; auto.
        -- left. right. exists f. auto.
        -- right. exists v, f. auto.
    + intros v [<- | Hv] Hne; [specialize (Hd Hne); lia | auto].
Qed.

(** X5.  The fetch stage makes one pass that covers every active user.
    The categories it asks arXiv for are, each once, exactly those of the
    fields of the active users; the number of days is at least 1 and at
    least the history depth of every active user who has a field.  With
    no category the store is left as it is and no source is asked;
    otherwise the store afterwards is the store after saving what arXiv
    yields for these categories over [max(days, 2)] days and then what
    OpenReview yields for the configured conferences over [days] days,
    whether or not either crawl raised. *)
Theorem fetch_job_covers_active_users :
  forall (crawlers : Crawlers) (cs : CrawlSettings) (db : Session)
         (now_arxiv now_openreview : datetime) (all_users : list User.t),
    let categories := fst (fetch_plan (get_all_active_users all_users)) in
    let days := snd (fetch_plan (get_all_active_users all_users)) in
    let db' :=
      _fetch_papers_job crawlers cs db now_arxiv now_openreview all_users in
    1 <= days
    /\ NoDup categories
    /\ (forall c,
           In c categories
           <-> exists u f,
                 In u all_users /\ User.is_active u = true
                 /\ In f (User.research_fields u)
                 /\ In c (get_arxiv_categories_list f))
    /\ (forall u, In u all_users -> User.is_active u = true ->
                  User.research_fields u <> [] ->
                  User.crawl_history_days u <= days)
    /\ (categories = [] -> db' = db)
    /\ (categories <> [] ->
        db'
        = fst (save_stream db
                 (yielded (arxiv_fetch_papers crawlers categories
                             (now_arxiv - timedelta_days (Z.max days 2)))
                  ++ yielded (openreview_fetch_papers crawlers
                                (openreview_conferences_list cs)
                                (now_openreview - timedelta_days days))))).
Proof.
  intros crawlers cs db t1 t2 all_users categories days db'.
  pose proof (fetch_plan_from (get_all_active_users all_users) ([], 1)) as H.
  fold (fetch_plan (get_all_active_users all_users)) in H.
  fold categories in H. fold days in H. cbn [fst snd] in H.
  destruct H as [Hd [Hn [Hc Hu]]].
  split; [exact Hd|]. split; [apply Hn; constructor|]. split; [|split].
  - intros c. rewrite Hc. unfold get_all_active_users. split.
    + intros [[] | [u [f [Hin Hrest]]]]. apply filter_In in Hin as [Hin Ha].
      exists u, f. tauto.
    + intros [u [f [Hin [Ha Hrest]]]]. right. exists u, f.
      split; [apply filter_In; auto | exact Hrest].
  - intros u Hin Ha Hne. apply Hu; [|exact Hne].
    unfold get_all_active_users. apply filter_In. auto.
  - subst db'. unfold _fetch_papers_job. subst categories days.
    destruct (fetch_plan (get_all_active_users all_users))
      as [categories days]. cbn [fst snd]. clear.
    split.
    + intros ->. reflexivity.
    + intros Hne. destruct categories as [|c0 cats]; [contradiction|].
      unfold fetch_and_save_papers, arxiv_crawl, openreview_crawl, list_or,
        _fetch_arxiv_papers, _fetch_openreview_papers.
      rewrite save_stream_app.
      destruct (save_stream db _) as [db1 n1]. cbn [fst snd].
      destruct (save_stream db1 _) as [db2 n2]. reflexivity.
Qed.

Example fetch_plan_two_users :
  let ml :=
    ResearchField.mk 1 (lit "machine_learning")
      (Some (lit "cs.LG,cs.AI,stat.ML")) None in
  let nlp := ResearchField.mk 2 (lit "nlp") (Some (lit "cs.CL,cs.LG")) None in
  fetch_plan
    [User.mk 1 (lit "11") 10 true 7 [ml]; User.mk 2 (lit "22") 10 true 30 [];
     User.mk 3 (lit "33") 5 true 14 [ml; nlp]]
  = ([lit "cs.AI"; lit "stat.ML"; lit "cs.CL"; lit "cs.LG"], 14).
Proof. vm_compute. reflexivity. Qed.

(* ------------------------------------------------------------------ *)
(** ** The generate stage *)
(* ------------------------------------------------------------------ *)

Lemma find_briefing_append (db db' : Session) (added : list Briefing.t)
  (paper : Paper.t) (b : Briefing.t) :
  briefings db' = briefings db ++ added ->
  find_briefing db paper = Some b -> find_briefing db' paper = Some b.
Proof.
  unfold find_briefing. intros -> H. apply find_app_some. exact H.
Qed.

(** One call of [_generate_single_briefing]: it returns the first
    briefing of the paper in the store it leaves, and that store is the
    old one with at most one briefing appended. *)
Lemma generate_single_spec (db : Session) (now : datetime)
  (settings : Settings) (llm : Collaborator) (paper : Paper.t) :
  exists b added,
    _generate_single_briefing db now settings llm paper
    = (mkSession (papers db) (briefings db ++ added) (user_briefings db),
       Some b)
    /\ find (fun x => Z.eqb (Briefing.paper_id x) (Paper.id paper))
         (briefings db ++ added) = Some b
    /\ (List.length added <= 1)%nat
    /\ (find_briefing db paper = None ->
        added = [b] /\ Briefing.paper_id b = Paper.id paper)
    /\ (find_briefing db paper <> None -> added = []).
Proof.
  unfold _generate_single_briefing.
  destruct (find_briefing db paper) as [b|] eqn:Hf.
  - exists b, []. rewrite app_nil_r. destruct db. simpl.
    split; [reflexivity|]. split; [exact Hf|]. split; [lia|].
    split; [discriminate | reflexivity].
  - destruct (add_briefing_commits db now settings llm paper)
      as [b [-> [Hb _]]].
    exists b, [b]. split; [reflexivity|]. split.
    + rewrite find_app_none.
      * simpl. rewrite Hb, Z.eqb_refl. reflexivity.
      * intros x Hx. unfold find_briefing in Hf. exact (find_none _ _ Hf x Hx).
    + split; [simpl; lia|]. split; [auto | congruence].
Qed.

(** The loop of [generate_briefings] over any list of papers. *)
Lemma briefings_loop_spec (settings : Settings) (llm : Collaborator)
  (clock : nat -> datetime) (l : list Paper.t) :
  forall db i,
    exists added,
      fst (briefings_loop db clock i settings llm l)
      = mkSession (papers db) (briefings db ++ added) (user_briefings db)
      /\ (List.length added <= List.length l)%nat
      /\ Forall2
           (fun p b =>
              find_briefing (fst (briefings_loop db clock i settings llm l)) p
              = Some b)
           l (snd (briefings_loop db clock i settings llm l)).
Proof.
  induction l as [|p l IH]; intros db i; simpl.
  - exists []. rewrite app_nil_r. destruct db. simpl.
    split; [reflexivity|]. split; [lia | constructor].
  - destruct (generate_single_spec db (clock i) settings llm p)
      as [b [added1 [-> [Hfind [Hlen _]]]]].
    set (db1 := mkSession (papers db) (briefings db ++ added1)
                  (user_briefings db)).
    destruct (IH db1 (S i)) as [added2 [Hdb2 [Hlen2 Hall]]].
    destruct (briefings_loop db1 clock (S i) settings llm l) as [db2 bs].
    cbn [fst snd] in *. exists (added1 ++ added2).
    split; [rewrite Hdb2; simpl; rewrite app_assoc; reflexivity|].
    split; [rewrite length_app; lia|].
    constructor; [|exact Hall].
    unfold find_briefing. rewrite Hdb2. simpl. apply find_app_some.
    exact Hfind.
Qed.

Lemma briefings_loop_found (settings : Settings) (llm : Collaborator)
  (clock : nat -> datetime) (db : Session) (l : list Paper.t)
  (bs : list Briefing.t) :
  Forall2 (fun p b => find_briefing db p = Some b) l bs ->
  forall i, briefings_loop db clock i settings llm l = (db, bs).
Proof.
  induction 1 as [|p b l bs Hp _ IH]; intros i; simpl; [reflexivity|].
  unfold _generate_single_briefing. rewrite Hp, IH. reflexivity.
Qed.

(** X6.  [generate_briefings] on a given list of papers skips none of
    them: it returns one briefing per paper, in the order of the list,
    each with the paper's identifier and present in the store; it appends
    at most one briefing per paper to the [briefings] table and touches
    nothing else.  Run again on the same list, at any later time and
    with any collaborator, it changes nothing and returns the same
    briefings. *)
Theorem generate_briefings_covers_and_repeats :
  forall (E : SqlEngine) (db : Session) (now now' : datetime)
         (clock clock' : nat -> datetime) (settings settings' : Settings)
         (llm llm' : Collaborator) (l : list Paper.t)
         (max_papers max_papers' : option Z)
         (research_fields research_fields' : list ResearchField.t),
    let result :=
      generate_briefings E db now clock settings llm (Some l) max_papers
        research_fields in
    map Briefing.paper_id (snd result) = map Paper.id l
    /\ Forall (fun b => In b (briefings (fst result))) (snd result)
    /\ (exists added,
           briefings (fst result) = briefings db ++ added
           /\ (List.length added <= List.length l)%nat)
    /\ papers (fst result) = papers db
    /\ user_briefings (fst result) = user_briefings db
    /\ generate_briefings E (fst result) now' clock' settings' llm' (Some l)
         max_papers' research_fields'
       = result.
Proof.
  intros. subst result. unfold generate_briefings.
  destruct (briefings_loop_spec settings llm clock l db 0)
    as [added [Hdb [Hlen Hall]]].
  destruct (briefings_loop db clock 0 settings llm l) as [db' bs].
  cbn [fst snd] in *.
  assert (Hids : map Briefing.paper_id bs = map Paper.id l).
  { clear - Hall. induction Hall as [|p b l bs Hp _ IH]; simpl; [reflexivity|].
    rewrite IH. f_equal. unfold find_briefing in Hp.
    apply find_some in Hp as [_ Hp]. apply Z.eqb_eq in Hp. exact Hp. }
  assert (Hin : Forall (fun b => In b (briefings db')) bs).
  { clear - Hall. induction Hall as [|p b l bs Hp _ IH]; constructor; auto.
    unfold find_briefing in Hp. apply find_some in Hp as [Hp _]. exact Hp. }
  split; [exact Hids|]. split; [exact Hin|].
  split; [exists added; rewrite Hdb; auto|].
  split; [rewrite Hdb; reflexivity|]. split; [rewrite Hdb; reflexivity|].
  apply briefings_loop_found. exact Hall.
Qed.

(** Papers of different keys that have no briefing each get a new
    one. *)
Lemma briefings_loop_all_new (settings : Settings) (llm : Collaborator)
  (clock : nat -> datetime) (l : list Paper.t) :
  forall db i,
    NoDup (map Paper.id l) ->
    Forall (fun p => find_briefing db p = None) l ->
    briefings (fst (briefings_loop db clock i settings llm l))
    = briefings db ++ snd (briefings_loop db clock i settings llm l).
Proof.
  induction l as [|p l IH]; intros db i Hnd Hnone; simpl.
  - rewrite app_nil_r. reflexivity.
  - inversion Hnd as [|? ? Hp Hl]; subst.
    inversion Hnone as [|? ? Hfp Hfl]; subst.
    destruct (generate_single_spec db (clock i) settings llm p)
      as [b [added1 [-> [_ [_ [Hnew _]]]]]].
    destruct (Hnew Hfp) as [-> Hb].
    set (db1 := mkSession (papers db) (briefings db ++ [b])
                  (user_briefings db)).
    assert (Hnone1 : Forall (fun q => find_briefing db1 q = None) l).
    { rewrite Forall_forall in *. intros q Hq. unfold find_briefing, db1.
      cbn [briefings]. rewrite find_app_none.
      - simpl. destruct (Briefing.paper_id b =? Paper.id q) eqn:Hbq;
          [|reflexivity].
        exfalso. apply Z.eqb_eq in Hbq. apply Hp. rewrite <- Hb, Hbq.
        apply in_map. exact Hq.
      - intros x Hx. specialize (Hfl q Hq). unfold find_briefing in Hfl.
        exact (find_none _ _ Hfl x Hx). }
    specialize (IH db1 (S i) Hl Hnone1).
    destruct (briefings_loop db1 clock (S i) settings llm l) as [db2 bs].
    cbn [fst snd] in *. rewrite IH. unfold db1. cbn [briefings].
    rewrite <- app_assoc. reflexivity.
Qed.

Lemma pending_papers_in_candidates (E : SqlEngine) (db : Session)
  (now : datetime) (limit : Z) (research_fields : list ResearchField.t)
  (p : Paper.t) :
  order_by_contract E ->
  In p (_get_pending_papers E db now limit research_fields) ->
  In p (pending_candidates E db (now - timedelta_days 7) research_fields).
Proof.
  intros HE Hp. rewrite get_pending_papers_eq in Hp.
  apply In_sql_limit in Hp.
  destruct (HE Paper.t Paper.publish_date
              (pending_candidates E db (now - timedelta_days 7)
                 research_fields)) as [Hperm _].
  apply (Permutation_in _ (Permutation_sym Hperm)). exact Hp.
Qed.

Lemma pending_candidates_lack (E : SqlEngine) (db : Session)
  (since : datetime) (research_fields : list ResearchField.t) (p : Paper.t) :
  In p (pending_candidates E db since research_fields) ->
  In p (papers db) /\ lacks_briefing db p = true.
Proof.
  unfold pending_candidates. intros Hp.
  apply filter_In in Hp as [Hp _]. apply filter_In in Hp as [Hp _].
  apply filter_In in Hp. exact Hp.
Qed.

(** X7.  The generate stage on its own selection, in a store whose paper
    keys are unique.  [generate_briefings] without a list of papers adds
    exactly one briefing for each selected paper, in the order of the
    selection, hence at most [max_papers] of them (the setting
    [max_papers_per_day] when none or zero is given); and no selected
    paper is selected again afterwards, whatever the time, limit, fields
    or engine of the later selection. *)
Theorem generate_stage_consumes_its_selection :
  forall (E : SqlEngine) (db : Session) (now : datetime)
         (clock : nat -> datetime) (settings : Settings) (llm : Collaborator)
         (max_papers : option Z) (research_fields : list ResearchField.t),
    order_by_contract E ->
    NoDup (map Paper.id (papers db)) ->
    let cap :=
      match max_papers with
      | Some n => if n =? 0 then max_papers_per_day settings else n
      | None => max_papers_per_day settings
      end in
    let selected := _get_pending_papers E db now cap research_fields in
    let result :=
      generate_briefings E db now clock settings llm None max_papers
        research_fields in
    briefings (fst result) = briefings db ++ snd result
    /\ map Briefing.paper_id (snd result) = map Paper.id selected
    /\ (0 <= cap -> Z.of_nat (List.length (snd result)) <= cap)
    /\ forall (E' : SqlEngine) (now' limit' : Z)
              (research_fields' : list ResearchField.t) (p : Paper.t),
         order_by_contract E' ->
         In p selected ->
         ~ In p (_get_pending_papers E' (fst result) now' limit'
                   research_fields').
Proof.
  intros E db now clock settings llm max_papers research_fields HE Hkeys
    cap selected result.
  assert (Hsel : forall p, In p selected ->
                           In p (papers db) /\ lacks_briefing db p = true).
  { intros p Hp. eapply pending_candidates_lack.
    eapply pending_papers_in_candidates; eauto. }
  assert (Hnd : NoDup (map Paper.id selected)).
  { unfold selected. rewrite get_pending_papers_eq.
    destruct (HE Paper.t Paper.publish_date
                (pending_candidates E db (now - timedelta_days 7)
                   research_fields)) as [Hperm _].
    assert (Hall : NoDup (map Paper.id
                            (order_by_desc E Paper.t Paper.publish_date
                               (pending_candidates E db
                                  (now - timedelta_days 7) research_fields)))).
    { eapply Permutation_NoDup; [apply Permutation_map; exact Hperm|].
      unfold pending_candidates.
      apply NoDup_map_filter, NoDup_map_filter, NoDup_map_filter. exact Hkeys. }
    unfold sql_limit. destruct (cap <? 0); [exact Hall|].
    rewrite <- firstn_map. apply NoDup_firstn. exact Hall. }
  assert (Hnone : Forall (fun p => find_briefing db p = None) selected).
  { apply Forall_forall. intros p Hp. apply lacks_briefing_find.
    apply Hsel. exact Hp. }
  assert (Hres : result = briefings_loop db clock 0 settings llm selected)
    by reflexivity.
  pose proof (briefings_loop_all_new settings llm clock selected db 0 Hnd Hnone)
    as Hnew.
  destruct (briefings_loop_spec settings llm clock selected db 0)
    as [added [Hdb [Hlen Hall]]].
  rewrite <- Hres in Hnew, Hdb, Hall.
  assert (Hids : map Briefing.paper_id (snd result) = map Paper.id selected).
  { clear - Hall. induction Hall as [|p b l bs Hp _ IH]; simpl; [reflexivity|].
    rewrite IH. f_equal. unfold find_briefing in Hp.
    apply find_some in Hp as [_ Hp]. apply Z.eqb_eq in Hp. exact Hp. }
  split; [exact Hnew|]. split; [exact Hids|]. split.
  - intros Hcap.
    apply (f_equal (@List.length Z)) in Hids. rewrite !length_map in Hids.
    rewrite Hids. unfold selected. rewrite get_pending_papers_eq.
    rewrite sql_limit_length by exact Hcap. lia.
  - intros E' now' limit' fields' p HE' Hp Hagain.
    apply (pending_papers_in_candidates E' _ _ _ _ _ HE') in Hagain.
    apply pending_candidates_lack in Hagain as [_ Hlack].
    unfold lacks_briefing in Hlack. apply negb_true_iff in Hlack.
    rewrite existsb_false_iff in Hlack.
    assert (Hb : exists b, find_briefing (fst result) p = Some b).
    { clear - Hall Hp. induction Hall as [|q b l bs Hq _ IH];
        [contradiction|].
      destruct Hp as [<- | Hp]; eauto. }
    destruct Hb as [b Hb]. unfold find_briefing in Hb.
    apply find_some in Hb as [Hin Hb]. specialize (Hlack b Hin).
    rewrite Z.eqb_sym in Hlack. congruence.
Qed.

Lemma generate_stage_consumes_its_selection_witness :
  let paper d i :=
    Paper.mk i (lit "x") (lit "arxiv") (lit "T") (lit "A") (lit "B") None
      (Some d) None None (lit "u") 5 5 in
  let db := mkSession [paper 3000 1; paper 4000 2; paper 4000 3] [] [] in
  let settings := mkSettings None None 2 in
  let llm := mkCollaborator (fun _ => ApiRaises) (fun _ => ApiRaises) in
  let result :=
    generate_briefings sqlite_stable db 5000 (fun i => 5000 + Z.of_nat i)
      settings llm None None [] in
  briefings (fst result) = briefings db ++ snd result
  /\ map Briefing.paper_id (snd result)
     = map Paper.id (_get_pending_papers sqlite_stable db 5000 2 [])
  /\ (0 <= 2 -> Z.of_nat (List.length (snd result)) <= 2).
Proof.
  cbv zeta.
  pose proof
    (generate_stage_consumes_its_selection sqlite_stable
       (mkSession
          (map (fun '(d, i) =>
                  Paper.mk i (lit "x") (lit "arxiv") (lit "T") (lit "A")
                    (lit "B") None (Some d) None None (lit "u") 5 5)
             [(3000, 1); (4000, 2); (4000, 3)]) [] [])
       5000 (fun i => 5000 + Z.of_nat i) (mkSettings None None 2)
       (mkCollaborator (fun _ => ApiRaises) (fun _ => ApiRaises)) None []
       order_stable_contract) as H.
  cbv zeta in H. destruct H as [H1 [H2 [H3 _]]].
  - vm_compute. repeat (constructor; [simpl; intuition discriminate|]).
    constructor.
  - split; [exact H1|]. split; [exact H2 | exact H3].
Defined.

(** X8.  The scheduled generate stage.  [_generate_briefings_job] leaves
    the store as it is when no active user has a research field;
    otherwise it appends briefings only, at most [max_papers_per_day] of
    them when that setting is not negative, and touches neither [papers]
    nor [user_briefings]. *)
Theorem generate_job_is_capped :
  forall (E : SqlEngine) (db : Session) (now : datetime)
         (clock : nat -> datetime) (settings : Settings) (llm : Collaborator)
         (all_users : list User.t),
    0 <= max_papers_per_day settings ->
    let db' := _generate_briefings_job E db now clock settings llm all_users in
    (exists added,
        briefings db' = briefings db ++ added
        /\ Z.of_nat (List.length added) <= max_papers_per_day settings)
    /\ papers db' = papers db
    /\ user_briefings db' = user_briefings db
    /\ ((forall u, In u all_users -> User.is_active u = true ->
                   User.research_fields u = []) ->
        db' = db).
Proof.
  intros E db now clock settings llm all_users Hcap db'.
  subst db'. unfold _generate_briefings_job.
  set (fields := nodup field_eq_dec
                   (flat_map User.research_fields
                      (get_all_active_users all_users))).
  assert (Hempty : (forall u, In u all_users -> User.is_active u = true ->
                              User.research_fields u = []) ->
                   fields = []).
  { intros Hno. unfold fields.
    destruct (nodup field_eq_dec _) as [|f fs] eqn:Hn; [reflexivity|].
    exfalso.
    assert (Hf : In f (nodup field_eq_dec
                         (flat_map User.research_fields
                            (get_all_active_users all_users))))
      by (rewrite Hn; left; reflexivity).
    apply nodup_In in Hf. apply in_flat_map in Hf as [u [Hu Hf]].
    unfold get_all_active_users in Hu. apply filter_In in Hu as [Hu Ha].
    rewrite (Hno u Hu Ha) in Hf. exact Hf. }
  destruct fields as [|f fs] eqn:Hfields.
  - split; [exists []; rewrite app_nil_r; split; [reflexivity | simpl; lia]|].
    auto.
  - unfold generate_briefings.
    set (selected := _get_pending_papers E db now (max_papers_per_day settings)
                       (f :: fs)).
    destruct (briefings_loop_spec settings llm clock selected db 0)
      as [added [Hdb [Hlen _]]].
    rewrite Hdb. cbn [papers briefings user_briefings].
    split; [|split; [reflexivity|split; [reflexivity|]]].
    + exists added. split; [reflexivity|].
      assert (Hsel : Z.of_nat (List.length selected)
                     <= max_papers_per_day settings).
      { unfold selected. rewrite get_pending_papers_eq.
        rewrite sql_limit_length by exact Hcap. lia. }
      lia.
    + intros Hno. specialize (Hempty Hno). discriminate Hempty.
Qed.

Lemma generate_job_is_capped_witness :
  let paper d i :=
    Paper.mk i (lit "x") (lit "arxiv") (lit "T") (lit "A") (lit "B") None
      (Some d) None None (lit "u") 5 5 in
  let db := mkSession [paper 3000 1; paper 4000 2; paper 4000 3] [] [] in
  let settings := mkSettings None None 2 in
  let llm := mkCollaborator (fun _ => ApiRaises) (fun _ => ApiRaises) in
  let user :=
    User.mk 1 (lit "11") 10 true 7 [ResearchField.mk 1 (lit "any") None None] in
  let db' :=
    _generate_briefings_job sqlite_stable db 5000 (fun _ => 5000) settings llm
      [user] in
  List.length (briefings db') = 2%nat
  /\ exists added,
       briefings db' = briefings db ++ added
       /\ Z.of_nat (List.length added) <= 2.
Proof.
  cbv zeta. split; [vm_compute; reflexivity|].
  refine (proj1
    (generate_job_is_capped sqlite_stable
       (mkSession
          (map (fun '(d, i) =>
                  Paper.mk i (lit "x") (lit "arxiv") (lit "T") (lit "A")
                    (lit "B") None (Some d) None None (lit "u") 5 5)
             [(3000, 1); (4000, 2); (4000, 3)]) [] [])
       5000 (fun _ => 5000) (mkSettings None None 2)
       (mkCollaborator (fun _ => ApiRaises) (fun _ => ApiRaises))
       [User.mk 1 (lit "11") 10 true 7
          [ResearchField.mk 1 (lit "any") None None]] _)).
  vm_compute. discriminate.
Defined.

(* ------------------------------------------------------------------ *)
(** ** Fanout and the queues *)
(* ------------------------------------------------------------------ *)

Lemma fanout_selection_in (E : SqlEngine) (db : Session) (user : User.t)
  (row : Briefing.t * Paper.t) :
  order_by_contract E ->
  In row (fanout_selection E db user) -> In row (eligible_briefings E db user).
Proof.
  intros HE Hrow. unfold fanout_selection in Hrow. apply In_sql_limit in Hrow.
  destruct (HE _ (fun r : Briefing.t * Paper.t => Paper.publish_date (snd r))
              (eligible_briefings E db user)) as [Hperm _].
  apply (Permutation_in _ (Permutation_sym Hperm)). exact Hrow.
Qed.

(** What a call of [create_user_briefings] does in a store with its
    primary keys. *)
Lemma fanout_rows (E : SqlEngine) (db : Session) (now : datetime)
  (user : User.t) :
  order_by_contract E ->
  primary_keys_unique db ->
  exists rows,
    create_user_briefings E db now user
    = (mkSession (papers db) (briefings db) (user_briefings db ++ rows), rows)
    /\ map UserBriefing.briefing_id rows
       = map (fun row => Briefing.id (fst row)) (fanout_selection E db user)
    /\ Forall (fun ub => UserBriefing.is_sent ub = false
                         /\ UserBriefing.sent_at ub = None
                         /\ UserBriefing.user_id ub = User.id user) rows.
Proof.
  intros HE Hkeys. unfold create_user_briefings.
  fold (fanout_selection E db user).
  set (limited := fanout_selection E db user).
  set (key := fun row : Briefing.t * Paper.t => Paper.publish_date (snd row)).
  destruct (HE _ key (eligible_briefings E db user)) as [Hperm _].
  assert (Hnd : NoDup (map Briefing.id (map fst limited))).
  { rewrite map_map. unfold limited, fanout_selection, sql_limit.
    assert (Hall : NoDup (map (fun row => Briefing.id (fst row))
                            (order_by_desc E _ key
                               (eligible_briefings E db user)))).
    { eapply Permutation_NoDup; [apply Permutation_map; exact Hperm|].
      unfold eligible_briefings.
      apply NoDup_map_filter, NoDup_map_filter, join_paper_once. exact Hkeys. }
    destruct (_ <? 0); [exact Hall|].
    rewrite <- firstn_map. apply NoDup_firstn. exact Hall. }
  assert (Hnew : forall b ub,
             In b (map fst limited) -> In ub (user_briefings db) ->
             UserBriefing.user_id ub = User.id user ->
             UserBriefing.briefing_id ub <> Briefing.id b).
  { intros b ub Hb Hub Hu Heq.
    apply in_map_iff in Hb as [row [<- Hrow]].
    apply (fanout_selection_in E db user row HE) in Hrow.
    unfold eligible_briefings in Hrow.
    apply filter_In in Hrow as [Hrow _]. apply filter_In in Hrow as [_ Hrow].
    apply negb_true_iff in Hrow. rewrite existsb_false_iff in Hrow.
    specialize (Hrow (UserBriefing.briefing_id ub)).
    rewrite Heq, Z.eqb_refl in Hrow. enough (false = true) by discriminate.
    symmetry. apply Hrow. unfold existing_briefing_ids.
    rewrite <- Heq. apply in_map. apply filter_In. split; [exact Hub|].
    apply Z.eqb_eq. exact Hu. }
  destruct (add_user_briefings_accepted now user (map fst limited) db Hnd Hnew)
    as [rows [-> [Hids Hall]]].
  exists rows. split; [reflexivity|]. split; [|exact Hall].
  rewrite Hids, map_map. reflexivity.
Qed.

Lemma filter_filter_and {A : Type} (p q r : A -> bool) (l : list A) :
  filter p (filter (fun x => q x && r x) l)
  = filter r (filter p (filter q l)).
Proof.
  induction l as [|a l IH]; simpl; [reflexivity|].
  destruct (q a) eqn:Hq; simpl.
  - destruct (r a) eqn:Hr; simpl.
    + destruct (p a); simpl; [rewrite Hr|]; rewrite IH; reflexivity.
    + destruct (p a); simpl; [rewrite Hr|]; exact IH.
  - exact IH.
Qed.

Lemma existing_ids_after (db : Session) (user : User.t)
  (rows : list UserBriefing.t) :
  Forall (fun ub => UserBriefing.user_id ub = User.id user) rows ->
  existing_briefing_ids
    (mkSession (papers db) (briefings db) (user_briefings db ++ rows)) user
  = existing_briefing_ids db user ++ map UserBriefing.briefing_id rows.
Proof.
  intros Hall. unfold existing_briefing_ids. cbn [user_briefings].
  rewrite filter_app, map_app. f_equal. f_equal.
  induction Hall as [|ub l Hub _ IH]; simpl; [reflexivity|].
  rewrite Hub, Z.eqb_refl, IH. reflexivity.
Qed.

Lemma eligible_after_rows (E : SqlEngine) (db : Session) (user : User.t)
  (rows : list UserBriefing.t) :
  Forall (fun ub => UserBriefing.user_id ub = User.id user) rows ->
  eligible_briefings E
    (mkSession (papers db) (briefings db) (user_briefings db ++ rows)) user
  = filter (fun row =>
              negb (existsb (Z.eqb (Briefing.id (fst row)))
                      (map UserBriefing.briefing_id rows)))
      (eligible_briefings E db user).
Proof.
  intros Hall. unfold eligible_briefings.
  rewrite (existing_ids_after db user rows Hall).
  unfold join_paper. cbn [papers briefings].
  rewrite <- filter_filter_and. f_equal. apply filter_ext.
  intros row. rewrite existsb_app, negb_orb. reflexivity.
Qed.

(** X9.  Fanout consumes what it assigns.  In a store with its primary
    keys, after [create_user_briefings] the user's eligible briefings are
    the former ones less those just assigned, so none of the created
    rows names a briefing that is still eligible; and when the eligible
    briefings were no more than [daily_paper_limit * 3], none is left and
    a second call creates no row and changes nothing. *)
Theorem fanout_consumes_its_candidates :
  forall (E : SqlEngine) (db : Session) (now : datetime) (user : User.t),
    order_by_contract E ->
    primary_keys_unique db ->
    0 <= User.daily_paper_limit user ->
    let db' := fst (create_user_briefings E db now user) in
    let created := snd (create_user_briefings E db now user) in
    eligible_briefings E db' user
    = filter (fun row =>
                negb (existsb (Z.eqb (Briefing.id (fst row)))
                        (map UserBriefing.briefing_id created)))
        (eligible_briefings E db user)
    /\ Forall (fun ub =>
                 ~ In (UserBriefing.briefing_id ub)
                     (map (fun row => Briefing.id (fst row))
                        (eligible_briefings E db' user))) created
    /\ (Z.of_nat (List.length (eligible_briefings E db user))
        <= User.daily_paper_limit user * 3 ->
        eligible_briefings E db' user = []
        /\ forall now', create_user_briefings E db' now' user = (db', [])).
Proof.
  intros E db now user HE Hkeys Hlimit db' created. subst db' created.
  destruct (fanout_rows E db now user HE Hkeys) as [rows [-> [Hids Hall]]].
  cbn [fst snd].
  assert (Huser : Forall (fun ub => UserBriefing.user_id ub = User.id user)
                    rows).
  { eapply Forall_impl; [|exact Hall]. intros ub [_ [_ H]]. exact H. }
  pose proof (eligible_after_rows E db user rows Huser) as Hel.
  split; [exact Hel|]. split.
  - apply Forall_forall. intros ub Hub Hin.
    apply in_map_iff in Hin as [row [Hrow Hin]].
    rewrite Hel in Hin. apply filter_In in Hin as [_ Hin].
    apply negb_true_iff in Hin. rewrite existsb_false_iff in Hin.
    specialize (Hin (UserBriefing.briefing_id ub) (in_map _ _ _ Hub)).
    rewrite Hrow, Z.eqb_refl in Hin. discriminate Hin.
  - intros Hfew.
    assert (Hnone : eligible_briefings E
                      (mkSession (papers db) (briefings db)
                         (user_briefings db ++ rows)) user = []).
    { rewrite Hel. apply filter_nil_existsb. apply existsb_false_iff.
      intros row Hrow. apply negb_false_iff. apply existsb_exists.
      exists (Briefing.id (fst row)). split; [|apply Z.eqb_refl].
      rewrite Hids. unfold fanout_selection, sql_limit.
      destruct (_ <? 0) eqn:Hneg; [apply Z.ltb_lt in Hneg; lia|].
      destruct (HE _ (fun r : Briefing.t * Paper.t =>
                        Paper.publish_date (snd r))
                  (eligible_briefings E db user)) as [Hperm _].
      rewrite firstn_all2
        by (rewrite <- (Permutation_length Hperm); lia).
      apply (in_map (fun r => Briefing.id (fst r))).
      apply (Permutation_in _ Hperm). exact Hrow. }
    split; [exact Hnone|].
    intros now'. unfold create_user_briefings. rewrite Hnone.
    destruct (HE _ (fun r : Briefing.t * Paper.t => Paper.publish_date (snd r))
                (@nil (Briefing.t * Paper.t))) as [Hperm _].
    apply Permutation_nil in Hperm. rewrite Hperm.
    unfold sql_limit. destruct (_ <? 0); [reflexivity|].
    rewrite firstn_nil. reflexivity.
Qed.

Lemma fanout_consumes_its_candidates_witness :
  let ids := [1; 2; 3; 4] in
  let db :=
    mkSession
      (map (fun i => Paper.mk i (lit "x") (lit "arxiv") (lit "T") (lit "A")
                       (lit "B") None (Some (1000 + i)) None None (lit "u") 5 5)
         ids)
      (map (fun i => Briefing.mk (10 + i) i (lit "c") None 6) ids) [] in
  let user := User.mk 1 (lit "42") 2 true 7 [] in
  let db' := fst (create_user_briefings sqlite_stable db 9 user) in
  List.length (user_briefings db') = 4%nat
  /\ eligible_briefings sqlite_stable db' user = []
  /\ forall now', create_user_briefings sqlite_stable db' now' user = (db', []).
Proof.
  cbv zeta. split; [vm_compute; reflexivity|].
  refine (proj2 (proj2
    (fanout_consumes_its_candidates sqlite_stable
       (mkSession
          (map (fun i => Paper.mk i (lit "x") (lit "arxiv") (lit "T") (lit "A")
                           (lit "B") None (Some (1000 + i)) None None (lit "u")
                           5 5) [1; 2; 3; 4])
          (map (fun i => Briefing.mk (10 + i) i (lit "c") None 6) [1; 2; 3; 4])
          [])
       9 (User.mk 1 (lit "42") 2 true 7 []) order_stable_contract _ _)) _).
  - split; vm_compute;
      repeat (constructor; [simpl; intuition discriminate|]); constructor.
  - vm_compute. discriminate.
  - vm_compute. discriminate.
Defined.

Lemma insert_user_briefing_keeps (db db' : Session) (row : UserBriefing.t) :
  insert_user_briefing db row = Some db' ->
  user_briefings db' = user_briefings db ++ [row]
  /\ ~ In (UserBriefing.id row) (map UserBriefing.id (user_briefings db))
  /\ ~ In (assignment row) (map assignment (user_briefings db)).
Proof.
  unfold insert_user_briefing.
  destruct (existsb _ (user_briefings db)) eqn:He; [discriminate|].
  intros H. injection H as <-. split; [reflexivity|].
  rewrite existsb_false_iff in He. split; intros Hin;
    apply in_map_iff in Hin as [ub [Hub Hin]]; specialize (He ub Hin);
    apply orb_false_iff in He as [He1 He2].
  - rewrite Hub, Z.eqb_refl in He1. discriminate He1.
  - unfold assignment in Hub. injection Hub as Hu Hb.
    rewrite Hu, Hb, !Z.eqb_refl in He2. discriminate He2.
Qed.

Lemma add_user_briefings_keeps (now : datetime) (user : User.t)
  (selected : list Briefing.t) :
  forall db db' rows,
    add_user_briefings db now user selected = Some (db', rows) ->
    assignments_unique db -> user_briefing_keys_unique db ->
    assignments_unique db' /\ user_briefing_keys_unique db'.
Proof.
  induction selected as [|b rest IH]; intros db db' rows H Ha Hk.
  - simpl in H. injection H as <- _. auto.
  - cbn [add_user_briefings] in H.
    destruct (insert_user_briefing db _) as [db1|] eqn:Hi; [|discriminate].
    destruct (add_user_briefings db1 now user rest) as [[db2 rows2]|] eqn:Hr;
      [|discriminate].
    injection H as <- _.
    destruct (insert_user_briefing_keeps _ _ _ Hi) as [Hubs [Hid Hpair]].
    apply (IH db1 db2 rows2 Hr).
    + unfold assignments_unique. rewrite Hubs, map_app. simpl.
      apply NoDup_snoc; assumption.
    + unfold user_briefing_keys_unique. rewrite Hubs, map_app. simpl.
      apply NoDup_snoc; assumption.
Qed.

Lemma run_marks_keeps_view {V : Type} (view : UserBriefing.t -> V)
  (calls : list mark_call) :
  (forall now ub, view (set_sent now ub) = view ub) ->
  (forall now ub, view (set_read now ub) = view ub) ->
  (forall ub, view (set_interested ub) = view ub) ->
  forall db,
    map view (user_briefings (run_marks db calls))
    = map view (user_briefings db).
Proof.
  intros Hs Hr Hi. unfold run_marks.
  induction calls as [|call calls IH]; intros db; simpl; [reflexivity|].
  rewrite IH. destruct call as [now i | now i | i]; simpl;
    [unfold mark_user_briefing_sent | unfold mark_user_briefing_read
    | unfold mark_user_briefing_interested];
    destruct (find_user_briefing db i); try reflexivity;
    apply update_keeps_view; auto.
Qed.

(** X10.  One row per (user, briefing) pair, at the persistence layer.
    A store whose [user_briefings] rows have different keys and assign
    different (user, briefing) pairs keeps both properties through
    [create_user_briefings], for any user and whatever the engine
    returns, and through any sequence of [markSent], [markRead] and
    [markInterested] calls. *)
Theorem assignments_stay_unique :
  forall (E : SqlEngine) (db : Session) (now : datetime) (user : User.t)
         (calls : list mark_call),
    assignments_unique db ->
    user_briefing_keys_unique db ->
    assignments_unique (fst (create_user_briefings E db now user))
    /\ user_briefing_keys_unique (fst (create_user_briefings E db now user))
    /\ assignments_unique (run_marks db calls)
    /\ user_briefing_keys_unique (run_marks db calls).
Proof.
  intros E db now user calls Ha Hk.
  assert (Hc : assignments_unique (fst (create_user_briefings E db now user))
               /\ user_briefing_keys_unique
                    (fst (create_user_briefings E db now user))).
  { unfold create_user_briefings.
    destruct (add_user_briefings db now user _) as [[db' rows]|] eqn:Hadd;
      [|auto].
    exact (add_user_briefings_keeps _ _ _ _ _ _ Hadd Ha Hk). }
  destruct Hc as [Hc1 Hc2]. split; [exact Hc1|]. split; [exact Hc2|].
  unfold assignments_unique, user_briefing_keys_unique.
  rewrite (run_marks_keeps_view assignment calls), 
    (run_marks_keeps_view UserBriefing.id calls); auto.
Qed.

Lemma assignments_stay_unique_witness :
  let paper := Paper.mk 1 (lit "x") (lit "arxiv") (lit "T") (lit "A") (lit "B")
                 None (Some 1000) None None (lit "u") 5 5 in
  let db :=
    mkSession [paper] [Briefing.mk 11 1 (lit "c") None 6]
      [UserBriefing.mk 1 2 11 false None false None false 7] in
  let user := User.mk 1 (lit "42") 2 true 7 [] in
  map assignment
    (user_briefings (fst (create_user_briefings sqlite_stable db 9 user)))
  = [(2, 11); (1, 11)]
  /\ assignments_unique (fst (create_user_briefings sqlite_stable db 9 user))
  /\ user_briefing_keys_unique
       (fst (create_user_briefings sqlite_stable db 9 user)).
Proof.
  cbv zeta. split; [vm_compute; reflexivity|].
  pose proof
    (assignments_stay_unique sqlite_stable
       (mkSession
          [Paper.mk 1 (lit "x") (lit "arxiv") (lit "T") (lit "A") (lit "B")
             None (Some 1000) None None (lit "u") 5 5]
          [Briefing.mk 11 1 (lit "c") None 6]
          [UserBriefing.mk 1 2 11 false None false None false 7])
       9 (User.mk 1 (lit "42") 2 true 7 []) []) as H.
  destruct H as [H1 [H2 _]].
  - vm_compute. constructor; [intros [] | constructor].
  - vm_compute. constructor; [intros [] | constructor].
  - split; [exact H1 | exact H2].
Defined.

(** The rows of a table that has its keys, around the row of one key. *)
Lemma row_of_key (l : list UserBriefing.t) (i : Z) (ub : UserBriefing.t) :
  NoDup (map UserBriefing.id l) ->
  find (fun x => Z.eqb (UserBriefing.id x) i) l = Some ub ->
  exists l1 l2,
    l = l1 ++ ub :: l2
    /\ UserBriefing.id ub = i
    /\ forall change,
         map (fun x => if Z.eqb (UserBriefing.id x) i then change x else x) l
         = l1 ++ change ub :: l2.
Proof.
  intros Hnd Hf. apply find_some in Hf as [Hin Hid]. apply Z.eqb_eq in Hid.
  apply in_split in Hin as [l1 [l2 ->]]. exists l1, l2.
  split; [reflexivity|]. split; [exact Hid|].
  intros change. rewrite map_app. simpl. rewrite Hid, Z.eqb_refl.
  rewrite map_app in Hnd. simpl in Hnd.
  pose proof (NoDup_remove_2 _ _ _ Hnd) as Hnot.
  assert (Hsame : forall l',
             (forall x, In x l' -> In (UserBriefing.id x)
                                     (map UserBriefing.id l1
                                      ++ map UserBriefing.id l2)) ->
             map (fun x => if Z.eqb (UserBriefing.id x) i then change x else x) l'
             = l').
  { intros l' Hl'. rewrite <- (map_id l') at 2. apply map_ext_in.
    intros x Hx. destruct (UserBriefing.id x =? i) eqn:Hxi; [|reflexivity].
    exfalso. apply Z.eqb_eq in Hxi. apply Hnot. rewrite Hid, <- Hxi.
    apply Hl'. exact Hx. }
  rewrite (Hsame l1), (Hsame l2); [reflexivity | |];
    intros x Hx; apply in_or_app; [right | left]; apply in_map; exact Hx.
Qed.

Lemma sql_limit_all {A : Type} (n : Z) (l : list A) :
  Z.of_nat (List.length l) <= n -> sql_limit n l = l.
Proof.
  intros H. unfold sql_limit. destruct (n <? 0); [reflexivity|].
  apply firstn_all2. lia.
Qed.

Lemma pending_perm (E : SqlEngine) (db : Session) (user : User.t) :
  order_by_contract E ->
  Permutation (get_user_pending_briefings E db user None)
    (filter (is_pending_of user) (user_briefings db)).
Proof.
  intros HE. unfold get_user_pending_briefings.
  destruct (HE _ (fun ub => Some (UserBriefing.created_at ub))
              (filter (is_pending_of user) (user_briefings db)))
    as [Hperm _].
  apply Permutation_sym. exact Hperm.
Qed.

Lemma sent_perm (E : SqlEngine) (db : Session) (user : User.t) (limit : Z) :
  order_by_contract E ->
  Z.of_nat (List.length (user_briefings db)) <= limit ->
  Permutation (get_user_sent_briefings E db user limit)
    (filter (is_sent_of user) (user_briefings db)).
Proof.
  intros HE Hl. unfold get_user_sent_briefings. fold (is_sent_of user).
  destruct (HE _ UserBriefing.sent_at
              (filter (is_sent_of user) (user_briefings db)))
    as [Hperm _].
  rewrite sql_limit_all.
  - apply Permutation_sym. exact Hperm.
  - rewrite <- (Permutation_length Hperm).
    pose proof (filter_length_le (is_sent_of user) (user_briefings db)). lia.
Qed.

(** X11.  Fanout fills the user's queue.  In a store with its primary
    keys, the pending briefings of the user after [create_user_briefings]
    are the pending ones from before together with the created rows, and
    the user's sent briefings are the same as before. *)
Theorem fanout_fills_the_pending_queue :
  forall (E : SqlEngine) (db : Session) (now : datetime) (user : User.t)
         (limit : Z),
    order_by_contract E ->
    primary_keys_unique db ->
    let db' := fst (create_user_briefings E db now user) in
    let created := snd (create_user_briefings E db now user) in
    Permutation (get_user_pending_briefings E db' user None)
      (get_user_pending_briefings E db user None ++ created)
    /\ (Z.of_nat (List.length (user_briefings db')) <= limit ->
        Permutation (get_user_sent_briefings E db' user limit)
          (get_user_sent_briefings E db user limit)).
Proof.
  intros E db now user limit HE Hkeys db' created. subst db' created.
  destruct (fanout_rows E db now user HE Hkeys) as [rows [-> [_ Hall]]].
  cbn [fst snd].
  assert (Hp : filter (is_pending_of user) rows = rows).
  { clear - Hall. induction Hall as [|ub l [Hs [_ Hu]] _ IH]; simpl;
      [reflexivity|].
    unfold is_pending_of at 1. rewrite Hs, Hu, Z.eqb_refl. simpl.
    rewrite IH. reflexivity. }
  assert (Hs : filter (is_sent_of user) rows = []).
  { clear - Hall. induction Hall as [|ub l [Hs [_ Hu]] _ IH]; simpl;
      [reflexivity|].
    unfold is_sent_of at 1. rewrite Hs, andb_false_r. exact IH. }
  split.
  - rewrite (pending_perm E _ user HE), (pending_perm E db user HE).
    cbn [user_briefings]. rewrite filter_app, Hp. reflexivity.
  - cbn [user_briefings]. intros Hl.
    rewrite (sent_perm E _ user limit HE) by exact Hl.
    rewrite (sent_perm E db user limit HE)
      by (rewrite length_app in Hl; lia).
    cbn [user_briefings]. rewrite filter_app, Hs, app_nil_r. reflexivity.
Qed.

Lemma fanout_fills_the_pending_queue_witness :
  let ids := [1; 2; 3] in
  let db :=
    mkSession
      (map (fun i => Paper.mk i (lit "x") (lit "arxiv") (lit "T") (lit "A")
                       (lit "B") None (Some (1000 + i)) None None (lit "u") 5 5)
         ids)
      (map (fun i => Briefing.mk (10 + i) i (lit "c") None 6) ids)
      [UserBriefing.mk 1 1 11 false None false None false 7] in
  let user := User.mk 1 (lit "42") 2 true 7 [] in
  let db' := fst (create_user_briefings sqlite_stable db 9 user) in
  let created := snd (create_user_briefings sqlite_stable db 9 user) in
  map UserBriefing.briefing_id created = [13; 12]
  /\ Permutation (get_user_pending_briefings sqlite_stable db' user None)
       (get_user_pending_briefings sqlite_stable db user None ++ created).
Proof.
  cbv zeta. split; [vm_compute; reflexivity|].
  refine (proj1
    (fanout_fills_the_pending_queue sqlite_stable
       (mkSession
          (map (fun i => Paper.mk i (lit "x") (lit "arxiv") (lit "T") (lit "A")
                           (lit "B") None (Some (1000 + i)) None None (lit "u")
                           5 5) [1; 2; 3])
          (map (fun i => Briefing.mk (10 + i) i (lit "c") None 6) [1; 2; 3])
          [UserBriefing.mk 1 1 11 false None false None false 7])
       9 (User.mk 1 (lit "42") 2 true 7 []) 0 order_stable_contract _)).
  split; vm_compute;
    repeat (constructor; [simpl; intuition discriminate|]); constructor.
Defined.

(** X12.  Delivery moves one row from the queue to the history.  In a
    table with its keys, [mark_user_briefing_sent] on the identifier of a
    pending row of the user returns [True]; the row gets [is_sent] and
    [sent_at = now] and keeps every other field; it leaves the user's
    pending briefings, which are otherwise the same, and joins the
    user's sent briefings, which are otherwise the same. *)
Theorem mark_sent_moves_the_row :
  forall (E : SqlEngine) (db : Session) (now : datetime) (user : User.t)
         (i limit : Z) (ub : UserBriefing.t),
    order_by_contract E ->
    user_briefing_keys_unique db ->
    find_user_briefing db i = Some ub ->
    UserBriefing.user_id ub = User.id user ->
    UserBriefing.is_sent ub = false ->
    Z.of_nat (List.length (user_briefings db)) <= limit ->
    let db' := fst (mark_user_briefing_sent db now i) in
    snd (mark_user_briefing_sent db now i) = true
    /\ find_user_briefing db' i = Some (set_sent now ub)
    /\ Permutation (ub :: get_user_pending_briefings E db' user None)
         (get_user_pending_briefings E db user None)
    /\ Permutation (get_user_sent_briefings E db' user limit)
         (set_sent now ub :: get_user_sent_briefings E db user limit).
Proof.
  intros E db now user i limit ub HE Hkeys Hf Hu Hs Hl db'. subst db'.
  unfold mark_user_briefing_sent. rewrite Hf. cbn [fst snd].
  destruct (row_of_key _ i ub Hkeys Hf) as [l1 [l2 [Hubs [Hid Hmap]]]].
  assert (Hafter : user_briefings (update_user_briefing db i (set_sent now))
                   = l1 ++ set_sent now ub :: l2).
  { simpl. apply Hmap. }
  assert (Hothers : forall x, In x (l1 ++ l2) -> UserBriefing.id x <> i).
  { intros x Hx Hxi. unfold user_briefing_keys_unique in Hkeys.
    rewrite Hubs, map_app in Hkeys. simpl in Hkeys.
    apply NoDup_remove_2 in Hkeys. apply Hkeys. rewrite Hid, <- Hxi.
    rewrite <- map_app. apply in_map. exact Hx. }
  split; [reflexivity|]. split; [|split].
  - unfold find_user_briefing. rewrite Hafter. rewrite find_app_none.
    + simpl. rewrite Hid, Z.eqb_refl. reflexivity.
    + intros x Hx. apply Z.eqb_neq. apply Hothers. apply in_or_app. auto.
  - rewrite (pending_perm E _ user HE), (pending_perm E db user HE).
    rewrite Hafter, Hubs, !filter_app. simpl.
    replace (is_pending_of user (set_sent now ub)) with false
      by (unfold is_pending_of; simpl; rewrite andb_false_r; reflexivity).
    replace (is_pending_of user ub) with true
      by (unfold is_pending_of; rewrite Hu, Hs, Z.eqb_refl; reflexivity).
    apply Permutation_middle.
  - rewrite (sent_perm E _ user limit HE)
      by (rewrite Hafter; rewrite Hubs in Hl; rewrite length_app in *;
          simpl in *; lia).
    rewrite (sent_perm E db user limit HE) by exact Hl.
    rewrite Hafter, Hubs, !filter_app. simpl.
    replace (is_sent_of user (set_sent now ub)) with true
      by (unfold is_sent_of; simpl; rewrite Hu, Z.eqb_refl; reflexivity).
    replace (is_sent_of user ub) with false
      by (unfold is_sent_of; rewrite Hs, andb_false_r; reflexivity).
    apply Permutation_sym, Permutation_middle.
Qed.

Lemma mark_sent_moves_the_row_witness :
  let row i := UserBriefing.mk i 1 (10 + i) false None false None false 7 in
  let db := mkSession [] [] [row 1; row 2; row 3] in
  let user := User.mk 1 (lit "42") 2 true 7 [] in
  let db' := fst (mark_user_briefing_sent db 50 2) in
  find_user_briefing db' 2 = Some (set_sent 50 (row 2))
  /\ Permutation (row 2 :: get_user_pending_briefings sqlite_stable db' user None)
       (get_user_pending_briefings sqlite_stable db user None).
Proof.
  cbv zeta.
  pose proof
    (mark_sent_moves_the_row sqlite_stable
       (mkSession [] []
          (map (fun i => UserBriefing.mk i 1 (10 + i) false None false None
                           false 7) [1; 2; 3]))
       50 (User.mk 1 (lit "42") 2 true 7 []) 2 3
       (UserBriefing.mk 2 1 12 false None false None false 7)
       order_stable_contract) as H.
  cbv zeta in H. destruct H as [_ [H2 [H3 _]]].
  - vm_compute. repeat (constructor; [simpl; intuition discriminate|]).
    constructor.
  - reflexivity.
  - reflexivity.
  - reflexivity.
  - vm_compute. discriminate.
  - split; [exact H2 | exact H3].
Defined.

(* ------------------------------------------------------------------ *)
(** ** How the state transitions compose *)
(* ------------------------------------------------------------------ *)

Lemma found_iff_key (db : Session) (i : Z) :
  find_user_briefing db i = None
  <-> ~ In i (map UserBriefing.id (user_briefings db)).
Proof.
  unfold find_user_briefing. split.
  - intros Hf Hin. apply in_map_iff in Hin as [ub [Hid Hin]].
    apply (find_none _ _ Hf) in Hin. rewrite Hid, Z.eqb_refl in Hin.
    discriminate Hin.
  - intros Hno. destruct (find _ (user_briefings db)) as [ub|] eqn:Hf;
      [|reflexivity].
    exfalso. apply find_some in Hf as [Hin Hid]. apply Z.eqb_eq in Hid.
    apply Hno. rewrite <- Hid. apply in_map. exact Hin.
Qed.

Lemma found_after_update (db : Session) (i j : Z)
  (change : UserBriefing.t -> UserBriefing.t) :
  (forall ub, UserBriefing.id (change ub) = UserBriefing.id ub) ->
  (find_user_briefing (update_user_briefing db i change) j = None
   <-> find_user_briefing db j = None).
Proof.
  intros Hid. rewrite !found_iff_key.
  rewrite (update_keeps_view UserBriefing.id change db i Hid). tauto.
Qed.

Lemma update_twice (db : Session) (i j : Z)
  (f g h : UserBriefing.t -> UserBriefing.t) :
  (forall ub, UserBriefing.id (f ub) = UserBriefing.id ub) ->
  (forall ub,
      (if Z.eqb (UserBriefing.id ub) j then g else fun x => x)
        ((if Z.eqb (UserBriefing.id ub) i then f else fun x => x) ub)
      = h ub) ->
  update_user_briefing (update_user_briefing db i f) j g
  = mkSession (papers db) (briefings db) (map h (user_briefings db)).
Proof.
  intros Hid Hh. unfold update_user_briefing. simpl. f_equal.
  rewrite map_map. apply map_ext. intros ub. rewrite <- Hh.
  destruct (UserBriefing.id ub =? i) eqn:Hi.
  - rewrite Hid. destruct (UserBriefing.id ub =? j); reflexivity.
  - destruct (UserBriefing.id ub =? j); reflexivity.
Qed.

Lemma mark_with_commute (f g : UserBriefing.t -> UserBriefing.t)
  (db : Session) (i j : Z) :
  (forall ub, UserBriefing.id (f ub) = UserBriefing.id ub) ->
  (forall ub, UserBriefing.id (g ub) = UserBriefing.id ub) ->
  (forall ub, g (f ub) = f (g ub)) ->
  mark_with g (fst (mark_with f db i)) j
  = (fst (mark_with f (fst (mark_with g db j)) i), snd (mark_with g db j))
  /\ snd (mark_with f (fst (mark_with g db j)) i) = snd (mark_with f db i).
Proof.
  intros Hf Hg Hfg. unfold mark_with.
  pose proof (found_after_update db i j f Hf) as Hij.
  pose proof (found_after_update db j i g Hg) as Hji.
  destruct (find_user_briefing db i) as [a|] eqn:Hi;
    destruct (find_user_briefing db j) as [b|] eqn:Hj; cbn [fst snd].
  - destruct (find_user_briefing (update_user_briefing db i f) j) eqn:H1;
      [|discriminate (proj1 Hij eq_refl)].
    destruct (find_user_briefing (update_user_briefing db j g) i) eqn:H2;
      [|discriminate (proj1 Hji eq_refl)].
    cbn [fst snd]. split; [|reflexivity]. f_equal.
    set (h := fun ub =>
                (if Z.eqb (UserBriefing.id ub) j then g else fun x => x)
                  ((if Z.eqb (UserBriefing.id ub) i then f else fun x => x) ub)).
    rewrite (update_twice db i j f g h Hf) by reflexivity.
    rewrite (update_twice db j i g f h Hg); [reflexivity|].
    intros ub. unfold h.
    destruct (UserBriefing.id ub =? i), (UserBriefing.id ub =? j); auto.
  - destruct (find_user_briefing (update_user_briefing db i f) j) eqn:H1;
      [discriminate (proj2 Hij eq_refl)|].
    rewrite Hi. auto.
  - rewrite Hj.
    destruct (find_user_briefing (update_user_briefing db j g) i) eqn:H2;
      [discriminate (proj2 Hji eq_refl)|].
    auto.
  - rewrite Hi, Hj. auto.
Qed.

Lemma mark_with_twice (f g : UserBriefing.t -> UserBriefing.t)
  (db : Session) (i : Z) :
  (forall ub, UserBriefing.id (f ub) = UserBriefing.id ub) ->
  (forall ub, g (f ub) = g ub) ->
  mark_with g (fst (mark_with f db i)) i = mark_with g db i.
Proof.
  intros Hf Hgf. unfold mark_with.
  pose proof (found_after_update db i i f Hf) as Hii.
  destruct (find_user_briefing db i) as [a|] eqn:Hi; cbn [fst].
  - destruct (find_user_briefing (update_user_briefing db i f) i) eqn:H1;
      [|discriminate (proj1 Hii eq_refl)].
    f_equal. rewrite (update_twice db i i f g
                        (fun ub => if Z.eqb (UserBriefing.id ub) i
                                   then g ub else ub) Hf).
    + reflexivity.
    + intros ub. destruct (UserBriefing.id ub =? i); auto.
  - rewrite Hi. reflexivity.
Qed.

(** X13.  The three flags are independent and the transitions repeat
    safely.  [markInterested] twice is [markInterested] once;
    [markSent] twice is [markSent] at the later time; and calls of two
    different kinds, on the same or on different identifiers, leave the
    same store in either order, each answering what it would have
    answered alone. *)
Theorem state_transitions_compose :
  forall (db : Session) (t1 t2 : datetime) (i j : Z),
    mark_user_briefing_interested (fst (mark_user_briefing_interested db i)) i
    = mark_user_briefing_interested db i
    /\ mark_user_briefing_sent (fst (mark_user_briefing_sent db t1 i)) t2 i
       = mark_user_briefing_sent db t2 i
    /\ mark_user_briefing_read (fst (mark_user_briefing_sent db t1 i)) t2 j
       = (fst (mark_user_briefing_sent (fst (mark_user_briefing_read db t2 j))
                 t1 i),
          snd (mark_user_briefing_read db t2 j))
    /\ mark_user_briefing_interested (fst (mark_user_briefing_sent db t1 i)) j
       = (fst (mark_user_briefing_sent
                 (fst (mark_user_briefing_interested db j)) t1 i),
          snd (mark_user_briefing_interested db j))
    /\ mark_user_briefing_interested (fst (mark_user_briefing_read db t1 i)) j
       = (fst (mark_user_briefing_read
                 (fst (mark_user_briefing_interested db j)) t1 i),
          snd (mark_user_briefing_interested db j)).
Proof.
  intros db t1 t2 i j.
  change (mark_user_briefing_interested) with (mark_with set_interested).
  change (mark_user_briefing_sent db t1) with (mark_with (set_sent t1) db).
  change (mark_user_briefing_sent db t2) with (mark_with (set_sent t2) db).
  change (mark_user_briefing_read db t2) with (mark_with (set_read t2) db).
  change (mark_user_briefing_read db t1) with (mark_with (set_read t1) db).
  change (mark_user_briefing_sent (fst (mark_with (set_sent t1) db i)) t2)
    with (mark_with (set_sent t2) (fst (mark_with (set_sent t1) db i))).
  change (mark_user_briefing_read (fst (mark_with (set_sent t1) db i)) t2)
    with (mark_with (set_read t2) (fst (mark_with (set_sent t1) db i))).
  change (mark_user_briefing_sent (fst (mark_with (set_read t2) db j)) t1)
    with (mark_with (set_sent t1) (fst (mark_with (set_read t2) db j))).
  change (mark_user_briefing_sent (fst (mark_with set_interested db j)) t1)
    with (mark_with (set_sent t1) (fst (mark_with set_interested db j))).
  change (mark_user_briefing_read (fst (mark_with set_interested db j)) t1)
    with (mark_with (set_read t1) (fst (mark_with set_interested db j))).
  split; [apply mark_with_twice; reflexivity|].
  split; [apply mark_with_twice; reflexivity|].
  split; [apply mark_with_commute; reflexivity|].
  split; apply mark_with_commute; reflexivity.
Qed.

(* ------------------------------------------------------------------ *)
(** ** The score of [check_interest] *)
(* ------------------------------------------------------------------ *)

Lemma filter_length_all {A : Type} (f : A -> bool) (l : list A) :
  List.length (filter f l) = List.length l
  <-> forall x, In x l -> f x = true.
Proof.
  induction l as [|a l IH]; simpl.
  - split; [intros _ x [] | reflexivity].
  - pose proof (filter_length_le f l) as Hle.
    destruct (f a) eqn:Ha; simpl.
    + split.
      * intros H x [<- | Hx]; [exact Ha|]. apply IH; [lia | exact Hx].
      * intros H. f_equal. apply IH. intros x Hx. apply H. auto.
    + split; [intros H; lia|].
      intros H. specialize (H a (or_introl eq_refl)). congruence.
Qed.

Lemma count_matches_filter (lower : str -> str) (text : str)
  (user_interests : list str) :
  count_matches lower text user_interests
  = List.length
      (filter (fun interest => contains (lower interest) text) user_interests).
Proof. unfold count_matches. rewrite count_matches_from. reflexivity. Qed.

(** X14.  The score of [check_interest] is the share of the interests
    that occur in the text: it lies between 0 and 1, the paper is of
    interest exactly when the score is positive, and the score is 1
    exactly when every interest occurs (with no interest at all the
    score is 1 and the paper is of interest). *)
Theorem check_interest_score :
  forall (lower : str -> str) (title abstract : str)
         (keywords user_interests : list str),
    let result :=
      check_interest lower title abstract keywords user_interests in
    (0 <= snd result)%Q
    /\ (snd result <= 1)%Q
    /\ (fst result = true <-> (0 < snd result)%Q)
    /\ ((snd result == 1)%Q
        <-> forall interest,
              In interest user_interests ->
              occurs_ignoring_case lower interest
                (searchable_text title abstract keywords)).
Proof.
  intros lower title abstract keywords user_interests result. subst result.
  destruct user_interests as [|k l].
  - simpl. split; [discriminate|]. split; [discriminate|].
    split; [split; reflexivity|]. split; [intros _ x [] | reflexivity].
  - unfold check_interest. cbn [fst snd].
    fold (searchable_text title abstract keywords).
    set (text := lower (searchable_text title abstract keywords)).
    set (interests := k :: l).
    rewrite count_matches_filter.
    set (matched := filter (fun interest => contains (lower interest) text)
                      interests).
    pose proof (filter_length_le (fun interest => contains (lower interest) text)
                  interests) as Hle.
    fold matched in Hle.
    assert (Hn : Z.pos (Pos.of_nat (List.length interests))
                 = Z.of_nat (List.length interests)).
    { unfold interests. cbn [List.length].
      rewrite <- Pos.of_nat_succ, Zpos_P_of_succ_nat. lia. }
    split; [unfold Qle; simpl; lia|].
    split; [unfold Qle; cbn [Qnum Qden]; rewrite Hn; lia|].
    split; [|split].
    + rewrite orb_true_iff, Nat.ltb_lt. unfold Qlt. cbn [Qnum Qden]. split.
      * intros [H | H]; [apply score_threshold_needs_match in H|]; lia.
      * intros H. right. lia.
    + unfold Qeq. cbn [Qnum Qden]. rewrite Hn. intros H.
      assert (Hall : List.length matched = List.length interests) by lia.
      pose proof (proj1 (filter_length_all _ _) Hall) as Hevery.
      intros interest Hin. apply contains_spec. apply Hevery. exact Hin.
    + intros H. unfold Qeq. cbn [Qnum Qden]. rewrite Hn.
      assert (Hall : List.length matched = List.length interests).
      { apply (proj2 (filter_length_all _ _)). intros x Hx.
        apply contains_spec.
        apply H. exact Hx. }
      lia.
Qed.

(* ------------------------------------------------------------------ *)
(** ** User settings *)
(* ------------------------------------------------------------------ *)

(** X15.  The settings the service layer stores stay in range.  A user
    created by [get_or_create_user] and updated any number of times by
    [update_user_settings], with any requested values, has a
    [daily_paper_limit] between 1 and 50 and a [crawl_history_days]
    between 1 and 30, and keeps its key, its Telegram identifier and its
    research fields; a request inside the range is stored as it is. *)
Theorem stored_settings_in_range :
  forall (new_id : Z) (telegram_id : str)
         (updates : list (option Z * option bool * option Z))
         (user : User.t) (limit days : Z),
    let stored :=
      fold_left
        (fun u '(limit, active, days) =>
           update_user_settings u limit active days)
        updates (new_user new_id telegram_id) in
    1 <= User.daily_paper_limit stored <= 50
    /\ 1 <= User.crawl_history_days stored <= 30
    /\ User.id stored = new_id
    /\ User.telegram_id stored = telegram_id
    /\ User.research_fields stored = []
    /\ (1 <= limit <= 50 ->
        User.daily_paper_limit
          (update_user_settings user (Some limit) None None) = limit)
    /\ (1 <= days <= 30 ->
        User.crawl_history_days
          (update_user_settings user None None (Some days)) = days).
Proof.
  intros new_id telegram_id updates user limit days stored. subst stored.
  assert (H : forall u,
             1 <= User.daily_paper_limit u <= 50 ->
             1 <= User.crawl_history_days u <= 30 ->
             let stored :=
               fold_left
                 (fun u '(limit, active, days) =>
                    update_user_settings u limit active days) updates u in
             1 <= User.daily_paper_limit stored <= 50
             /\ 1 <= User.crawl_history_days stored <= 30
             /\ User.id stored = User.id u
             /\ User.telegram_id stored = User.telegram_id u
             /\ User.research_fields stored = User.research_fields u).
  { induction updates as [|[[l a] d] updates IH]; intros u Hl Hd; cbv zeta.
    - simpl. auto.
    - cbn [fold_left]. specialize (IH (update_user_settings u l a d)).
      cbv zeta in IH. apply IH; destruct l, d; simpl; lia. }
  specialize (H (new_user new_id telegram_id)). cbv zeta in H.
  destruct H as [H1 [H2 [H3 [H4 H5]]]]; [simpl; lia | simpl; lia |].
  split; [exact H1|]. split; [exact H2|]. split; [exact H3|].
  split; [exact H4|]. split; [exact H5|].
  split; intros Hr; simpl; lia.
Qed.

(* ------------------------------------------------------------------ *)
(** ** The send stage *)
(* ------------------------------------------------------------------ *)

Lemma NoDup_map_same {A B : Type} (f : A -> B) (l : list A) (x y : A) :
  NoDup (map f l) -> In x l -> In y l -> f x = f y -> x = y.
Proof.
  induction l as [|a l IH]; simpl; intros Hnd Hx Hy Hxy; [contradiction|].
  inversion Hnd as [|? ? Hn Hl]; subst.
  destruct Hx as [-> | Hx], Hy as [-> | Hy]; auto.
  - exfalso. apply Hn. rewrite Hxy. apply in_map. exact Hy.
  - exfalso. apply Hn. rewrite <- Hxy. apply in_map. exact Hx.
Qed.

(** Whatever [add_user_briefings] commits is appended, unsent and the
    user's. *)
Lemma add_user_briefings_some (now : datetime) (user : User.t)
  (selected : list Briefing.t) :
  forall db db' rows,
    add_user_briefings db now user selected = Some (db', rows) ->
    user_briefings db' = user_briefings db ++ rows
    /\ papers db' = papers db
    /\ briefings db' = briefings db
    /\ Forall (fun ub => UserBriefing.is_sent ub = false
                         /\ UserBriefing.user_id ub = User.id user) rows
    /\ (user_briefing_keys_unique db -> user_briefing_keys_unique db').
Proof.
  induction selected as [|b rest IH]; intros db db' rows H.
  - simpl in H. injection H as <- <-. rewrite app_nil_r. auto.
  - cbn [add_user_briefings] in H.
    destruct (insert_user_briefing db _) as [db1|] eqn:Hi; [|discriminate].
    destruct (add_user_briefings db1 now user rest) as [[db2 rows2]|] eqn:Hr;
      [|discriminate].
    injection H as <- <-.
    destruct (insert_user_briefing_keeps _ _ _ Hi) as [Hubs [Hid _]].
    destruct (IH db1 db2 rows2 Hr) as [H1 [H2 [H3 [H4 H5]]]].
    assert (Hpb : papers db1 = papers db /\ briefings db1 = briefings db).
    { unfold insert_user_briefing in Hi.
      destruct (existsb _ (user_briefings db)); [discriminate|].
      injection Hi as <-. auto. }
    destruct Hpb as [Hp Hb].
    split; [rewrite H1, Hubs, <- app_assoc; reflexivity|].
    split; [congruence|]. split; [congruence|].
    split; [constructor; [simpl; auto | exact H4]|].
    intros Hk. apply H5. unfold user_briefing_keys_unique.
    rewrite Hubs, map_app. simpl. apply NoDup_snoc; assumption.
Qed.

Lemma create_user_briefings_appends (E : SqlEngine) (db : Session)
  (now : datetime) (user : User.t) :
  exists rows,
    user_briefings (fst (create_user_briefings E db now user))
    = user_briefings db ++ rows
    /\ papers (fst (create_user_briefings E db now user)) = papers db
    /\ briefings (fst (create_user_briefings E db now user)) = briefings db
    /\ Forall (fun ub => UserBriefing.is_sent ub = false
                         /\ UserBriefing.user_id ub = User.id user) rows
    /\ (user_briefing_keys_unique db ->
        user_briefing_keys_unique (fst (create_user_briefings E db now user))).
Proof.
  unfold create_user_briefings.
  destruct (add_user_briefings db now user _) as [[db' rows]|] eqn:Hadd.
  - exists rows. exact (add_user_briefings_some _ _ _ _ _ _ Hadd).
  - exists []. rewrite app_nil_r. simpl. auto.
Qed.

Lemma others_after_update (user : User.t) (db : Session) (i : Z)
  (change : UserBriefing.t -> UserBriefing.t) :
  (forall ub, UserBriefing.user_id (change ub) = UserBriefing.user_id ub) ->
  (forall x, In x (user_briefings db) -> UserBriefing.id x = i ->
             UserBriefing.user_id x = User.id user) ->
  rows_of_others user (update_user_briefing db i change)
  = rows_of_others user db.
Proof.
  intros Hc Hrow. unfold rows_of_others. simpl.
  induction (user_briefings db) as [|x l IH]; simpl; [reflexivity|].
  rewrite IH by (intros y Hy; apply Hrow; right; exact Hy).
  destruct (UserBriefing.id x =? i) eqn:Hxi; [|reflexivity].
  apply Z.eqb_eq in Hxi.
  rewrite Hc, (Hrow x (or_introl eq_refl) Hxi), Z.eqb_refl. reflexivity.
Qed.

(** One [markSent] in a table with its keys. *)
Lemma mark_sent_step (db : Session) (now : datetime) (i : Z) :
  user_briefing_keys_unique db ->
  let db' := fst (mark_user_briefing_sent db now i) in
  papers db' = papers db
  /\ briefings db' = briefings db
  /\ map (fun x => (UserBriefing.id x, UserBriefing.user_id x))
       (user_briefings db')
     = map (fun x => (UserBriefing.id x, UserBriefing.user_id x))
         (user_briefings db)
  /\ (sent_count db <= sent_count db' <= sent_count db + 1)%nat
  /\ forall user,
       (forall x, In x (user_briefings db) -> UserBriefing.id x = i ->
                  UserBriefing.user_id x = User.id user) ->
       rows_of_others user db' = rows_of_others user db.
Proof.
  intros Hkeys db'. subst db'. unfold mark_user_briefing_sent.
  destruct (find_user_briefing db i) as [ub|] eqn:Hf; cbn [fst];
    [|repeat split; auto; lia].
  split; [reflexivity|]. split; [reflexivity|].
  split; [apply update_keeps_view; reflexivity|]. split.
  - destruct (row_of_key _ i ub Hkeys Hf) as [l1 [l2 [Hubs [_ Hmap]]]].
    unfold sent_count. simpl. rewrite (Hmap (set_sent now)), Hubs.
    rewrite !filter_app, !length_app. simpl.
    destruct (UserBriefing.is_sent ub); simpl; lia.
  - intros user Hrow. apply others_after_update; [reflexivity | exact Hrow].
Qed.

Lemma send_loop_spec (run : SendRun) (k : nat) (user : User.t)
  (to_send : list UserBriefing.t) :
  forall db i,
    user_briefing_keys_unique db ->
    (forall r x, In r to_send -> In x (user_briefings db) ->
                 UserBriefing.id x = UserBriefing.id r ->
                 UserBriefing.user_id x = User.id user) ->
    let db' := send_loop db run k i to_send in
    papers db' = papers db
    /\ briefings db' = briefings db
    /\ map UserBriefing.id (user_briefings db')
       = map UserBriefing.id (user_briefings db)
    /\ (sent_count db <= sent_count db'
        <= sent_count db + List.length to_send)%nat
    /\ rows_of_others user db' = rows_of_others user db
    /\ ((forall n, send_ok run k n = false) -> db' = db).
Proof.
  induction to_send as [|r rest IH]; intros db i Hkeys Hrows; cbv zeta.
  - simpl. repeat split; auto; lia.
  - cbn [send_loop].
    set (db1 := if send_ok run k i
                then fst (mark_user_briefing_sent db (sent_time run k i)
                            (UserBriefing.id r))
                else db).
    assert (H1 : papers db1 = papers db
                 /\ briefings db1 = briefings db
                 /\ map (fun x => (UserBriefing.id x, UserBriefing.user_id x))
                      (user_briefings db1)
                    = map (fun x => (UserBriefing.id x, UserBriefing.user_id x))
                        (user_briefings db)
                 /\ (sent_count db <= sent_count db1 <= sent_count db + 1)%nat
                 /\ rows_of_others user db1 = rows_of_others user db
                 /\ (send_ok run k i = false -> db1 = db)).
    { unfold db1. destruct (send_ok run k i).
      - destruct (mark_sent_step db (sent_time run k i) (UserBriefing.id r)
                    Hkeys) as [Ha [Hb [Hc [Hd He]]]].
        repeat split; auto; try lia; try discriminate.
        apply He. intros x Hx Hid. apply (Hrows r x); auto. left. reflexivity.
      - repeat split; auto; lia. }
    destruct H1 as [Hp [Hb [Hv [Hc [Ho Hfail]]]]].
    assert (Hids : map UserBriefing.id (user_briefings db1)
                   = map UserBriefing.id (user_briefings db)).
    { apply (f_equal (map fst)) in Hv. rewrite !map_map in Hv. exact Hv. }
    assert (Hkeys1 : user_briefing_keys_unique db1).
    { unfold user_briefing_keys_unique. rewrite Hids. exact Hkeys. }
    assert (Hrows1 : forall r0 x, In r0 rest -> In x (user_briefings db1) ->
                                  UserBriefing.id x = UserBriefing.id r0 ->
                                  UserBriefing.user_id x = User.id user).
    { intros r0 x Hr0 Hx Hid.
      apply (in_map (fun x => (UserBriefing.id x, UserBriefing.user_id x)))
        in Hx.
      rewrite Hv in Hx. apply in_map_iff in Hx as [y [Hy Hin]].
      injection Hy as Hy1 Hy2. rewrite <- Hy2.
      apply (Hrows r0 y); [right; exact Hr0 | exact Hin | congruence]. }
    destruct (IH db1 (S i) Hkeys1 Hrows1) as [Ip [Ib [Ii [Ic [Io If]]]]].
    split; [congruence|]. split; [congruence|]. split; [congruence|].
    split; [simpl; lia|]. split; [congruence|].
    intros Hno. rewrite (If Hno). apply Hfail. apply Hno.
Qed.

Lemma py_slice_to_bound {A : Type} (n : Z) (l : list A) :
  0 <= n ->
  (List.length (py_slice_to n l) <= Z.to_nat n)%nat
  /\ forall x, In x (py_slice_to n l) -> In x l.
Proof.
  intros Hn. unfold py_slice_to.
  destruct (n <? 0) eqn:Hneg; [apply Z.ltb_lt in Hneg; lia|].
  split; [apply firstn_le_length | apply firstn_In].
Qed.

(** One user's turn in [send_daily_briefings]. *)
Lemma send_to_user_spec :
  forall (E : SqlEngine) (db : Session) (run : SendRun) (k : nat)
         (user : User.t),
    order_by_contract E ->
    user_briefing_keys_unique db ->
    0 <= User.daily_paper_limit user ->
    let db' := send_to_user E db run k user in
    papers db' = papers db
    /\ briefings db' = briefings db
    /\ (sent_count db <= sent_count db'
        <= sent_count db + Z.to_nat (User.daily_paper_limit user))%nat
    /\ rows_of_others user db' = rows_of_others user db
    /\ (get_user_pending_briefings E db user None <> [] ->
        map UserBriefing.id (user_briefings db')
        = map UserBriefing.id (user_briefings db))
    /\ ((forall n, send_ok run k n = false) -> sent_count db' = sent_count db)
    /\ user_briefing_keys_unique db'.
Proof.
  intros E db run k user HE Hkeys Hlimit db'. subst db'.
  unfold send_to_user.
  set (pending0 := get_user_pending_briefings E db user None).
  set (db1 := match pending0 with
              | [] => fst (create_user_briefings E db (fanout_time run k) user)
              | _ :: _ => db
              end).
  set (pending := match pending0 with
                  | [] => get_user_pending_briefings E db1 user None
                  | _ :: _ => pending0
                  end).
  assert (H1 : papers db1 = papers db
               /\ briefings db1 = briefings db
               /\ sent_count db1 = sent_count db
               /\ rows_of_others user db1 = rows_of_others user db
               /\ user_briefing_keys_unique db1
               /\ (pending0 <> [] -> db1 = db)).
  { unfold db1. destruct pending0; [|repeat split; auto].
    destruct (create_user_briefings_appends E db (fanout_time run k) user)
      as [rows [Hu [Hp [Hb [Hall Hk]]]]].
    split; [exact Hp|]. split; [exact Hb|].
    assert (Hrows : filter UserBriefing.is_sent rows = []
                    /\ filter (fun ub =>
                                 negb (Z.eqb (UserBriefing.user_id ub)
                                         (User.id user))) rows = []).
    { clear - Hall. induction Hall as [|ub l [Hs Hu] _ [IH1 IH2]]; simpl;
        [auto|].
      rewrite Hs, Hu, Z.eqb_refl. simpl. auto. }
    destruct Hrows as [Hr1 Hr2].
    split; [unfold sent_count; rewrite Hu, filter_app, Hr1, app_nil_r;
            reflexivity|].
    split; [unfold rows_of_others; rewrite Hu, filter_app, Hr2, app_nil_r;
            reflexivity|].
    split; [apply Hk; exact Hkeys|]. intros H. contradiction. }
  destruct H1 as [Hp [Hb [Hc [Ho [Hkeys1 Hsame]]]]].
  assert (Hpend : forall r, In r pending ->
                            In r (user_briefings db1)
                            /\ UserBriefing.user_id r = User.id user).
  { intros r Hr.
    assert (Hr' : In r (get_user_pending_briefings E db1 user None)).
    { unfold pending in Hr. destruct pending0 eqn:Hp0; [exact Hr|].
      rewrite (Hsame ltac:(discriminate)). unfold pending0 in Hp0.
      rewrite Hp0. exact Hr. }
    apply (Permutation_in _ (pending_perm E db1 user HE)) in Hr'.
    apply filter_In in Hr' as [Hin Hpred]. split; [exact Hin|].
    unfold is_pending_of in Hpred. apply andb_true_iff in Hpred as [Hu _].
    apply Z.eqb_eq. exact Hu. }
  destruct pending as [|p0 prest] eqn:Hpending.
  - split; [exact Hp|]. split; [exact Hb|]. split; [lia|].
    split; [exact Ho|]. split; [|split; [intros _; exact Hc | exact Hkeys1]].
    intros Hne. rewrite (Hsame Hne). reflexivity.
  - set (limit := Z.min (User.daily_paper_limit user)
                    (Z.of_nat (List.length (p0 :: prest)))).
    assert (Hl0 : 0 <= limit) by (unfold limit; lia).
    destruct (py_slice_to_bound limit (p0 :: prest) Hl0) as [Hlen Hin].
    destruct (send_loop_spec run k user (py_slice_to limit (p0 :: prest))
                db1 0 Hkeys1) as [Sp [Sb [Si [Sc [So Sf]]]]].
    { intros r x Hr Hx Hid. apply Hin in Hr. apply Hpend in Hr as [Hr Hu].
      rewrite (NoDup_map_same UserBriefing.id _ x r Hkeys1 Hx Hr Hid).
      exact Hu. }
    split; [congruence|]. split; [congruence|].
    assert (Hcap : (Z.to_nat limit
                    <= Z.to_nat (User.daily_paper_limit user))%nat)
      by (unfold limit; lia).
    split; [lia|]. split; [congruence|]. split; [|split].
    + intros Hne. rewrite Si, (Hsame Hne). reflexivity.
    + intros Hno. rewrite (Sf Hno). exact Hc.
    + unfold user_briefing_keys_unique. rewrite Si. exact Hkeys1.
Qed.


(** X16.  One user's turn in the send stage, in a table with its keys
    and for a [daily_paper_limit] that is not negative.  The turn marks at
    most [daily_paper_limit] more rows as sent and unmarks none; it
    leaves the rows of every other user, the papers and the briefings as
    they are; it runs the fanout only when the user's queue is empty
    (with a row pending, no row is added); and rows whose delivery raised
    are not marked: when every delivery raises, no row is marked. *)
Theorem send_turn_is_capped :
  forall (E : SqlEngine) (db : Session) (run : SendRun) (k : nat)
         (user : User.t),
    order_by_contract E ->
    user_briefing_keys_unique db ->
    0 <= User.daily_paper_limit user ->
    let db' := send_to_user E db run k user in
    papers db' = papers db
    /\ briefings db' = briefings db
    /\ (sent_count db <= sent_count db'
        <= sent_count db + Z.to_nat (User.daily_paper_limit user))%nat
    /\ rows_of_others user db' = rows_of_others user db
    /\ (get_user_pending_briefings E db user None <> [] ->
        map UserBriefing.id (user_briefings db')
        = map UserBriefing.id (user_briefings db))
    /\ ((forall n, send_ok run k n = false) -> sent_count db' = sent_count db).
Proof.
  intros E db run k user HE Hkeys Hlimit.
  destruct (send_to_user_spec E db run k user HE Hkeys Hlimit)
    as [H1 [H2 [H3 [H4 [H5 [H6 _]]]]]].
  cbv zeta. split; [exact H1|]. split; [exact H2|]. split; [exact H3|].
  split; [exact H4|]. split; [exact H5 | exact H6].
Qed.

Lemma send_turn_is_capped_witness :
  let row i := UserBriefing.mk i 1 (10 + i) false None false None false 7 in
  let db := mkSession [] [] [row 1; row 2; row 3] in
  let user := User.mk 1 (lit "42") 2 true 7 [] in
  let run := mkSendRun (fun _ => 9) (fun _ _ => true) (fun _ i => 20 + Z.of_nat i) in
  let db' := send_to_user sqlite_stable db run 0 user in
  map UserBriefing.is_sent (user_briefings db') = [true; true; false]
  /\ (sent_count db <= sent_count db' <= sent_count db + 2)%nat.
Proof.
  cbv zeta. split; [vm_compute; reflexivity|].
  pose proof
    (send_turn_is_capped sqlite_stable
       (mkSession [] []
          (map (fun i => UserBriefing.mk i 1 (10 + i) false None false None
                           false 7) [1; 2; 3]))
       (mkSendRun (fun _ => 9) (fun _ _ => true) (fun _ i => 20 + Z.of_nat i))
       0%nat (User.mk 1 (lit "42") 2 true 7 []) order_stable_contract) as H.
  cbv zeta in H. destruct H as [_ [_ [H3 _]]].
  - vm_compute. repeat (constructor; [simpl; intuition discriminate|]).
    constructor.
  - vm_compute. discriminate.
  - exact H3.
Defined.

Lemma rows_of_user_others (v : Z) (user : User.t) (db : Session) :
  User.id user <> v ->
  rows_of_user v db
  = filter (fun ub => Z.eqb (UserBriefing.user_id ub) v)
      (rows_of_others user db).
Proof.
  intros Hne. unfold rows_of_user, rows_of_others.
  induction (user_briefings db) as [|x l IH]; simpl; [reflexivity|].
  destruct (UserBriefing.user_id x =? v) eqn:Hv.
  - apply Z.eqb_eq in Hv.
    assert (Hx : (UserBriefing.user_id x =? User.id user) = false)
      by (apply Z.eqb_neq; congruence).
    rewrite Hx. simpl. rewrite (proj2 (Z.eqb_eq _ _) Hv), IH. reflexivity.
  - destruct (UserBriefing.user_id x =? User.id user); simpl;
      [|rewrite Hv]; exact IH.
Qed.

Lemma send_users_spec (E : SqlEngine) (run : SendRun) (users : list User.t) :
  order_by_contract E ->
  (forall u, In u users -> 0 <= User.daily_paper_limit u) ->
  forall db k,
    user_briefing_keys_unique db ->
    let db' := send_users E db run k users in
    papers db' = papers db
    /\ briefings db' = briefings db
    /\ (sent_count db <= sent_count db'
        <= sent_count db + delivery_budget users)%nat
    /\ (forall v, (forall u, In u users -> User.id u <> v) ->
                  rows_of_user v db' = rows_of_user v db)
    /\ user_briefing_keys_unique db'.
Proof.
  intros HE. induction users as [|u users IH]; intros Hlim db k Hkeys;
    cbv zeta.
  - simpl. unfold delivery_budget. simpl. repeat split; auto; lia.
  - cbn [send_users].
    destruct (send_to_user_spec E db run k u HE Hkeys
                (Hlim u (or_introl eq_refl)))
      as [H1 [H2 [H3 [H4 [_ [_ H7]]]]]].
    destruct (IH (fun x Hx => Hlim x (or_intror Hx))
                (send_to_user E db run k u) (S k) H7)
      as [I1 [I2 [I3 [I4 I5]]]].
    split; [congruence|]. split; [congruence|].
    split; [unfold delivery_budget in *; simpl; lia|].
    split; [|exact I5].
    intros v Hv. rewrite I4 by (intros x Hx; apply Hv; right; exact Hx).
    assert (Hu : User.id u <> v) by (apply Hv; left; reflexivity).
    rewrite (rows_of_user_others v u _ Hu), (rows_of_user_others v u db Hu).
    rewrite H4. reflexivity.
Qed.

(** X17.  The whole send stage, in a table with its keys and with
    limits that are not negative.  [send_daily_briefings] marks at most
    as many more rows as the limits of the active users add up to and
    unmarks none; it never touches the rows of a user who is not active,
    nor the papers or the briefings; and when the bot is not initialized
    it does nothing. *)
Theorem send_stage_is_capped :
  forall (E : SqlEngine) (initialized : bool) (db : Session) (run : SendRun)
         (all_users : list User.t),
    order_by_contract E ->
    user_briefing_keys_unique db ->
    (forall u, In u all_users -> User.is_active u = true ->
               0 <= User.daily_paper_limit u) ->
    let db' := send_daily_briefings E initialized db run all_users in
    papers db' = papers db
    /\ briefings db' = briefings db
    /\ (sent_count db <= sent_count db'
        <= sent_count db + delivery_budget (get_all_active_users all_users))%nat
    /\ (forall v,
           (forall u, In u all_users -> User.is_active u = true ->
                      User.id u <> v) ->
           rows_of_user v db' = rows_of_user v db)
    /\ (initialized = false -> db' = db).
Proof.
  intros E initialized db run all_users HE Hkeys Hlim db'. subst db'.
  unfold send_daily_briefings. destruct initialized.
  - assert (Hl : forall u, In u (get_all_active_users all_users) ->
                           0 <= User.daily_paper_limit u).
    { intros u Hu. unfold get_all_active_users in Hu.
      apply filter_In in Hu as [Hu Ha]. auto. }
    destruct (send_users_spec E run (get_all_active_users all_users) HE Hl
                db 0%nat Hkeys) as [H1 [H2 [H3 [H4 _]]]].
    split; [exact H1|]. split; [exact H2|]. split; [exact H3|].
    split; [|discriminate].
    intros v Hv. apply H4. intros u Hu. unfold get_all_active_users in Hu.
    apply filter_In in Hu as [Hu Ha]. auto.
  - repeat split; auto; lia.
Qed.

Lemma send_stage_is_capped_witness :
  let row i u := UserBriefing.mk i u (10 + i) false None false None false 7 in
  let db := mkSession [] [] [row 1 1; row 2 1; row 3 2; row 4 3] in
  let users :=
    [User.mk 1 (lit "11") 1 true 7 []; User.mk 2 (lit "22") 5 true 7 [];
     User.mk 3 (lit "33") 5 false 7 []] in
  let run := mkSendRun (fun _ => 9) (fun _ _ => true) (fun _ _ => 20) in
  let db' := send_daily_briefings sqlite_stable true db run users in
  map UserBriefing.is_sent (user_briefings db') = [true; false; true; false]
  /\ (sent_count db <= sent_count db' <= sent_count db + 6)%nat
  /\ rows_of_user 3 db' = rows_of_user 3 db.
Proof.
  cbv zeta. split; [vm_compute; reflexivity|].
  pose proof
    (send_stage_is_capped sqlite_stable true
       (mkSession [] []
          (map (fun '(i, u) => UserBriefing.mk i u (10 + i) false None false
                                 None false 7)
             [(1, 1); (2, 1); (3, 2); (4, 3)]))
       (mkSendRun (fun _ => 9) (fun _ _ => true) (fun _ _ => 20))
       [User.mk 1 (lit "11") 1 true 7 []; User.mk 2 (lit "22") 5 true 7 [];
        User.mk 3 (lit "33") 5 false 7 []] order_stable_contract) as H.
  cbv zeta in H. destruct H as [_ [_ [H3 [H4 _]]]].
  - vm_compute. repeat (constructor; [simpl; intuition discriminate|]).
    constructor.
  - intros u [<- | [<- | [<- | []]]] _; vm_compute; discriminate.
  - split; [exact H3|]. apply H4.
    intros u [<- | [<- | [<- | []]]] Ha; vm_compute; discriminate.
Defined.

(* ------------------------------------------------------------------ *)
(** ** Formatting what was assigned *)
(* ------------------------------------------------------------------ *)

Lemma find_key {A : Type} (key : A -> Z) (l : list A) (x : A) (k : Z) :
  NoDup (map key l) -> In x l -> key x = k ->
  find (fun y => Z.eqb (key y) k) l = Some x.
Proof.
  intros Hnd Hin Hk.
  destruct (find (fun y => key y =? k) l) as [y|] eqn:Hf.
  - apply find_some in Hf as [Hy Hyk]. apply Z.eqb_eq in Hyk.
    f_equal. apply (NoDup_map_same key l y x Hnd Hy Hin). congruence.
  - apply (find_none _ _ Hf) in Hin. rewrite Hk, Z.eqb_refl in Hin.
    discriminate Hin.
Qed.

Lemma join_paper_row (db : Session) (b : Briefing.t) (p : Paper.t) :
  In (b, p) (join_paper db) ->
  In b (briefings db) /\ In p (papers db)
  /\ Briefing.paper_id b = Paper.id p.
Proof.
  unfold join_paper. intros H. apply in_flat_map in H as [b0 [Hb0 H]].
  apply in_map_iff in H as [p0 [Heq Hp0]]. injection Heq as -> ->.
  apply filter_In in Hp0 as [Hp Hid]. apply Z.eqb_eq in Hid. auto.
Qed.

(** X18.  The rows that the fanout creates can be shown once they are
    read back, not before.  In a store with its keys: the instances that
    [create_user_briefings] itself returns, when the service owns its
    session, cannot be formatted ([user_briefing.briefing] raises
    [DetachedInstanceError]); but each created row is among the
    instances that [get_user_pending_briefings] returns afterwards, with
    the briefing it names and the paper of that briefing loaded, and
    these are a pair that was eligible for the user; the Telegram message
    of that instance holds the briefing's content and the paper's source
    URL (it is never the data-missing text); and with an injected
    session, left open, the returned instance gives the same message. *)
Theorem created_rows_format_once_read_back :
  forall (E : SqlEngine) (db : Session) (now : datetime) (user : User.t),
    order_by_contract E ->
    primary_keys_unique db ->
    user_briefing_keys_unique db ->
    let db' := fst (create_user_briefings E db now user) in
    let created := snd (create_user_briefings E db now user) in
    Forall (fun instance =>
              format_briefing_for_telegram db' instance
              = DetachedInstanceError)
      (created_instances true created)
    /\ forall ub,
         In ub created ->
         exists b p message,
           In (b, p) (eligible_briefings E db user)
           /\ In (Loaded ub (Some (b, Some p)))
                (pending_instances E db' user None)
           /\ format_briefing_for_telegram db' (Loaded ub (Some (b, Some p)))
              = Message message
           /\ contains (Briefing.content b) message = true
           /\ contains (Paper.source_url p) message = true
           /\ In (Expired (UserBriefing.id ub) true)
                (created_instances false created)
           /\ format_briefing_for_telegram db'
                (Expired (UserBriefing.id ub) true)
              = Message message.
Proof.
  intros E db now user HE Hkeys Hukeys db' created. subst db' created.
  destruct (create_user_briefings_appends E db now user)
    as [rows0 [_ [_ [_ [_ Huk']]]]].
  specialize (Huk' Hukeys). clear rows0.
  destruct (fanout_rows E db now user HE Hkeys) as [rows [Hc [Hids Hall]]].
  rewrite Hc in *. cbn [fst snd] in *.
  set (db' := mkSession (papers db) (briefings db)
                (user_briefings db ++ rows)) in *.
  split.
  { unfold created_instances. apply Forall_forall. intros x Hx.
    apply in_map_iff in Hx as [ub [<- _]]. reflexivity. }
  intros ub Hub.
  assert (Hrow : exists row, In row (fanout_selection E db user)
                             /\ Briefing.id (fst row)
                                = UserBriefing.briefing_id ub).
  { apply (in_map UserBriefing.briefing_id) in Hub. rewrite Hids in Hub.
    apply in_map_iff in Hub as [row [Hid Hrow]]. eauto. }
  destruct Hrow as [[b p] [Hsel Hid]]. cbn [fst] in Hid.
  apply (fanout_selection_in E db user _ HE) in Hsel.
  pose proof Hsel as Hel.
  unfold eligible_briefings in Hsel.
  apply filter_In in Hsel as [Hsel _]. apply filter_In in Hsel as [Hsel _].
  apply join_paper_row in Hsel as [Hb [Hp Hbp]].
  destruct Hkeys as [Hkp Hkb].
  assert (Hload : joinedload_briefing db' ub = Some (b, Some p)).
  { unfold joinedload_briefing, briefing_of, paper_of. cbn [briefings papers db'].
    rewrite (find_key Briefing.id (briefings db) b _ Hkb Hb Hid).
    rewrite (find_key Paper.id (papers db) p _ Hkp Hp (eq_sym Hbp)).
    reflexivity. }
  exists b, p, (format_message (Some (b, Some p))).
  split; [exact Hel|]. split; [|split; [reflexivity|]].
  { unfold pending_instances. rewrite <- Hload.
    apply (in_map (fun ub => Loaded ub (joinedload_briefing db' ub))).
    apply (Permutation_in _ (Permutation_sym (pending_perm E db' user HE))).
    apply filter_In. split; [apply in_or_app; right; exact Hub|].
    rewrite Forall_forall in Hall. destruct (Hall ub Hub) as [Hs [_ Hu]].
    unfold is_pending_of. rewrite Hs, Hu, Z.eqb_refl. reflexivity. }
  assert (Hmsg : forall h f1 f2 f3 : str,
             exists pre post pre' post',
               h ++ nl ++ nl ++ Briefing.content b
               ++ (if truthy_opt (Paper.pdf_url p)
                   then (nl ++ nl ++ f1 ++ Paper.source_url p ++ f2) ++ f3
                        ++ match Paper.pdf_url p with
                           | Some u => u
                           | None => []
                           end ++ f2
                   else nl ++ nl ++ f1 ++ Paper.source_url p ++ f2)
               = pre ++ Briefing.content b ++ post
               /\ h ++ nl ++ nl ++ Briefing.content b
                  ++ (if truthy_opt (Paper.pdf_url p)
                      then (nl ++ nl ++ f1 ++ Paper.source_url p ++ f2) ++ f3
                           ++ match Paper.pdf_url p with
                              | Some u => u
                              | None => []
                              end ++ f2
                      else nl ++ nl ++ f1 ++ Paper.source_url p ++ f2)
                  = pre' ++ Paper.source_url p ++ post').
  { intros h f1 f2 f3. exists (h ++ nl ++ nl).
    destruct (truthy_opt (Paper.pdf_url p)); eexists;
      exists (h ++ nl ++ nl ++ Briefing.content b ++ nl ++ nl ++ f1);
      eexists; split; rewrite <- !app_assoc; reflexivity. }
  split; [|split].
  - apply contains_spec. unfold format_message.
    destruct (Hmsg (lit "📚 *每日论文简报*") (lit "🔗 [查看原文](") (lit ")")
                (lit " | [PDF](")) as [pre [post [_ [_ [H _]]]]].
    exists pre, post. rewrite <- H. rewrite <- !app_assoc. reflexivity.
  - apply contains_spec. unfold format_message.
    destruct (Hmsg (lit "📚 *每日论文简报*") (lit "🔗 [查看原文](") (lit ")")
                (lit " | [PDF](")) as [_ [_ [pre [post [_ H]]]]].
    exists pre, post. rewrite <- H. rewrite <- !app_assoc. reflexivity.
  - split.
    + unfold created_instances.
      apply (in_map (fun ub => Expired (UserBriefing.id ub) (negb false))).
      exact Hub.
    + cbn [format_briefing_for_telegram].
      assert (Hfind : find_user_briefing db' (UserBriefing.id ub) = Some ub).
      { unfold find_user_briefing. apply (find_key UserBriefing.id).
        - exact Huk'.
        - cbn [user_briefings db']. apply in_or_app. right. exact Hub.
        - reflexivity. }
      rewrite Hfind, Hload. reflexivity.
Qed.

Lemma created_rows_format_once_read_back_witness :
  let paper :=
    Paper.mk 1 (lit "2401.00001") (lit "arxiv") (lit "T") (lit "A") (lit "B")
      None (Some 1000) None (Some (lit "https://arxiv.org/pdf/2401.00001"))
      (lit "https://arxiv.org/abs/2401.00001") 5 5 in
  let db := mkSession [paper] [Briefing.mk 11 1 (lit "content") None 6] [] in
  let user := User.mk 1 (lit "42") 2 true 7 [] in
  let db' := fst (create_user_briefings sqlite_stable db 9 user) in
  let created := snd (create_user_briefings sqlite_stable db 9 user) in
  (created = [UserBriefing.mk 1 1 11 false None false None false 9]
   /\ map (format_briefing_for_telegram db')
        (pending_instances sqlite_stable db' user None)
      = [Message
           (lit "📚 *每日论文简报*" ++ nl ++ nl ++ lit "content" ++ nl ++ nl
            ++ lit "🔗 [查看原文](https://arxiv.org/abs/2401.00001)"
            ++ lit " | [PDF](https://arxiv.org/pdf/2401.00001)")])
  /\ Forall (fun instance =>
               format_briefing_for_telegram db' instance
               = DetachedInstanceError)
       (created_instances true created).
Proof.
  cbv zeta. split; [split; vm_compute; reflexivity|].
  refine (proj1
    (created_rows_format_once_read_back sqlite_stable
       (mkSession
          [Paper.mk 1 (lit "2401.00001") (lit "arxiv") (lit "T") (lit "A")
             (lit "B") None (Some 1000) None
             (Some (lit "https://arxiv.org/pdf/2401.00001"))
             (lit "https://arxiv.org/abs/2401.00001") 5 5]
          [Briefing.mk 11 1 (lit "content") None 6] [])
       9 (User.mk 1 (lit "42") 2 true 7 []) order_stable_contract _ _)).
  - split; vm_compute; (constructor; [intros [] | constructor]).
  - vm_compute. constructor.
Defined.

(* ------------------------------------------------------------------ *)
(** ** Primary keys through the pipeline *)
(* ------------------------------------------------------------------ *)

Lemma save_stream_keys (stream : list (datetime * PaperMetadata.t)) :
  forall db, primary_keys_unique db ->
             primary_keys_unique (fst (save_stream db stream)).
Proof.
  induction stream as [|[t m] stream IH]; intros db Hk; simpl; [exact Hk|].
  pose proof (save_paper_keys db t m Hk) as H1.
  destruct (_save_paper db t m) as [db1 saved]. simpl in H1.
  specialize (IH db1 H1). destruct (save_stream db1 stream). exact IH.
Qed.

Lemma briefings_loop_keys (settings : Settings) (llm : Collaborator)
  (clock : nat -> datetime) (l : list Paper.t) :
  forall db i, primary_keys_unique db ->
               primary_keys_unique
                 (fst (briefings_loop db clock i settings llm l)).
Proof.
  induction l as [|p l IH]; intros db i Hk; simpl; [exact Hk|].
  pose proof (generate_single_keys db (clock i) settings llm p Hk) as H1.
  destruct (_generate_single_briefing db (clock i) settings llm p)
    as [db1 r]. simpl in H1.
  specialize (IH db1 (S i) H1).
  destruct (briefings_loop db1 clock (S i) settings llm l). exact IH.
Qed.

Lemma run_marks_frame (calls : list mark_call) :
  forall db, papers (run_marks db calls) = papers db
             /\ briefings (run_marks db calls) = briefings db.
Proof.
  unfold run_marks.
  induction calls as [|call calls IH]; intros db; simpl; [auto|].
  destruct (IH (fst (run_mark db call))) as [-> ->].
  destruct call as [now i | now i | i]; simpl;
    [unfold mark_user_briefing_sent | unfold mark_user_briefing_read
    | unfold mark_user_briefing_interested];
    destruct (find_user_briefing db i); auto.
Qed.

(** X19.  The primary keys of [papers] and [briefings] stay unique
    through every stage: ingestion of any streams, generation for any
    papers and by the scheduled job, fanout for any user and any
    sequence of state transitions all leave a store with its primary
    keys; the empty store has them. *)
Theorem primary_keys_stay_unique :
  forall db : Session,
    primary_keys_unique db ->
    (forall crawlers cs now_arxiv now_openreview days categories venues,
        primary_keys_unique
          (fst (fetch_and_save_papers crawlers cs db now_arxiv now_openreview
                  days categories venues)))
    /\ (forall E now clock settings llm papers max_papers research_fields,
           primary_keys_unique
             (fst (generate_briefings E db now clock settings llm papers
                     max_papers research_fields)))
    /\ (forall E now clock settings llm all_users,
           primary_keys_unique
             (_generate_briefings_job E db now clock settings llm all_users))
    /\ (forall E now user,
           primary_keys_unique (fst (create_user_briefings E db now user)))
    /\ (forall calls, primary_keys_unique (run_marks db calls))
    /\ primary_keys_unique empty_session.
Proof.
  intros db Hk. split; [|split; [|split; [|split; [|split]]]].
  - intros. unfold fetch_and_save_papers, _fetch_arxiv_papers,
      _fetch_openreview_papers.
    pose proof (save_stream_keys
                  (yielded (arxiv_crawl crawlers cs now_arxiv days categories))
                  db Hk) as H1.
    destruct (save_stream db _) as [db1 n1]. cbn [fst] in H1.
    pose proof (save_stream_keys
                  (yielded (openreview_crawl crawlers cs now_openreview days
                              venues)) db1 H1) as H2.
    destruct (save_stream db1 _) as [db2 n2]. exact H2.
  - intros. unfold generate_briefings. apply briefings_loop_keys. exact Hk.
  - intros. unfold _generate_briefings_job.
    destruct (nodup field_eq_dec _); [exact Hk|].
    unfold generate_briefings. apply briefings_loop_keys. exact Hk.
  - intros.
    destruct (create_user_briefings_appends E db now user)
      as [rows [_ [Hp [Hb _]]]].
    unfold primary_keys_unique. rewrite Hp, Hb. exact Hk.
  - intros. destruct (run_marks_frame calls db) as [Hp Hb].
    unfold primary_keys_unique. rewrite Hp, Hb. exact Hk.
  - split; constructor.
Qed.

Lemma primary_keys_stay_unique_witness :
  let metadata :=
    PaperMetadata.mk (lit "2401.00001") (lit "arxiv") (lit "A Paper")
      (AuthorsList [lit "A. Author"]) (lit "An abstract.") (Some 1000) None
      None (lit "https://arxiv.org/abs/2401.00001") [] in
  let db := fst (_save_paper empty_session 5 metadata) in
  let settings := mkSettings None None 10 in
  let llm := mkCollaborator (fun _ => ApiRaises) (fun _ => ApiRaises) in
  primary_keys_unique
    (fst (generate_briefings sqlite_stable db 2000 (fun _ => 2000) settings llm
            None None [])).
Proof.
  cbv zeta.
  refine (proj1 (proj2
    (primary_keys_stay_unique
       (fst (_save_paper empty_session 5
               (PaperMetadata.mk (lit "2401.00001") (lit "arxiv")
                  (lit "A Paper") (AuthorsList [lit "A. Author"])
                  (lit "An abstract.") (Some 1000) None None
                  (lit "https://arxiv.org/abs/2401.00001") []))) _))
    sqlite_stable 2000 (fun _ => 2000) (mkSettings None None 10)
    (mkCollaborator (fun _ => ApiRaises) (fun _ => ApiRaises)) None None []).
  split; vm_compute; (constructor; [intros [] | constructor]) || constructor.
Defined.

(* ------------------------------------------------------------------ *)
(** ** Read queries *)
(* ------------------------------------------------------------------ *)

Lemma find_briefing_lacks (db : Session) (p : Paper.t) :
  find_briefing db p = None -> lacks_briefing db p = true.
Proof.
  unfold lacks_briefing, find_briefing. intros H.
  apply negb_true_iff. apply existsb_false_iff. intros b Hb.
  rewrite Z.eqb_sym. exact (find_none _ _ H b Hb).
Qed.

Lemma published_since_spec (since : datetime) (p : Paper.t) :
  published_since since p = true
  <-> exists d, Paper.publish_date p = Some d /\ since <= d.
Proof.
  unfold published_since. destruct (Paper.publish_date p) as [d|].
  - rewrite Z.leb_le. split.
    + intros H. exists d. split; [reflexivity | exact H].
    + intros [d' [Hd Hle]]. injection Hd as ->. exact Hle.
  - split; [discriminate|]. intros [d [Hd _]]. discriminate Hd.
Qed.

Lemma firstn_add_skipn {A : Type} (n m : nat) (l : list A) :
  firstn (n + m) l = firstn n l ++ firstn m (skipn n l).
Proof.
  revert l. induction n as [|n IH]; intros l; [reflexivity|].
  destruct l as [|a l]; simpl.
  - rewrite firstn_nil. reflexivity.
  - rewrite IH. reflexivity.
Qed.

(** X22.  The selection of [PaperService.get_papers_for_briefing].
    Without a limit it returns exactly the stored papers that have no
    briefing, are dated at or after [since] when one is given, and match
    the fields' keywords; a limited call returns a prefix of that list,
    in [publish_date] descending order, of at most [limit] papers; and a
    limit of 0 is no limit here. *)
Theorem papers_for_briefing_selection :
  forall (E : SqlEngine) (db : Session) (limit : option Z)
         (since : option datetime) (research_fields : list ResearchField.t),
    order_by_contract E ->
    let selected := get_papers_for_briefing E db limit since research_fields in
    let everything :=
      get_papers_for_briefing E db None since research_fields in
    (forall p,
        In p everything
        <-> In p (papers db)
            /\ find_briefing db p = None
            /\ (forall s, since = Some s ->
                          exists d, Paper.publish_date p = Some d /\ s <= d)
            /\ keyword_filter E (fields_keywords research_fields) p = true)
    /\ (exists cut, everything = selected ++ cut)
    /\ (limit = None \/ limit = Some 0 -> selected = everything)
    /\ (forall n, limit = Some n -> 0 < n ->
                  Z.of_nat (List.length selected) <= n)
    /\ StronglySorted
         (fun p q => desc_ok (Paper.publish_date p) (Paper.publish_date q))
         selected.
Proof.
  intros E db limit since research_fields HE selected everything.
  subst selected everything. unfold get_papers_for_briefing.
  rewrite anti_join.
  set (rows :=
         filter (keyword_filter E (fields_keywords research_fields))
           match since with
           | Some s => filter (published_since s)
                         (filter (lacks_briefing db) (papers db))
           | None => filter (lacks_briefing db) (papers db)
           end).
  destruct (HE Paper.t Paper.publish_date rows) as [Hperm Hsorted].
  set (ordered := order_by_desc E Paper.t Paper.publish_date rows) in *.
  split; [|split; [|split; [|split]]].
  - intros p. split.
    + intros Hp. apply (Permutation_in _ (Permutation_sym Hperm)) in Hp.
      unfold rows in Hp. apply filter_In in Hp as [Hp Hk].
      destruct since as [s|].
      * apply filter_In in Hp as [Hp Hs]. apply filter_In in Hp as [Hp Hl].
        split; [exact Hp|]. split; [apply lacks_briefing_find; exact Hl|].
        split; [|exact Hk].
        intros s' Hs'. injection Hs' as <-.
        apply published_since_spec. exact Hs.
      * apply filter_In in Hp as [Hp Hl].
        split; [exact Hp|]. split; [apply lacks_briefing_find; exact Hl|].
        split; [|exact Hk]. intros s' Hs'. discriminate Hs'.
    + intros [Hp [Hl [Hs Hk]]]. apply (Permutation_in _ Hperm).
      unfold rows. apply filter_In. split; [|exact Hk].
      apply find_briefing_lacks in Hl.
      destruct since as [s|].
      * apply filter_In. split.
        -- apply filter_In. split; assumption.
        -- apply published_since_spec. apply Hs. reflexivity.
      * apply filter_In. split; assumption.
  - destruct limit as [n|]; [|exists []; symmetry; apply app_nil_r].
    destruct (n =? 0); [exists []; symmetry; apply app_nil_r|].
    apply sql_limit_split.
  - intros [-> | ->]; reflexivity.
  - intros n -> Hn. replace (n =? 0) with false by (symmetry; apply Z.eqb_neq; lia).
    rewrite sql_limit_length by lia. lia.
  - destruct limit as [n|]; [|exact Hsorted].
    destruct (n =? 0); [exact Hsorted|].
    apply sql_limit_sorted. exact Hsorted.
Qed.

Lemma filter_key_find {A : Type} (key : A -> Z) (k : Z) (l : list A) :
  NoDup (map key l) ->
  filter (fun x => Z.eqb (key x) k) l
  = match find (fun x => Z.eqb (key x) k) l with
    | Some x => [x]
    | None => []
    end.
Proof.
  induction l as [|a l IH]; simpl; [reflexivity|].
  intros Hnd. inversion Hnd as [|? ? Hnot Hnd']; subst.
  destruct (Z.eqb (key a) k) eqn:Hak.
  - f_equal. apply Z.eqb_eq in Hak.
    destruct (filter (fun x => Z.eqb (key x) k) l) as [|b rest] eqn:Hf;
      [reflexivity|].
    exfalso. apply Hnot.
    assert (Hb : In b (filter (fun x => Z.eqb (key x) k) l))
      by (rewrite Hf; left; reflexivity).
    apply filter_In in Hb as [Hb Hk]. apply Z.eqb_eq in Hk.
    rewrite Hak, <- Hk. apply in_map. exact Hb.
  - apply IH. exact Hnd'.
Qed.

(** X23.  [get_papers_by_ids] agrees with [get_paper_by_id].  In a
    table with its keys, the papers returned for a list of identifiers
    are exactly those the single lookups find; unknown identifiers give
    nothing and repeated ones give the paper once, so the result has no
    more papers than the list has identifiers. *)
Theorem papers_by_ids_are_the_lookups :
  forall (db : Session) (paper_ids : list Z),
    NoDup (map Paper.id (papers db)) ->
    (forall p,
        In p (get_papers_by_ids db paper_ids)
        <-> exists i, In i paper_ids /\ get_paper_by_id db i = Some p)
    /\ (forall i,
           get_papers_by_ids db [i]
           = match get_paper_by_id db i with
             | Some p => [p]
             | None => []
             end)
    /\ NoDup (map Paper.id (get_papers_by_ids db paper_ids))
    /\ (List.length (get_papers_by_ids db paper_ids)
        <= List.length paper_ids)%nat.
Proof.
  intros db paper_ids Hnd. unfold get_papers_by_ids, get_paper_by_id.
  split; [|split; [|split]].
  - intros p. rewrite filter_In, existsb_exists. split.
    + intros [Hp [i [Hi Heq]]]. exists i. split; [exact Hi|].
      apply Z.eqb_eq in Heq. apply find_key; assumption.
    + intros [i [Hi Hf]]. apply find_some in Hf as [Hp Heq].
      split; [exact Hp|]. exists i. split; [exact Hi | exact Heq].
  - intros i. rewrite <- (filter_key_find Paper.id i (papers db) Hnd).
    apply filter_ext. intros p. simpl. apply orb_false_r.
  - apply NoDup_map_filter. exact Hnd.
  - rewrite <- (length_map Paper.id).
    apply NoDup_incl_length; [apply NoDup_map_filter; exact Hnd|].
    intros k Hk. apply in_map_iff in Hk as [p [<- Hp]].
    apply filter_In in Hp as [_ Hp]. apply existsb_exists in Hp as [i [Hi Heq]].
    apply Z.eqb_eq in Heq. rewrite Heq. exact Hi.
Qed.

Lemma sql_limit_unbounded {A : Type} (n : Z) (l : list A) :
  n < 0 \/ Z.of_nat (List.length l) <= n -> sql_limit n l = l.
Proof.
  intros [Hn | Hn]; [|apply sql_limit_all; exact Hn].
  unfold sql_limit. replace (n <? 0) with true; [reflexivity|].
  symmetry. apply Z.ltb_lt. exact Hn.
Qed.

(** X24.  [search_papers] and [get_recent_papers] are bounded, ordered
    selections.  Every paper found is stored and matches the query in
    its title, abstract or keywords; every recent paper is stored and
    dated not earlier than [days] days before the call (undated papers
    are never recent); both results are in [publish_date] descending
    order and hold at most [limit] papers; with a negative limit, or one
    that the table does not exceed, nothing that qualifies is left out.
    Every paper that [_get_pending_papers] selects is among the recent
    papers for [days = 7]. *)
Theorem search_and_recent_selections :
  forall (E : SqlEngine) (db : Session) (query : str) (now : datetime)
         (days limit : Z),
    order_by_contract E ->
    let found := search_papers E db query limit in
    let recent := get_recent_papers E db now days limit in
    (forall p, In p found ->
               In p (papers db) /\ keyword_condition E p query = true)
    /\ (forall p, In p recent ->
                  In p (papers db)
                  /\ exists d, Paper.publish_date p = Some d
                               /\ now - timedelta_days days <= d)
    /\ StronglySorted
         (fun p q => desc_ok (Paper.publish_date p) (Paper.publish_date q))
         found
    /\ StronglySorted not_newer recent
    /\ (0 <= limit ->
        Z.of_nat (List.length found) <= limit
        /\ Z.of_nat (List.length recent) <= limit)
    /\ (limit < 0 \/ Z.of_nat (List.length (papers db)) <= limit ->
        Permutation found
          (filter (fun p => keyword_condition E p query) (papers db))
        /\ Permutation recent
             (filter (published_since (now - timedelta_days days))
                (papers db)))
    /\ (forall (n : Z) (research_fields : list ResearchField.t) (p : Paper.t),
           In p (_get_pending_papers E db now n research_fields) ->
           In p (get_recent_papers E db now 7 (-1))).
Proof.
  intros E db query now days limit HE found recent. subst found recent.
  unfold search_papers, get_recent_papers.
  set (matching := filter (fun p => keyword_condition E p query) (papers db)).
  set (dated :=
         filter (published_since (now - timedelta_days days)) (papers db)).
  destruct (HE Paper.t Paper.publish_date matching) as [Hpm Hsm].
  destruct (HE Paper.t Paper.publish_date dated) as [Hpd Hsd].
  assert (Hdated : forall p,
             In p (order_by_desc E Paper.t Paper.publish_date dated) ->
             In p (papers db)
             /\ exists d, Paper.publish_date p = Some d
                          /\ now - timedelta_days days <= d).
  { intros p Hp. apply (Permutation_in _ (Permutation_sym Hpd)) in Hp.
    apply filter_In in Hp as [Hp Hs]. split; [exact Hp|].
    apply published_since_spec. exact Hs. }
  split; [|split; [|split; [|split; [|split; [|split]]]]].
  - intros p Hp. apply In_sql_limit in Hp.
    apply (Permutation_in _ (Permutation_sym Hpm)) in Hp.
    apply filter_In in Hp. exact Hp.
  - intros p Hp. apply Hdated. eapply In_sql_limit; exact Hp.
  - apply sql_limit_sorted. exact Hsm.
  - apply sql_limit_sorted.
    eapply StronglySorted_weaken; [|exact Hsd].
    intros p q Hp Hq Hok.
    destruct (Hdated p Hp) as [_ [dp [Hdp _]]].
    destruct (Hdated q Hq) as [_ [dq [Hdq _]]].
    exists dp, dq. cbv beta in Hok. rewrite Hdp, Hdq in Hok. simpl in Hok. auto.
  - intros Hl. rewrite !sql_limit_length by exact Hl. lia.
  - intros Hl.
    assert (Hlm : (List.length matching <= List.length (papers db))%nat)
      by apply filter_length_le.
    assert (Hld : (List.length dated <= List.length (papers db))%nat)
      by apply filter_length_le.
    rewrite !sql_limit_unbounded.
    + split; apply Permutation_sym; assumption.
    + destruct Hl as [Hl | Hl]; [left; exact Hl | right].
      rewrite <- (Permutation_length Hpd). lia.
    + destruct Hl as [Hl | Hl]; [left; exact Hl | right].
      rewrite <- (Permutation_length Hpm). lia.
  - intros n research_fields p Hp.
    rewrite get_pending_papers_eq in Hp. apply In_sql_limit in Hp.
    destruct (HE Paper.t Paper.publish_date
                (pending_candidates E db (now - timedelta_days 7)
                   research_fields)) as [Hpc _].
    apply (Permutation_in _ (Permutation_sym Hpc)) in Hp.
    unfold pending_candidates in Hp.
    apply filter_In in Hp as [Hp _]. apply filter_In in Hp as [Hp Hs].
    apply filter_In in Hp as [Hp _].
    rewrite sql_limit_unbounded by (left; lia).
    destruct (HE Paper.t Paper.publish_date
                (filter (published_since (now - timedelta_days 7))
                   (papers db))) as [Hpr _].
    apply (Permutation_in _ Hpr). apply filter_In. split; assumption.
Qed.

Lemma StronglySorted_skipn {A : Type} (R : A -> A -> Prop) (n : nat) :
  forall l : list A, StronglySorted R l -> StronglySorted R (skipn n l).
Proof.
  induction n as [|n IH]; intros l Hs; [exact Hs|].
  destruct l as [|a l]; [constructor|].
  simpl. apply IH. inversion Hs; assumption.
Qed.

(** X25.  The pages of [get_all_briefings] tile the ordered table: a
    page of [limit + limit'] rows at [offset] is the page of [limit] rows
    at [offset] followed by the page of [limit'] rows at
    [offset + limit].  A page holds at most [limit] stored briefings,
    newest first, and is empty past the end of the table;
    [get_pending_briefings] with a non-zero limit is the first page, and
    without a limit it returns the whole table. *)
Theorem briefing_pages_tile :
  forall (E : SqlEngine) (db : Session) (limit limit' offset : Z),
    order_by_contract E ->
    0 <= limit -> 0 <= limit' -> 0 <= offset ->
    get_all_briefings E db (limit + limit') offset
    = get_all_briefings E db limit offset
      ++ get_all_briefings E db limit' (offset + limit)
    /\ Z.of_nat (List.length (get_all_briefings E db limit offset)) <= limit
    /\ (forall b, In b (get_all_briefings E db limit offset) ->
                  In b (briefings db))
    /\ StronglySorted
         (fun a b => Briefing.created_at b <= Briefing.created_at a)
         (get_all_briefings E db limit offset)
    /\ (Z.of_nat (List.length (briefings db)) <= offset ->
        get_all_briefings E db limit offset = [])
    /\ (limit <> 0 ->
        get_pending_briefings E db (Some limit)
        = get_all_briefings E db limit 0)
    /\ Permutation (get_pending_briefings E db None) (briefings db).
Proof.
  intros E db limit limit' offset HE Hl Hl' Ho.
  unfold get_all_briefings, get_pending_briefings, sql_offset.
  destruct (HE Briefing.t (fun b => Some (Briefing.created_at b))
              (briefings db)) as [Hperm Hsorted].
  set (ordered :=
         order_by_desc E Briefing.t (fun b => Some (Briefing.created_at b))
           (briefings db)) in *.
  split; [|split; [|split; [|split; [|split; [|split]]]]].
  - unfold sql_limit.
    replace (limit + limit' <? 0) with false by (symmetry; apply Z.ltb_ge; lia).
    replace (limit <? 0) with false by (symmetry; apply Z.ltb_ge; lia).
    replace (limit' <? 0) with false by (symmetry; apply Z.ltb_ge; lia).
    rewrite !Z2Nat.inj_add by lia. rewrite firstn_add_skipn.
    rewrite skipn_skipn. rewrite (Nat.add_comm (Z.to_nat limit)). reflexivity.
  - rewrite sql_limit_length by exact Hl. lia.
  - intros b Hb. apply In_sql_limit in Hb.
    apply (Permutation_in _ (Permutation_sym Hperm)).
    rewrite <- (firstn_skipn (Z.to_nat offset) ordered).
    apply in_or_app. right. exact Hb.
  - apply sql_limit_sorted.
    assert (Hs : StronglySorted
                   (fun a b => Briefing.created_at b <= Briefing.created_at a)
                   ordered).
    { eapply StronglySorted_weaken; [|exact Hsorted].
      intros a b _ _ Hab. exact Hab. }
    apply StronglySorted_skipn. exact Hs.
  - intros Hlen. rewrite skipn_all2;
      [unfold sql_limit; destruct (limit <? 0);
       [reflexivity | apply firstn_nil]|].
    rewrite <- (Permutation_length Hperm). lia.
  - intros Hz. apply Z.eqb_neq in Hz. rewrite Hz. reflexivity.
  - apply Permutation_sym. exact Hperm.
Qed.

(* ------------------------------------------------------------------ *)
(** ** Fetching for one user *)
(* ------------------------------------------------------------------ *)

Lemma fetch_and_save_adds (crawlers : Crawlers) (cs : CrawlSettings)
  (db : Session) (now_arxiv now_openreview : datetime) (days : Z)
  (categories venues : option (list str)) :
  let result :=
    fetch_and_save_papers crawlers cs db now_arxiv now_openreview days
      categories venues in
  (exists added,
      papers (fst result) = papers db ++ added
      /\ incl (snd result) added
      /\ Forall (fun q => ~ In (Paper.external_id q)
                            (map Paper.external_id (papers db))) added)
  /\ briefings (fst result) = briefings db
  /\ user_briefings (fst result) = user_briefings db.
Proof.
  cbv zeta. unfold fetch_and_save_papers.
  set (arxiv := arxiv_crawl crawlers cs now_arxiv days categories).
  set (openreview := openreview_crawl crawlers cs now_openreview days venues).
  unfold _fetch_arxiv_papers, _fetch_openreview_papers.
  destruct (save_stream_delta (yielded arxiv) db)
    as [Hp1 [Hb1 [Hu1 [_ Hn1]]]].
  destruct (save_stream db (yielded arxiv)) as [db1 n1]. cbn [fst snd] in *.
  destruct (save_stream_delta (yielded openreview) db1)
    as [Hp2 [Hb2 [Hu2 [_ Hn2]]]].
  destruct (save_stream db1 (yielded openreview)) as [db2 n2].
  cbn [fst snd] in *.
  split; [|split; congruence].
  exists (n1 ++ n2). split; [rewrite Hp2, Hp1, app_assoc; reflexivity|]. split.
  - intros p Hp. apply in_app_or in Hp as [Hp | Hp]; apply in_or_app.
    + left. destruct (raised arxiv); [destruct Hp | exact Hp].
    + right. destruct (raised openreview); [destruct Hp | exact Hp].
  - apply Forall_app. split.
    + eapply Forall_impl; [|exact Hn1]. intros q [Hq _]. exact Hq.
    + eapply Forall_impl; [|exact Hn2]. intros q [Hq _] Hin. apply Hq.
      rewrite Hp1, map_app. apply in_or_app. left. exact Hin.
Qed.

(** X26.  [fetch_papers_for_user] only adds papers.  The [papers] table
    afterwards is the table before followed by new rows, none of which
    carries an [external_id] the store already held; every returned paper
    is one of these rows, and the other tables are untouched.  When no
    field has a category nothing is fetched; otherwise the call is
    [fetch_and_save_papers] for the categories of the fields, each once,
    and for the configured conferences. *)
Theorem fetch_for_user_only_adds :
  forall (crawlers : Crawlers) (cs : CrawlSettings) (db : Session)
         (now_arxiv now_openreview : datetime)
         (research_fields : list ResearchField.t) (days : Z),
    let result :=
      fetch_papers_for_user crawlers cs db now_arxiv now_openreview
        research_fields days in
    (exists added,
        papers (fst result) = papers db ++ added
        /\ incl (snd result) added
        /\ Forall (fun q => ~ In (Paper.external_id q)
                              (map Paper.external_id (papers db))) added)
    /\ briefings (fst result) = briefings db
    /\ user_briefings (fst result) = user_briefings db
    /\ ((forall f, In f research_fields -> get_arxiv_categories_list f = []) ->
        result = (db, []))
    /\ ((exists f, In f research_fields /\ get_arxiv_categories_list f <> []) ->
        exists categories,
          NoDup categories
          /\ (forall c, In c categories
                        <-> exists f, In f research_fields
                                      /\ In c (get_arxiv_categories_list f))
          /\ result
             = fetch_and_save_papers crawlers cs db now_arxiv now_openreview
                 days (Some categories) None).
Proof.
  intros crawlers cs db now_arxiv now_openreview research_fields days result.
  subst result. unfold fetch_papers_for_user.
  set (all := flat_map get_arxiv_categories_list research_fields).
  assert (Hin : forall c, In c (set_of all)
                          <-> exists f, In f research_fields
                                        /\ In c (get_arxiv_categories_list f)).
  { intros c. unfold set_of. rewrite nodup_In. unfold all.
    rewrite in_flat_map. reflexivity. }
  destruct (set_of all) as [|c0 rest] eqn:Hset.
  - cbn [fst snd]. split; [|split; [|split; [|split]]]; try reflexivity.
    + exists []. split; [symmetry; apply app_nil_r|].
      split; [intros p [] | constructor].
    + intros [f [Hf Hne]]. exfalso.
      destruct (get_arxiv_categories_list f) as [|c l] eqn:Hc;
        [apply Hne; reflexivity|].
      apply (proj2 (Hin c)). exists f. split; [exact Hf|].
      rewrite Hc. left. reflexivity.
  - destruct (fetch_and_save_adds crawlers cs db now_arxiv now_openreview days
                (Some (c0 :: rest)) None) as [Hadd [Hb Hu]].
    split; [exact Hadd|]. split; [exact Hb|]. split; [exact Hu|]. split.
    + intros Hnone. exfalso.
      destruct (proj1 (Hin c0) (or_introl eq_refl)) as [f [Hf Hc]].
      rewrite (Hnone f Hf) in Hc. destruct Hc.
    + intros _. exists (c0 :: rest). split; [|split; [exact Hin | reflexivity]].
      rewrite <- Hset. unfold set_of. apply NoDup_nodup.
Qed.

Lemma papers_for_briefing_selection_witness :
  let db :=
    mkSession
      (map (fun i => Paper.mk i (lit "x") (lit "arxiv") (lit "T") (lit "A")
                       (lit "B") None (Some (1000 + i)) None None (lit "u") 5 5)
         [1; 2; 3])
      [Briefing.mk 11 1 (lit "c") None 6] [] in
  map Paper.id (get_papers_for_briefing sqlite_stable db (Some 1) None [])
  = [3]
  /\ exists cut,
       get_papers_for_briefing sqlite_stable db None None []
       = get_papers_for_briefing sqlite_stable db (Some 1) None [] ++ cut.
Proof.
  cbv zeta. split; [vm_compute; reflexivity|].
  exact (proj1 (proj2
    (papers_for_briefing_selection sqlite_stable
       (mkSession
          (map (fun i => Paper.mk i (lit "x") (lit "arxiv") (lit "T") (lit "A")
                           (lit "B") None (Some (1000 + i)) None None (lit "u")
                           5 5) [1; 2; 3])
          [Briefing.mk 11 1 (lit "c") None 6] [])
       (Some 1) None [] order_stable_contract))).
Defined.

Lemma papers_by_ids_are_the_lookups_witness :
  let db :=
    mkSession
      (map (fun i => Paper.mk i (lit "x") (lit "arxiv") (lit "T") (lit "A")
                       (lit "B") None (Some (1000 + i)) None None (lit "u") 5 5)
         [1; 2; 3])
      [] [] in
  map Paper.id (get_papers_by_ids db [3; 7; 1; 3]) = [1; 3]
  /\ NoDup (map Paper.id (get_papers_by_ids db [3; 7; 1; 3])).
Proof.
  cbv zeta. split; [vm_compute; reflexivity|].
  refine (proj1 (proj2 (proj2
    (papers_by_ids_are_the_lookups
       (mkSession
          (map (fun i => Paper.mk i (lit "x") (lit "arxiv") (lit "T") (lit "A")
                           (lit "B") None (Some (1000 + i)) None None (lit "u")
                           5 5) [1; 2; 3])
          [] [])
       [3; 7; 1; 3] _)))).
  vm_compute. repeat (constructor; [simpl; intuition discriminate|]).
  constructor.
Defined.

Lemma search_and_recent_selections_witness :
  let db :=
    mkSession
      (map (fun i => Paper.mk i (lit "x") (lit "arxiv") (lit "T") (lit "A")
                       (lit "B") None (Some (1000 + i)) None None (lit "u") 5 5)
         [1; 2; 3])
      [] [] in
  map Paper.id (get_recent_papers sqlite_stable db 1002 0 2) = [3; 2]
  /\ StronglySorted not_newer (get_recent_papers sqlite_stable db 1002 0 2).
Proof.
  cbv zeta. split; [vm_compute; reflexivity|].
  exact (proj1 (proj2 (proj2 (proj2
    (search_and_recent_selections sqlite_stable
       (mkSession
          (map (fun i => Paper.mk i (lit "x") (lit "arxiv") (lit "T") (lit "A")
                           (lit "B") None (Some (1000 + i)) None None (lit "u")
                           5 5) [1; 2; 3])
          [] [])
       (lit "T") 1002 0 2 order_stable_contract))))).
Defined.

Lemma briefing_pages_tile_witness :
  let db :=
    mkSession []
      (map (fun i => Briefing.mk i i (lit "c") None (100 + i)) [1; 2; 3; 4; 5])
      [] in
  map Briefing.id (get_all_briefings sqlite_stable db 2 1) = [4; 3]
  /\ get_all_briefings sqlite_stable db (2 + 2) 1
     = get_all_briefings sqlite_stable db 2 1
       ++ get_all_briefings sqlite_stable db 2 (1 + 2).
Proof.
  cbv zeta. split; [vm_compute; reflexivity|].
  refine (proj1
    (briefing_pages_tile sqlite_stable
       (mkSession []
          (map (fun i => Briefing.mk i i (lit "c") None (100 + i))
             [1; 2; 3; 4; 5])
          [])
       2 2 1 order_stable_contract _ _ _)); lia.
Defined.

(* ------------------------------------------------------------------ *)
(** ** Field matching: [check_interest] and the filter of the fanout *)
(* ------------------------------------------------------------------ *)

(** [LIKE] on a pattern that starts with [%]: the rest of the pattern
    matches some suffix of the value. *)
Lemma like_percent (pattern v : str) :
  like (37%N :: pattern) v
  = like pattern v
    || match v with [] => false | _ :: v' => like (37%N :: pattern) v' end.
Proof. destruct v; reflexivity. Qed.

Lemma like_percent_spec (pattern : str) :
  forall v,
    like (37%N :: pattern) v = true
    <-> exists pre rest, v = pre ++ rest /\ like pattern rest = true.
Proof.
  induction v as [|a v IH]; rewrite like_percent.
  - rewrite orb_false_r. split.
    + intros H. exists [], []. split; [reflexivity | exact H].
    + intros [pre [rest [Hv H]]]. symmetry in Hv.
      apply app_eq_nil in Hv as [_ ->]. exact H.
  - rewrite orb_true_iff, IH. split.
    + intros [H | [pre [rest [-> H]]]].
      * exists [], (a :: v). split; [reflexivity | exact H].
      * exists (a :: pre), rest. split; [reflexivity | exact H].
    + intros [[|b pre] [rest [Hv H]]].
      * left. simpl in Hv. rewrite Hv. exact H.
      * right. injection Hv as _ ->. exists pre, rest. split; [reflexivity | exact H].
Qed.

Lemma like_percent_all (v : str) : like [37%N] v = true.
Proof.
  apply like_percent_spec. exists v, []. split; [symmetry; apply app_nil_r|].
  reflexivity.
Qed.

Lemma like_plain_cons (c : char) (pattern : str) (v : str) :
  c <> 37%N -> c <> 95%N ->
  like (c :: pattern) v
  = match v with
    | [] => false
    | a :: v' => char_eqb (ascii_lower c) (ascii_lower a) && like pattern v'
    end.
Proof.
  intros H37 H95. simpl.
  replace (char_eqb c 37%N) with false
    by (symmetry; apply N.eqb_neq; exact H37).
  replace (char_eqb c 95%N) with false
    by (symmetry; apply N.eqb_neq; exact H95).
  destruct v; reflexivity.
Qed.

Lemma like_plain_spec (keyword pattern : str) :
  ~ In 37%N keyword -> ~ In 95%N keyword ->
  forall v,
    like (keyword ++ pattern) v = true
    <-> exists m rest,
          v = m ++ rest
          /\ map ascii_lower m = map ascii_lower keyword
          /\ like pattern rest = true.
Proof.
  induction keyword as [|c keyword IH]; intros H37 H95 v.
  - simpl. split.
    + intros H. exists [], v. auto.
    + intros [m [rest [-> [Hm H]]]]. destruct m; [exact H | discriminate Hm].
  - cbn [app]. rewrite like_plain_cons
      by (intros ->;
          first [apply H37; left; reflexivity | apply H95; left; reflexivity]).
    assert (H37' : ~ In 37%N keyword) by (intros H; apply H37; right; exact H).
    assert (H95' : ~ In 95%N keyword) by (intros H; apply H95; right; exact H).
    destruct v as [|a v].
    + split; [discriminate|]. intros [m [rest [Hv [Hm _]]]].
      symmetry in Hv. apply app_eq_nil in Hv as [-> _]. discriminate Hm.
    + rewrite andb_true_iff, (IH H37' H95' v). unfold char_eqb.
      rewrite N.eqb_eq. split.
      * intros [Hc [m [rest [-> [Hm H]]]]].
        exists (a :: m), rest. simpl. rewrite Hm, Hc. auto.
      * intros [[|b m] [rest [Hv [Hm H]]]]; [discriminate Hm|].
        simpl in Hv, Hm. injection Hv as -> ->. injection Hm as Hc Hm.
        split; [symmetry; exact Hc|]. exists m, rest. auto.
Qed.

Lemma lit_percent : lit "%" = [37%N].
Proof. reflexivity. Qed.

(** With SQLite's [LIKE], a keyword that holds neither [%] nor [_]
    matches a column exactly when it occurs in that column, ASCII case
    ignored. *)
Lemma ilike_keyword_occurs (keyword column : str) :
  ~ In 37%N keyword -> ~ In 95%N keyword ->
  ilike sqlite_stable column (lit "%" ++ keyword ++ lit "%") = true
  <-> occurs_ignoring_case (map ascii_lower) keyword column.
Proof.
  intros H37 H95. rewrite lit_percent. cbn [ilike sqlite_stable app].
  rewrite like_percent_spec. unfold occurs_ignoring_case. split.
  - intros [pre [rest [-> H]]].
    apply (like_plain_spec keyword [37%N] H37 H95) in H
      as [m [post [-> [Hm _]]]].
    exists (map ascii_lower pre), (map ascii_lower post).
    rewrite !map_app, Hm. reflexivity.
  - intros [pre' [post' H]].
    apply map_eq_app in H as [pre [rest [-> [_ H]]]].
    apply map_eq_app in H as [m [post [-> [Hm _]]]].
    exists pre, (m ++ post). split; [reflexivity|].
    apply (like_plain_spec keyword [37%N] H37 H95).
    exists m, post. split; [reflexivity|]. split; [exact Hm|].
    apply like_percent_all.
Qed.

(** C6.  Field matching is disjunctive in both predicates of the code,
    and an empty keyword set filters nothing in both, but only one of
    them reads the concatenated text.
    - [check_interest] answers [True] with no interest configured, and
      otherwise exactly when some interest occurs, case ignored, in
      title, abstract and joined keywords put together.
    - The filter of [create_user_briefings] keeps a (briefing, paper)
      pair not yet assigned to the user exactly when the user's fields
      have no keyword, or some keyword matches [ILIKE '%keyword%'] on
      the title, on the abstract, or on the keywords column when it is
      not null: each column on its own.  Every row the fanout creates
      names the briefing of such a pair.
    - With SQLite's [LIKE], a keyword that holds neither [%] nor [_]
      matches a column exactly when it occurs inside that column, ASCII
      case ignored. *)
Theorem field_matching_is_disjunctive :
  forall (E : SqlEngine) (lower : str -> str) (title abstract : str)
         (keywords user_interests : list str) (db : Session) (user : User.t)
         (b : Briefing.t) (p : Paper.t),
    let field_keywords := fields_keywords (User.research_fields user) in
    let matches keyword column :=
      ilike E column (lit "%" ++ keyword ++ lit "%") = true in
    (user_interests = [] ->
     fst (check_interest lower title abstract keywords user_interests) = true)
    /\ (user_interests <> [] ->
        (fst (check_interest lower title abstract keywords user_interests)
         = true
         <-> exists interest,
               In interest user_interests
               /\ occurs_ignoring_case lower interest
                    (searchable_text title abstract keywords)))
    /\ (In (b, p) (eligible_briefings E db user)
        <-> In (b, p) (join_paper db)
            /\ ~ In (Briefing.id b) (existing_briefing_ids db user)
            /\ (field_keywords = []
                \/ exists keyword,
                     In keyword field_keywords
                     /\ (matches keyword (Paper.title p)
                         \/ matches keyword (Paper.abstract p)
                         \/ exists column,
                              Paper.keywords p = Some column
                              /\ matches keyword column)))
    /\ (forall (now : datetime) (ub : UserBriefing.t),
           order_by_contract E ->
           primary_keys_unique db ->
           In ub (snd (create_user_briefings E db now user)) ->
           exists b' p',
             In (b', p') (eligible_briefings E db user)
             /\ UserBriefing.briefing_id ub = Briefing.id b')
    /\ (forall keyword column : str,
           ~ In 37%N keyword -> ~ In 95%N keyword ->
           (ilike sqlite_stable column (lit "%" ++ keyword ++ lit "%") = true
            <-> occurs_ignoring_case (map ascii_lower) keyword column)).
Proof.
  intros E lower title abstract keywords user_interests db user b p
         field_keywords matches.
  destruct (check_interest_any_keyword lower title abstract keywords
              user_interests) as [Hempty Hsome].
  split; [exact Hempty|]. split; [exact Hsome|].
  split; [|split].
  - unfold eligible_briefings. fold field_keywords.
    rewrite !filter_In. cbn [fst snd].
    rewrite negb_true_iff, existsb_false_iff, keyword_filter_any.
    assert (Hcond : forall keyword,
               keyword_condition E p keyword = true
               <-> matches keyword (Paper.title p)
                   \/ matches keyword (Paper.abstract p)
                   \/ exists column,
                        Paper.keywords p = Some column
                        /\ matches keyword column).
    { intros keyword. unfold keyword_condition, column_ilike, matches.
      rewrite !orb_true_iff. destruct (Paper.keywords p) as [column|].
      - split.
        + intros [[H | H] | H]; auto. right. right. exists column. auto.
        + intros [H | [H | [c [Hc H]]]]; auto.
          injection Hc as <-. auto.
      - split.
        + intros [[H | H] | H]; auto. discriminate H.
        + intros [H | [H | [c [Hc H]]]]; auto. discriminate Hc. }
    split.
    + intros [[Hj Hnew] Hk]. split; [exact Hj|]. split.
      * intros Hin. specialize (Hnew _ Hin). rewrite Z.eqb_refl in Hnew.
        discriminate Hnew.
      * destruct Hk as [Hk | [keyword [Hin Hk]]]; [left; exact Hk|].
        right. exists keyword. split; [exact Hin|]. apply Hcond. exact Hk.
    + intros [Hj [Hnew Hk]]. split; [split; [exact Hj|]|].
      * intros i Hi. apply Z.eqb_neq. intros Heq. apply Hnew.
        rewrite Heq. exact Hi.
      * destruct Hk as [Hk | [keyword [Hin Hk]]]; [left; exact Hk|].
        right. exists keyword. split; [exact Hin|]. apply Hcond. exact Hk.
  - intros now ub HE Hkeys Hub.
    destruct (fanout_rows E db now user HE Hkeys) as [rows [Hc [Hids _]]].
    rewrite Hc in Hub. cbn [snd] in Hub.
    apply (in_map UserBriefing.briefing_id) in Hub. rewrite Hids in Hub.
    apply in_map_iff in Hub as [[b' p'] [Hid Hrow]]. cbn [fst] in Hid.
    exists b', p'. split; [|symmetry; exact Hid].
    apply fanout_selection_in; assumption.
  - intros keyword column. apply ilike_keyword_occurs.
Qed.

(** C6, counterexample.  The filter of [create_user_briefings] is not
    substring matching over the concatenation.  The keyword
    "deep learning" occurs in the concatenated text of a paper titled
    "Advances in deep" with the abstract "learning for vision.", and the
    fanout creates no row for it; the keyword "a_b" occurs nowhere in the
    text of a paper titled "axb", and the fanout creates a row for it,
    [_] being a wildcard of [LIKE]. *)
Lemma fanout_filter_tests_each_column :
  exists (split_over_columns wildcard : Paper.t),
    let store paper :=
      mkSession [paper] [Briefing.mk 11 1 (lit "content") None 6] [] in
    let user keywords :=
      User.mk 1 (lit "42") 10 true 7
        [ResearchField.mk 1 (lit "field") None (Some keywords)] in
    let text paper :=
      searchable_text (Paper.title paper) (Paper.abstract paper) [] in
    (Paper.title split_over_columns = lit "Advances in deep"
     /\ Paper.abstract split_over_columns = lit "learning for vision."
     /\ contains (map ascii_lower (lit "deep learning"))
          (map ascii_lower (text split_over_columns)) = true
     /\ snd (create_user_briefings sqlite_stable (store split_over_columns) 9
               (user (lit "deep learning"))) = [])
    /\ (Paper.title wildcard = lit "axb"
        /\ Paper.abstract wildcard = lit "none"
        /\ contains (map ascii_lower (lit "a_b"))
             (map ascii_lower (text wildcard)) = false
        /\ map UserBriefing.briefing_id
             (snd (create_user_briefings sqlite_stable (store wildcard) 9
                     (user (lit "a_b")))) = [11]).
Proof.
  exists (Paper.mk 1 (lit "x") (lit "arxiv") (lit "Advances in deep") (lit "A")
            (lit "learning for vision.") None (Some 1000) None None (lit "u")
            5 5),
    (Paper.mk 1 (lit "y") (lit "arxiv") (lit "axb") (lit "A") (lit "none")
       None (Some 1000) None None (lit "u") 5 5).
  vm_compute. repeat split; reflexivity.
Qed.

Lemma field_matching_is_disjunctive_witness :
  ilike sqlite_stable (lit "A TRANSFORMER Model")
    (lit "%" ++ lit "transformer" ++ lit "%") = true
  <-> occurs_ignoring_case (map ascii_lower) (lit "transformer")
        (lit "A TRANSFORMER Model").
Proof.
  refine (proj2 (proj2 (proj2 (proj2
    (field_matching_is_disjunctive sqlite_stable (map ascii_lower) [] [] []
       [] empty_session (User.mk 1 [] 10 true 7 [])
       (Briefing.mk 1 1 [] None 0)
       (Paper.mk 1 [] [] [] [] [] None None None None [] 0 0)))))
    (lit "transformer") (lit "A TRANSFORMER Model") _ _);
    vm_compute; intuition discriminate.
Defined.
